(** * Caption pipeline of whisper-webui-diarisation: a shallow embedding

    The development follows [src/utils.py] (timestamp formatter, line
    wrappers, caption synthesizer, SRT/VTT/HTML/text renderers, slugify,
    the parsers of the command line) and, of [app.py], the result
    accumulation ([write_result], [transcribe_webui]) and the small
    methods of the transcriber on devices and prompts.

    Modelling conventions.
    - A Python [float] is a binary64 primitive float; [==], [!=], [<=] and
      [*] are the IEEE operations of [PrimFloat].
    - A Python [int] is a [Z].
    - A Python [str] is a [string]; its characters are the code points
      0..255, and the character tables ([str.isspace], [\s], [\w],
      [str.lower]) are those of Python restricted to that range.
    - A raised exception is the [Raise] case of [result]; a generator is
      the list of the values it yields together with the exception that
      ended it, if any.
    - A file object opened for writing is the string written so far. *)

From Stdlib Require Import ZArith List String Ascii Bool Lia DecimalString DecimalN.
From Stdlib Require Import Floats.Floats.
Import ListNotations.

#[local] Set Warnings "-inexact-float".

Local Open Scope string_scope.
Local Open Scope Z_scope.

(* ================================================================== *)
(** * Exceptions *)

Inductive exn : Type :=
| AssertionError
| OverflowError
| ValueError
| TypeError.

Inductive result (A : Type) : Type :=
| Ok (a : A)
| Raise (e : exn).

Arguments Ok {A} a.
Arguments Raise {A} e.

Definition bind {A B : Type} (m : result A) (k : A -> result B) : result B :=
  match m with
  | Ok a => k a
  | Raise e => Raise e
  end.

Notation "x <- m ;; k" := (bind m (fun x => k))
  (at level 61, m at next level, right associativity).

(* ================================================================== *)
(** * Python strings *)

Module Py.

Definition nl : string := String "010"%char "".
Definition tab : string := String "009"%char "".
Definition dq : string := String "034"%char "".

(** [len(s)] *)
Definition len (s : string) : Z := Z.of_nat (String.length s).

(** [sep.join(xs)] *)
Fixpoint join (sep : string) (xs : list string) : string :=
  match xs with
  | [] => ""
  | [x] => x
  | x :: rest => x ++ sep ++ join sep rest
  end.

(** [str.isspace] on one character: the ASCII white space, the
    separators FS, GS, RS, US, NEL and the no-break space. *)
Definition isspace (c : ascii) : bool :=
  let n := nat_of_ascii c in
  ((9 <=? n) && (n <=? 13))%nat || ((28 <=? n) && (n <=? 32))%nat
  || (n =? 133)%nat || (n =? 160)%nat.

(** The stripping of the characters that satisfy [p] from the left end
    and from the right end of a string. *)
Fixpoint lstrip_by (p : ascii -> bool) (s : string) : string :=
  match s with
  | String c r => if p c then lstrip_by p r else s
  | "" => ""
  end.

Fixpoint rstrip_by (p : ascii -> bool) (s : string) : string :=
  match s with
  | "" => ""
  | String c r =>
      match rstrip_by p r with
      | "" => if p c then "" else String c ""
      | r' => String c r'
      end
  end.

(** [s.strip()] *)
Definition strip (s : string) : string := rstrip_by isspace (lstrip_by isspace s).

(** [s.replace(old, new)] for a non-empty [old]: the occurrences are
    found from the left and do not overlap.  [inside] counts the
    characters of the occurrence just replaced that are still to be
    stepped over. *)
Fixpoint replace_from (old new : string) (inside : nat) (s : string) : string :=
  match s with
  | "" => ""
  | String c r =>
      match inside with
      | S k => replace_from old new k r
      | O =>
          if String.prefix old s
          then new ++ replace_from old new (String.length old - 1) r
          else String c (replace_from old new 0 r)
      end
  end.

Definition replace (old new s : string) : string := replace_from old new 0 s.

(** The decimal digits of [|n|]. *)
Definition digits (n : Z) : string :=
  NilZero.string_of_uint (N.to_uint (Z.abs_N n)).

Fixpoint zeros (k : nat) : string :=
  match k with
  | O => ""
  | S k' => String "0"%char (zeros k')
  end.

(** [format(n, "0<width>d")]: the sign, then zeros up to the width,
    then the digits. *)
Definition format_d (width : nat) (n : Z) : string :=
  let sign := if n <? 0 then "-" else "" in
  let body := digits n in
  sign ++ zeros (width - String.length sign - String.length body) ++ body.

(** [str(n)] *)
Definition str_of_int (n : Z) : string := format_d 0 n.

End Py.

(* ================================================================== *)
(** * Timestamp formatter *)

(** The integer nearest to [m * 2^e], ties going to the even one. *)
Definition round_half_even (m e : Z) : Z :=
  if 0 <=? e then m * 2 ^ e
  else
    let d := 2 ^ (- e) in
    let q := m / d in
    let r := m mod d in
    match 2 * r ?= d with
    | Lt => q
    | Gt => q + 1
    | Eq => if Z.even q then q else q + 1
    end.

(** [round(x)] of a float with no digit count: an [int], by rounding
    half to even; infinities and NaN have no integer. *)
Definition py_round (x : float) : result Z :=
  match Prim2SF x with
  | S754_zero _ => Ok 0
  | S754_infinity _ => Raise OverflowError
  | S754_nan => Raise ValueError
  | S754_finite s m e =>
      let n := round_half_even (Zpos m) e in
      Ok (if s then - n else n)
  end.

(** The four fields, by the successive divisions and subtractions of the
    source. *)
Definition timestamp_fields (milliseconds : Z) : Z * Z * Z * Z :=
  let hours := milliseconds / 3600000 in
  let milliseconds := milliseconds - hours * 3600000 in
  let minutes := milliseconds / 60000 in
  let milliseconds := milliseconds - minutes * 60000 in
  let seconds := milliseconds / 1000 in
  let milliseconds := milliseconds - seconds * 1000 in
  (hours, minutes, seconds, milliseconds).

Definition render_fields (always_include_hours : bool) (fractionalSeperator : string)
    (f : Z * Z * Z * Z) : string :=
  let '(hours, minutes, seconds, milliseconds) := f in
  let hours_marker :=
    if always_include_hours || (0 <? hours)
    then Py.format_d 2 hours ++ ":" else "" in
  hours_marker ++ Py.format_d 2 minutes ++ ":" ++ Py.format_d 2 seconds
    ++ fractionalSeperator ++ Py.format_d 3 milliseconds.

Definition format_timestamp (seconds : float) (always_include_hours : bool)
    (fractionalSeperator : string) : result string :=
  if negb (0 <=? seconds)%float then Raise AssertionError
  else
    milliseconds <- py_round (seconds * 1000)%float ;;
    Ok (render_fields always_include_hours fractionalSeperator
          (timestamp_fields milliseconds)).


(* ================================================================== *)
(** * Flat-text wrapping: [textwrap.wrap(text, width, tabsize=4)]

    [textwrap] is Python's standard library.  The model follows
    [TextWrapper] with the options this call leaves at their defaults
    (tabs expanded, white space replaced and dropped at line ends, long
    words broken, breaks allowed after hyphens, no line limit), as in
    CPython 3.11. *)

Module TextWrap.

Definition hyphen : ascii := "-"%char.

(** [textwrap._whitespace]: tab, line feed, vertical tab, form feed,
    carriage return, space. *)
Definition whitespace (c : ascii) : bool :=
  let n := nat_of_ascii c in
  ((9 <=? n) && (n <=? 13))%nat || (n =? 32)%nat.

(** The class [\w] of [re] on text. *)
Definition word_char (c : ascii) : bool :=
  let n := nat_of_ascii c in
  (((48 <=? n) && (n <=? 57)) || ((65 <=? n) && (n <=? 90)) || (n =? 95)
   || ((97 <=? n) && (n <=? 122)) || (n =? 170) || ((178 <=? n) && (n <=? 179))
   || (n =? 181) || ((185 <=? n) && (n <=? 186)) || ((188 <=? n) && (n <=? 190))
   || ((192 <=? n) && (n <=? 214)) || ((216 <=? n) && (n <=? 246))
   || ((248 <=? n) && (n <=? 255)))%nat.

Definition digit (c : ascii) : bool :=
  let n := nat_of_ascii c in ((48 <=? n) && (n <=? 57))%nat.

(** [letter = [^\d\W]] *)
Definition letter (c : ascii) : bool := word_char c && negb (digit c).

(** [word_punct]: a word character, or one of the exclamation mark,
    the two quotes, the ampersand, the full stop, the comma and the
    question mark. *)
Definition word_punct (c : ascii) : bool :=
  let n := nat_of_ascii c in
  word_char c
  || ((n =? 33) || (n =? 34) || (n =? 39) || (n =? 38) || (n =? 46)
      || (n =? 44) || (n =? 63))%nat.

Fixpoint take (n : nat) (s : string) : string :=
  match n, s with
  | S k, String c r => String c (take k r)
  | _, _ => ""
  end.

Fixpoint drop (n : nat) (s : string) : string :=
  match n, s with
  | S k, String c r => drop k r
  | _, _ => s
  end.

(** ** [_munge_whitespace] *)

Fixpoint spaces (k : nat) : string :=
  match k with
  | O => ""
  | S k' => String " "%char (spaces k')
  end.

(** [text.expandtabs(tabsize)], [column] being the position in the
    current line. *)
Fixpoint expandtabs_from (tabsize column : nat) (s : string) : string :=
  match s with
  | "" => ""
  | String c r =>
      if Ascii.eqb c "009"
      then
        match tabsize with
        | O => expandtabs_from tabsize column r
        | S _ =>
            let incr := (tabsize - column mod tabsize)%nat in
            spaces incr ++ expandtabs_from tabsize (column + incr) r
        end
      else
        String c
          (expandtabs_from tabsize
             (if Ascii.eqb c "010" || Ascii.eqb c "013" then 0%nat else S column) r)
  end.

Definition expandtabs (tabsize : nat) (s : string) : string :=
  expandtabs_from tabsize 0 s.

(** [text.translate(unicode_whitespace_trans)] *)
Fixpoint translate_whitespace (s : string) : string :=
  match s with
  | "" => ""
  | String c r =>
      String (if whitespace c then " "%char else c) (translate_whitespace r)
  end.

Definition _munge_whitespace (tabsize : nat) (text : string) : string :=
  translate_whitespace (expandtabs tabsize text).

(** ** [_split]: the chunks matched by [wordsep_re]

    At a position of the text, [before] holds the characters to its
    left, nearest first (the look-behinds of the expression reach back
    over chunk borders). *)

Fixpoint whitespace_run (s : string) : nat :=
  match s with
  | String c r => if whitespace c then S (whitespace_run r) else O
  | "" => O
  end.

Fixpoint hyphen_run (s : string) : nat :=
  match s with
  | String c r => if Ascii.eqb c hyphen then S (hyphen_run r) else O
  | "" => O
  end.

(** Look-ahead [-{2,}\w]: the length of the run of hyphens. *)
Definition emdash_ahead (s : string) : option nat :=
  let k := hyphen_run s in
  match drop k s with
  | String c _ => if (2 <=? k)%nat && word_char c then Some k else None
  | "" => None
  end.

(** Second alternative, [(?<=wp) -{2,} (?=\w)]. *)
Definition emdash_between (before : list ascii) (s : string) : option nat :=
  match before with
  | p :: _ => if word_punct p then emdash_ahead s else None
  | [] => None
  end.

(** Look-ahead [lt -? lt]. *)
Definition letters_ahead (s : string) : bool :=
  match s with
  | String a (String b r) =>
      letter a
      && (letter b
          || (Ascii.eqb b hyphen
              && match r with String c _ => letter c | "" => false end))
  | _ => false
  end.

(** Look-behind of the hyphenated word, the hyphen itself set aside:
    [lt{2}] or [lt - lt] just before it. *)
Definition letters_behind (before : list ascii) : bool :=
  match before with
  | a :: b :: rest =>
      letter a
      && (letter b
          || (Ascii.eqb b hyphen
              && match rest with c :: _ => letter c | [] => false end))
  | _ => false
  end.

(** Third alternative: the lazy [nws+?] takes one more character at a
    time until one of its three endings holds. *)
Fixpoint word_chunk (before : list ascii) (s : string) : nat :=
  match s with
  | "" => O
  | String c r =>
      let before' := c :: before in
      match r with
      | "" => 1%nat
      | String d r' =>
          if Ascii.eqb d hyphen && letters_behind before' && letters_ahead r'
          then 2%nat
          else if whitespace d then 1%nat
          else if word_punct c
                  && match emdash_ahead r with Some _ => true | None => false end
          then 1%nat
          else S (word_chunk before' r)
      end
  end.

Definition chunk_length (before : list ascii) (s : string) : nat :=
  match s with
  | "" => O
  | String c _ =>
      if whitespace c then whitespace_run s
      else
        match emdash_between before s with
        | Some k => k
        | None => word_chunk before s
        end
  end.

Fixpoint push (s : string) (before : list ascii) : list ascii :=
  match s with
  | "" => before
  | String c r => push r (c :: before)
  end.

Fixpoint split_from (fuel : nat) (before : list ascii) (s : string) : list string :=
  match fuel with
  | O => []
  | S fuel' =>
      match s with
      | "" => []
      | _ =>
          let n := chunk_length before s in
          take n s :: split_from fuel' (push (take n s) before) (drop n s)
      end
  end.

Definition _split (text : string) : list string :=
  split_from (String.length text) [] text.

(** ** [_wrap_chunks] *)

(** [chunk.strip() == ''] *)
Definition blank (chunk : string) : bool := String.eqb (Py.strip chunk) "".

(** The inner loop: chunks go onto the current line while they fit. *)
Fixpoint fill_line (width : Z) (chunks cur_line : list string) (cur_len : Z)
  : list string * list string * Z :=
  match chunks with
  | [] => ([], cur_line, cur_len)
  | chunk :: rest =>
      let l := Py.len chunk in
      if cur_len + l <=? width
      then fill_line width rest (cur_line ++ [chunk])%list (cur_len + l)
      else (chunks, cur_line, cur_len)
  end.

(** [chunk.rfind('-', 0, stop)], [None] standing for [-1]; [i] is the
    index of the head of [s]. *)
Fixpoint rfind_hyphen_from (i stop : nat) (s : string) : option nat :=
  match s with
  | "" => None
  | String c r =>
      if (i <? stop)%nat
      then
        match rfind_hyphen_from (S i) stop r with
        | Some j => Some j
        | None => if Ascii.eqb c hyphen then Some i else None
        end
      else None
  end.

(** [any(c != '-' for c in s)] *)
Fixpoint any_not_hyphen (s : string) : bool :=
  match s with
  | "" => false
  | String c r => negb (Ascii.eqb c hyphen) || any_not_hyphen r
  end.

(** [_handle_long_word], for a pending chunk that is longer than the
    line: its head goes onto the line, cut after the last hyphen that
    fits when there is one with something other than hyphens before
    it. *)
Definition _handle_long_word (chunks cur_line : list string) (cur_len width : Z)
  : list string * list string :=
  let space_left := if width <? 1 then 1 else width - cur_len in
  match chunks with
  | [] => (chunks, cur_line)
  | chunk :: rest =>
      let end_ :=
        if space_left <? Py.len chunk
        then
          match rfind_hyphen_from 0 (Z.to_nat space_left) chunk with
          | Some h =>
              if (0 <? h)%nat && any_not_hyphen (take h chunk)
              then Z.of_nat h + 1 else space_left
          | None => space_left
          end
        else space_left in
      (drop (Z.to_nat end_) chunk :: rest,
       (cur_line ++ [take (Z.to_nat end_) chunk])%list)
  end.

(** The last chunk of a line is dropped when it is blank. *)
Definition drop_trailing_blank (cur_line : list string) : list string :=
  match List.rev cur_line with
  | last :: front => if blank last then List.rev front else cur_line
  | [] => cur_line
  end.

(** One round of the outer loop, on chunks that are not exhausted: the
    chunks left and the lines so far. *)
Definition wrap_round (width : Z) (chunks lines : list string)
  : list string * list string :=
  let chunks :=
    match chunks with
    | first :: rest =>
        if blank first && negb (Nat.eqb (List.length lines) 0)
        then rest else chunks
    | [] => chunks
    end in
  let '(chunks, cur_line, cur_len) := fill_line width chunks [] 0 in
  let '(chunks, cur_line) :=
    match chunks with
    | chunk :: _ =>
        if width <? Py.len chunk
        then _handle_long_word chunks cur_line cur_len width
        else (chunks, cur_line)
    | [] => (chunks, cur_line)
    end in
  let cur_line := drop_trailing_blank cur_line in
  match cur_line with
  | [] => (chunks, lines)
  | _ => (chunks, (lines ++ [Py.join "" cur_line])%list)
  end.

(** The outer loop, [while chunks], one line for each round.  Every
    round takes at least one character off [chunks], so a round for each
    character of the text is enough ([wrap_lines_fuel] below). *)
Fixpoint wrap_lines (fuel : nat) (width : Z) (chunks lines : list string)
  : list string :=
  match fuel with
  | O => lines
  | S fuel' =>
      match chunks with
      | [] => lines
      | _ :: _ =>
          let '(chunks', lines') := wrap_round width chunks lines in
          wrap_lines fuel' width chunks' lines'
      end
  end.

Definition _wrap_chunks (width : Z) (chunks : list string) : result (list string) :=
  if width <=? 0 then Raise ValueError
  else Ok (wrap_lines (S (String.length (Py.join "" chunks))) width chunks []).

(** [textwrap.wrap(text, width=width, tabsize=tabsize)] *)
Definition wrap (text : string) (width : Z) (tabsize : nat) : result (list string) :=
  _wrap_chunks width (_split (_munge_whitespace tabsize text)).

End TextWrap.

(* ================================================================== *)
(** * Caption line wrapper *)

(** [maxLineWidth is None or maxLineWidth < 0] *)
Definition no_budget (maxLineWidth : option Z) : bool :=
  match maxLineWidth with
  | None => true
  | Some w => w <? 0
  end.

Definition process_text (text : string) (maxLineWidth : option Z) : result string :=
  match maxLineWidth with
  | None => Ok text
  | Some w =>
      if w <? 0 then Ok text
      else
        lines <- TextWrap.wrap text w 4 ;;
        Ok (Py.join Py.nl lines)
  end.

(** A token: a string, or a dict with the word and the length it is to
    count for. *)
Inductive entry : Type :=
| Str (word : string)
| Dict (word : string) (length : Z).

(** The items of [" ".join(words)], which must all be strings. *)
Fixpoint str_items (words : list entry) : result (list string) :=
  match words with
  | [] => Ok []
  | Str word :: rest => items <- str_items rest ;; Ok (word :: items)
  | Dict _ _ :: _ => Raise TypeError
  end.

Definition entry_word (e : entry) : string :=
  match e with
  | Str word => word
  | Dict word _ => word
  end.

Definition entry_length (e : entry) : Z :=
  match e with
  | Str word => Py.len word
  | Dict _ length => length
  end.

(** The loop of [__join_words] over [words], from the state
    [(lines, current_line, current_length)]. *)
Fixpoint join_words_loop (maxLineWidth : Z) (words : list entry)
    (lines : list string) (current_line : string) (current_length : Z)
  : list string * string * Z :=
  match words with
  | [] => (lines, current_line, current_length)
  | e :: rest =>
      let word := entry_word e in
      let word_length := entry_length e in
      if (0 <? current_length) && (maxLineWidth <? current_length + word_length)
      then
        join_words_loop maxLineWidth rest (lines ++ [current_line])%list
          ("" ++ word) (0 + word_length)
      else
        join_words_loop maxLineWidth rest lines
          (current_line ++ word) (current_length + word_length)
  end.

(** After the loop: the line being filled is added when it has text. *)
Definition close_lines (state : list string * string * Z) : list string :=
  let '(lines, current_line, _) := state in
  if 0 <? Py.len current_line then (lines ++ [current_line])%list else lines.

Definition __join_words (words : list entry) (maxLineWidth : option Z)
  : result string :=
  match maxLineWidth with
  | None => items <- str_items words ;; Ok (Py.join " " items)
  | Some w =>
      if w <? 0 then items <- str_items words ;; Ok (Py.join " " items)
      else Ok (Py.join Py.nl (close_lines (join_words_loop w words [] "" 0)))
  end.

(* ================================================================== *)
(** * Data model *)

Record Word : Type := {
  word_start : float;
  word_end : float;
  word_word : string
}.

(** A segment dict.  The keys [words] and [longest_speaker] are read
    with [dict.get], so they may be missing. *)
Record Segment : Type := {
  seg_start : float;
  seg_end : float;
  seg_text : string;
  seg_words : option (list Word);
  seg_longest_speaker : option string
}.

Record Cue : Type := {
  cue_start : float;
  cue_end : float;
  cue_text : string
}.

(** A generator that has been run to its end: what it yielded, and the
    exception that stopped it, if one did. *)
Record stream (A : Type) : Type := {
  yielded : list A;
  raised : option exn
}.

Arguments yielded {A} s.
Arguments raised {A} s.

(* ================================================================== *)
(** * Caption synthesizer *)

Fixpoint space_run (s : string) : nat :=
  match s with
  | String c r => if Py.isspace c then S (space_run r) else O
  | "" => O
  end.

Fixpoint line_run (s : string) : nat :=
  match s with
  | String c r => if Ascii.eqb c "010" then O else S (line_run r)
  | "" => O
  end.

(** The [re.sub] of the highlighted word.  Its pattern is: start of the
    word, a group of white space, a group of characters other than the
    line feed, end of the word; the replacement is the first group, the
    tag <u>, the second group, the tag </u>.  The pattern matches at the
    start only, and the end of the word may stand before a last line
    feed; a word it does not match is returned as it is. *)
Definition underline (word : string) : string :=
  let lead := TextWrap.take (space_run word) word in
  let rest := TextWrap.drop (space_run word) word in
  let body := TextWrap.take (line_run rest) rest in
  let tail := TextWrap.drop (line_run rest) rest in
  if String.eqb tail "" || String.eqb tail Py.nl
  then lead ++ "<u>" ++ body ++ "</u>" ++ tail
  else word.

(** The token list of the cue that highlights word [i]: counting from
    [j], every word with its own length, word [i] underlined. *)
Fixpoint highlight_entries_from (j i : nat) (text_words : list string) : list entry :=
  match text_words with
  | [] => []
  | word :: rest =>
      Dict (if Nat.eqb j i then underline word else word) (Py.len word)
        :: highlight_entries_from (S j) i rest
  end.

Definition highlight_entries (i : nat) (text_words : list string) : list entry :=
  highlight_entries_from 0 i text_words.

Definition mk_cue (start end_ : float) (text : string) : Cue :=
  {| cue_start := start; cue_end := end_; cue_text := text |}.

(** The loop over the words, from word [i] on: the cues it yields, and
    the cursor [last] it ends with unless a cue text could not be
    built. *)
Fixpoint highlight_loop (maxLineWidth : option Z) (text_words : list string)
    (subtitle_text : string) (i : nat) (words : list Word) (last : float)
  : list Cue * result float :=
  match words with
  | [] => ([], Ok last)
  | this_word :: rest =>
      let start := word_start this_word in
      let end_ := word_end this_word in
      let filler :=
        if negb (last =? start)%float
        then [mk_cue last start subtitle_text] else [] in
      match __join_words (highlight_entries i text_words) maxLineWidth with
      | Raise e => (filler, Raise e)
      | Ok text =>
          let '(cues, r) :=
            highlight_loop maxLineWidth text_words subtitle_text (S i) rest end_ in
          ((filler ++ mk_cue start end_ text :: cues)%list, r)
      end
  end.

(** The pseudo-word of the speaker label, of no duration, at the start
    of the segment. *)
Definition speaker_word (subtitle_start : float) (speaker : string) : Word :=
  {| word_start := subtitle_start;
     word_end := subtitle_start;
     word_word := "(" ++ speaker ++ ")" |}.

(** The body of the generator for one segment: the segment as the body
    leaves it, and what it yields. *)
Definition preprocess_segment (maxLineWidth : option Z) (highlight_words : bool)
    (segment : Segment) : Segment * stream Cue :=
  let words := match seg_words segment with Some l => l | None => [] end in
  let segment_longest_speaker := seg_longest_speaker segment in
  match words with
  | [] =>
      match segment_longest_speaker with
      | None =>
          if no_budget maxLineWidth
          then
            (segment,
             {| yielded := [mk_cue (seg_start segment) (seg_end segment) (seg_text segment)];
                raised := None |})
          else
            match process_text (Py.strip (seg_text segment)) maxLineWidth with
            | Ok text =>
                (segment,
                 {| yielded := [mk_cue (seg_start segment) (seg_end segment) text];
                    raised := None |})
            | Raise e => (segment, {| yielded := []; raised := Some e |})
            end
      | Some speaker =>
          match process_text ("(" ++ speaker ++ ") " ++ Py.strip (seg_text segment))
                  maxLineWidth with
          | Ok text =>
              (segment,
               {| yielded := [mk_cue (seg_start segment) (seg_end segment) text];
                  raised := None |})
          | Raise e => (segment, {| yielded := []; raised := Some e |})
          end
      end
  | _ :: _ =>
      let subtitle_start := seg_start segment in
      let subtitle_end := seg_end segment in
      (* [words.insert(0, ...)] acts on the list the segment holds *)
      let words :=
        match segment_longest_speaker with
        | Some speaker => speaker_word subtitle_start speaker :: words
        | None => words
        end in
      let segment :=
        {| seg_start := seg_start segment;
           seg_end := seg_end segment;
           seg_text := seg_text segment;
           seg_words := Some words;
           seg_longest_speaker := seg_longest_speaker segment |} in
      let text_words := List.map word_word words in
      match __join_words (List.map Str text_words) maxLineWidth with
      | Raise e => (segment, {| yielded := []; raised := Some e |})
      | Ok subtitle_text =>
          if highlight_words
          then
            match highlight_loop maxLineWidth text_words subtitle_text 0 words
                    subtitle_start with
            | (cues, Raise e) => (segment, {| yielded := cues; raised := Some e |})
            | (cues, Ok last) =>
                let closing :=
                  if negb (last =? subtitle_end)%float
                  then [mk_cue last subtitle_end subtitle_text] else [] in
                (segment, {| yielded := (cues ++ closing)%list; raised := None |})
            end
          else
            (segment,
             {| yielded := [mk_cue subtitle_start subtitle_end subtitle_text];
                raised := None |})
      end
  end.

(** The generator over a transcript.  The transcript is a list of shared
    segment dicts: the result carries them as the generator leaves them. *)
Fixpoint __subtitle_preprocessor_iterator (transcript : list Segment)
    (maxLineWidth : option Z) (highlight_words : bool)
  : list Segment * stream Cue :=
  match transcript with
  | [] => ([], {| yielded := []; raised := None |})
  | segment :: rest =>
      let '(segment', out) := preprocess_segment maxLineWidth highlight_words segment in
      match raised out with
      | Some e => (segment' :: rest, out)
      | None =>
          let '(rest', out') :=
            __subtitle_preprocessor_iterator rest maxLineWidth highlight_words in
          (segment' :: rest',
           {| yielded := (yielded out ++ yielded out')%list; raised := raised out' |})
      end
  end.

(* ================================================================== *)
(** * Format renderers *)

(** [print(s, file=file)] *)
Definition print (s : string) (file : string) : string := file ++ s ++ Py.nl.

(** The text of one SRT block, as the [print] of [write_srt] writes it. *)
Definition srt_block (i : Z) (segment : Cue) : result string :=
  let text := Py.replace "-->" "->" (cue_text segment) in
  start <- format_timestamp (cue_start segment) true "," ;;
  end_ <- format_timestamp (cue_end segment) true "," ;;
  Ok (Py.str_of_int i ++ Py.nl ++ start ++ " --> " ++ end_ ++ Py.nl ++ text ++ Py.nl).

(** The text of one VTT block. *)
Definition vtt_block (i : Z) (segment : Cue) : result string :=
  let text := Py.replace "-->" "->" (cue_text segment) in
  start <- format_timestamp (cue_start segment) false "." ;;
  end_ <- format_timestamp (cue_end segment) false "." ;;
  Ok (start ++ " --> " ++ end_ ++ Py.nl ++ text ++ Py.nl).

(** The renderer's loop over the cues one segment yields, [i] numbering
    them: the file, the next number, and the exception of the cue that
    could not be written. *)
Fixpoint write_cues (block : Z -> Cue -> result string) (i : Z)
    (cues : list Cue) (file : string) : string * Z * option exn :=
  match cues with
  | [] => (file, i, None)
  | segment :: rest =>
      match block i segment with
      | Raise e => (file, i, Some e)
      | Ok s => write_cues block (i + 1) rest (print s file)
      end
  end.

(** A renderer pulling the generator: a segment is taken up (and its
    word list touched) only when the cues of the segments before it
    have been written. *)
Fixpoint render_transcript (block : Z -> Cue -> result string)
    (transcript : list Segment) (maxLineWidth : option Z) (highlight_words : bool)
    (i : Z) (file : string) : list Segment * string * option exn :=
  match transcript with
  | [] => ([], file, None)
  | segment :: rest =>
      let '(segment', out) := preprocess_segment maxLineWidth highlight_words segment in
      match write_cues block i (yielded out) file with
      | (file', _, Some e) => (segment' :: rest, file', Some e)
      | (file', i', None) =>
          match raised out with
          | Some e => (segment' :: rest, file', Some e)
          | None =>
              let '(rest', file'', r) :=
                render_transcript block rest maxLineWidth highlight_words i' file' in
              (segment' :: rest', file'', r)
          end
      end
  end.

Definition write_srt (transcript : list Segment) (file : string)
    (maxLineWidth : option Z) (highlight_words : bool)
  : list Segment * string * option exn :=
  render_transcript srt_block transcript maxLineWidth highlight_words 1 file.

Definition write_vtt (transcript : list Segment) (file : string)
    (maxLineWidth : option Z) (highlight_words : bool)
  : list Segment * string * option exn :=
  render_transcript vtt_block transcript maxLineWidth highlight_words 1
    (print ("WEBVTT" ++ Py.nl) file).

(** The inline style sheet of [write_html]. *)
Definition css : string := "
      body {
        color-scheme: light dark;
        color: #ffffffde;
        background-color: #242424;
      }
      
      span.timestamp {
        font-family: monospace;
      }
      
      div.segment {
        display: flex;
        align-items: center;
        gap: 1rem;
        text-align: left;
      }
      
      .speaker.s00 {
        color: #59ffa1;
      }
      
      .speaker.s01 {
        color: #597aff;
      }
      
      .speaker.s02 {
        color: #ff9595;
      }
      
      .speaker.s03 {
        color: #e29b16;
      }
      
      .speaker.s04 {
        color: #e29b16;
      }
      
      .speaker.s05 {
        color: #8316e2;
      }
      
      .speaker.s06 {
        color: #8316e2;
      }
      
      .speaker.s07 {
        color: #16e29b;
      }
      
      .speaker.s08 {
        color: #e23f16;
      }
      
      .speaker.s09 {
        color: #e23f16;
      }
      
      .speaker.s10 {
        color: #16bae2;
      }
      
      .speaker.s11 {
        color: #a9e216;
      }
      
      .speaker.s12 {
        color: #1676e2;
      }
      
      .speaker.s13 {
        color: #163fe2;
      }
      
      .speaker.s14 {
        color: #16bae2;
      }
      
      .speaker.s15 {
        color: #e2165e;
      }
      
      .speaker.s16 {
        color: #e23516;
      }
      
      .speaker.s17 {
        color: #16e287;
      }
      
      .speaker.s18 {
        color: #16bae2;
      }
      
      .speaker.s19 {
        color: #e2a216;
      }
    ".

(** [re.search] for the text SPEAKER_ followed by digits, on a string:
    the digits of the leftmost match. *)
Fixpoint digit_run (s : string) : string :=
  match s with
  | String c r => if TextWrap.digit c then String c (digit_run r) else ""
  | "" => ""
  end.

Fixpoint search_speaker (s : string) : option string :=
  match s with
  | "" => None
  | String _ r =>
      if String.prefix "SPEAKER_" s
         && negb (String.eqb (digit_run (TextWrap.drop 8 s)) "")
      then Some (digit_run (TextWrap.drop 8 s))
      else search_speaker r
  end.

(** The speaker id of a segment.  [re.search] is handed what
    [segment.get('longest_speaker', None)] returns, and it raises
    [TypeError] on [None]. *)
Definition speakerid (segment_longest_speaker : option string) : result string :=
  match segment_longest_speaker with
  | None => Raise TypeError
  | Some label =>
      match search_speaker label with
      | Some digits => Ok digits
      | None => Ok ""
      end
  end.

Definition html_block (segment : Segment) : result string :=
  let text := Py.strip (seg_text segment) in
  speakerid <- speakerid (seg_longest_speaker segment) ;;
  start <- format_timestamp (seg_start segment) false "." ;;
  Ok (Py.tab ++ Py.tab ++ Py.tab ++ "<div class=" ++ Py.dq ++ "segment" ++ Py.dq ++ ">"
      ++ Py.nl ++ Py.tab ++ Py.tab ++ "<span class=" ++ Py.dq ++ "timestamp" ++ Py.dq ++ ">"
      ++ start ++ "</span>" ++ Py.nl
      ++ Py.tab ++ Py.tab ++ Py.tab ++ Py.tab ++ "<span class=" ++ Py.dq ++ "speaker s"
      ++ speakerid ++ Py.dq ++ ">" ++ speakerid ++ "</span>" ++ Py.nl
      ++ Py.tab ++ Py.tab ++ Py.tab ++ Py.tab ++ "<p class=" ++ Py.dq ++ "speaker s"
      ++ speakerid ++ Py.dq ++ ">" ++ text ++ "</p>" ++ Py.nl
      ++ Py.tab ++ Py.tab ++ Py.tab ++ "</div>" ++ Py.nl).

Fixpoint write_html_segments (transcript : list Segment) (file : string)
  : string * option exn :=
  match transcript with
  | [] => (file, None)
  | segment :: rest =>
      match html_block segment with
      | Raise e => (file, Some e)
      | Ok s => write_html_segments rest (print s file)
      end
  end.

Definition html_head (file : string) : string :=
  let file := print "<html>" file in
  let file :=
    print (Py.tab ++ "<head>" ++ Py.tab ++ Py.tab ++ "<style>" ++ css
           ++ Py.tab ++ Py.tab ++ "</style>" ++ Py.tab ++ "</head>") file in
  let file := print (Py.tab ++ "<body>" ++ Py.nl) file in
  print (Py.tab ++ Py.tab ++ "<div class='segments'>" ++ Py.nl) file.

Definition write_html (transcript : list Segment) (file : string)
    (maxLineWidth : option Z) (highlight_words : bool) : string * option exn :=
  match write_html_segments transcript (html_head file) with
  | (file, Some e) => (file, Some e)
  | (file, None) =>
      let file := print (Py.tab ++ Py.tab ++ "</div>" ++ Py.nl) file in
      (print (Py.tab ++ "</body></html>") file, None)
  end.

(* ================================================================== *)
(** * Slugify *)

Module Slug.

Definition lower_char (c : ascii) : ascii :=
  let n := nat_of_ascii c in
  if (((65 <=? n) && (n <=? 90)) || ((192 <=? n) && (n <=? 214))
      || ((216 <=? n) && (n <=? 222)))%nat
  then ascii_of_nat (n + 32) else c.

(** [value.lower()] *)
Fixpoint lower (s : string) : string :=
  match s with
  | "" => ""
  | String c r => String (lower_char c) (lower r)
  end.

(** [value.encode('ascii', 'ignore').decode('ascii')] *)
Fixpoint ascii_ignore (s : string) : string :=
  match s with
  | "" => ""
  | String c r =>
      if (nat_of_ascii c <? 128)%nat then String c (ascii_ignore r)
      else ascii_ignore r
  end.

(** The character set [\w\s-] of the first substitution. *)
Definition kept (c : ascii) : bool :=
  TextWrap.word_char c || Py.isspace c || Ascii.eqb c "-".

(** [re.sub(r'[^\w\s-]', '', value)] *)
Fixpoint drop_others (s : string) : string :=
  match s with
  | "" => ""
  | String c r => if kept c then String c (drop_others r) else drop_others r
  end.

(** The character set [-\s] of the second substitution. *)
Definition separator (c : ascii) : bool := Ascii.eqb c "-" || Py.isspace c.

(** [re.sub(r'[-\s]+', '-', value)]; [in_run] tells that the character
    before was a separator, whose run has been replaced already. *)
Fixpoint collapse_from (in_run : bool) (s : string) : string :=
  match s with
  | "" => ""
  | String c r =>
      if separator c
      then if in_run then collapse_from true r
           else String "-" (collapse_from true r)
      else String c (collapse_from false r)
  end.

Definition collapse (s : string) : string := collapse_from false s.

Definition dash_or_underscore (c : ascii) : bool :=
  Ascii.eqb c "-" || Ascii.eqb c "_".

(** [value.strip('-_')] *)
Definition strip_chars (s : string) : string :=
  Py.rstrip_by dash_or_underscore (Py.lstrip_by dash_or_underscore s).

(** [slugify(value, allow_unicode)].  [normalize form value] stands
    for [unicodedata.normalize(form, value)], a table of the Python
    library; on ASCII text it returns [value]. *)
Definition slugify (normalize : string -> string -> string)
    (value : string) (allow_unicode : bool) : string :=
  let value :=
    if allow_unicode then normalize "NFKC" value
    else ascii_ignore (normalize "NFKD" value) in
  let value := drop_others (lower value) in
  strip_chars (collapse value).

(** The normal forms on ASCII text. *)
Definition normalize_ascii (form value : string) : string := value.

End Slug.

(* ================================================================== *)
(** * Writing the result of a source, and the dispatcher (app.py) *)

Record TranscriptionResult : Type := {
  res_text : string;
  res_language : option string;
  res_segments : list Segment
}.

Definition __get_max_line_width (language : option string) : Z :=
  match language with
  | Some l =>
      if negb (String.eqb l "")
         && existsb (String.eqb (Slug.lower l)) ["japanese"; "ja"; "chinese"; "zh"]
      then 40 else 80
  | None => 80
  end.

Inductive app_exn : Type :=
| UnknownFormat (format : string)
| Raised (e : exn).

(** [__get_subs]: the text written into a fresh [StringIO], and the
    segments as the writer leaves them. *)
Definition __get_subs (segments : list Segment) (format : string)
    (maxLineWidth : Z) (highlight_words : bool)
  : list Segment * (string + app_exn) :=
  if String.eqb format "vtt" then
    match write_vtt segments "" (Some maxLineWidth) highlight_words with
    | (segments', file, None) => (segments', inl file)
    | (segments', _, Some e) => (segments', inr (Raised e))
    end
  else if String.eqb format "srt" then
    match write_srt segments "" (Some maxLineWidth) highlight_words with
    | (segments', file, None) => (segments', inl file)
    | (segments', _, Some e) => (segments', inr (Raised e))
    end
  else if String.eqb format "html" then
    match write_html segments "" (Some maxLineWidth) highlight_words with
    | (file, None) => (segments, inl file)
    | (_, Some e) => (segments, inr (Raised e))
    end
  else (segments, inr (UnknownFormat format)).

(** What [write_result] produces for one source: the names of the files
    it writes (in [output_dir]), the three subtitle texts, the plain text
    it returns, and the segments of [result] afterwards.  The JSON dump
    is written before the subtitles and is not modelled beyond its
    name. *)
Record written : Type := {
  output_files : list string;
  out_text : string;
  out_vtt : string;
  out_srt : string;
  out_html : string;
  segments_after : list Segment
}.

Definition write_result (result : TranscriptionResult) (source_name : string)
    (highlight_words : bool) : written + app_exn :=
  let text := res_text result in
  let languageMaxLineWidth := __get_max_line_width (res_language result) in
  let json_file := source_name ++ "-result.json" in
  match __get_subs (res_segments result) "vtt" languageMaxLineWidth highlight_words with
  | (_, inr e) => inr e
  | (segments1, inl vtt) =>
      match __get_subs segments1 "srt" languageMaxLineWidth highlight_words with
      | (_, inr e) => inr e
      | (segments2, inl srt) =>
          match __get_subs segments2 "html" languageMaxLineWidth highlight_words with
          | (_, inr e) => inr e
          | (segments3, inl html) =>
              inl {| output_files :=
                       [source_name ++ "-subs.srt"; source_name ++ "-subs.vtt";
                        source_name ++ "-transcript.txt";
                        source_name ++ "-transcript.html"; json_file];
                     out_text := text;
                     out_vtt := vtt;
                     out_srt := srt;
                     out_html := html;
                     segments_after := segments3 |}
          end
      end
  end.

(** An audio source, with the names its methods return, and the result
    the recognition (or the override) returns for it. *)
Record AudioSource : Type := {
  get_full_name : string;
  get_short_name : string;
  transcribed : TranscriptionResult
}.

(** [slugify(source_prefix + source.get_short_name(), allow_unicode=True)] *)
Definition file_prefix (normalize : string -> string -> string)
    (source_prefix : string) (source : AudioSource) : string :=
  Slug.slugify normalize (source_prefix ++ get_short_name source) true.

(** [os.path.join(a, b)] of [posixpath], for two components. *)
Definition os_path_join (a b : string) : string :=
  if String.prefix "/" b then b
  else
    match a with
    | "" => a ++ b
    | _ =>
        if String.eqb (TextWrap.drop (String.length a - 1) a) "/" then a ++ b
        else a ++ "/" ++ b
    end.

(** [__create_file]: the name of the file it has opened and written,
    which it returns. *)
Definition __create_file (directory fileName : string) : string :=
  os_path_join directory fileName.

(** The loop of [transcribe_webui] over the sources, from the state
    [(source_index, download, text, vtt)]; [multiple] is
    [len(sources) > 1] and [linesep] is [os.linesep].  The files that
    [write_result] returns are those of [output_files], as
    [__create_file] names them in [outputDirectory]. *)
Fixpoint transcribe_sources (normalize : string -> string -> string)
    (linesep outputDirectory : string) (multiple highlight_words : bool)
    (sources : list AudioSource) (source_index : Z)
    (download : list string) (text vtt : string)
  : (list string * string * string) + app_exn :=
  match sources with
  | [] => inl (download, text, vtt)
  | source :: rest =>
      let source_index := if multiple then source_index + 1 else source_index in
      let source_prefix :=
        if multiple then Py.format_d 2 source_index ++ "_" else "" in
      let result := transcribed source in
      let filePrefix := file_prefix normalize source_prefix source in
      match write_result result filePrefix highlight_words with
      | inr e => inr e
      | inl w =>
          let source_download :=
            List.map (__create_file outputDirectory) (output_files w) in
          let source_text := out_text w in
          let source_vtt := out_vtt w in
          let source_text :=
            if multiple
            then
              get_full_name source ++ ":" ++ linesep
              ++ (if 0 <? Py.len source_text
                  then source_text ++ linesep ++ linesep else source_text)
            else source_text in
          let source_vtt :=
            if multiple
            then
              get_full_name source ++ ":" ++ linesep
              ++ (if 0 <? Py.len source_vtt
                  then source_vtt ++ linesep ++ linesep else source_vtt)
            else source_vtt in
          transcribe_sources normalize linesep outputDirectory multiple
            highlight_words rest
            source_index (download ++ source_download)%list
            (text ++ source_text) (vtt ++ source_vtt)
      end
  end.

(** What [__get_source] gives: the sources, or the exception that
    [transcribe_webui] catches, with [str(e.maxDuration)] and
    [str(e.videoDuration)]. *)
Inductive SourceOutcome : Type :=
| Sources (sources : list AudioSource)
| ExceededMaximumDuration (maxDuration videoDuration : string).

(** What [transcribe_webui] returns or raises.  [output_dir] is
    [self.output_dir], [downloadDirectory] the directory that
    [tempfile.mkdtemp()] has made, and [stamp] the text of
    [datetime.now().strftime("%Y%m%d-%H%M%S")].  With several sources
    the path of the archive of all files comes first (the archive is
    written to disk; what it holds is not part of the result). *)
Definition transcribe_webui (normalize : string -> string -> string)
    (linesep : string) (output_dir : option string)
    (downloadDirectory stamp : string) (override_max_sources : option Z)
    (highlight_words : bool) (source : SourceOutcome)
  : (list string * string * string) + app_exn :=
  match source with
  | ExceededMaximumDuration maxDuration videoDuration =>
      inl ([],
           "[ERROR]: Maximum remote video length is " ++ maxDuration
           ++ "s, file was " ++ videoDuration ++ "s",
           "[ERROR]")
  | Sources sources =>
      if match override_max_sources with
         | Some limit => limit <? Z.of_nat (List.length sources)
         | None => false
         end
      then inr (Raised ValueError)
      else
        let outputDirectory :=
          match output_dir with
          | Some directory => directory
          | None => downloadDirectory
          end in
        match transcribe_sources normalize linesep outputDirectory
                (1 <? Z.of_nat (List.length sources)) highlight_words
                sources 0 [] "" "" with
        | inr e => inr e
        | inl (download, text, vtt) =>
            if 1 <? Z.of_nat (List.length sources)
            then
              let downloadAllPath :=
                os_path_join downloadDirectory
                  ("All_Output-" ++ stamp ++ ".zip") in
              inl (downloadAllPath :: download, text, vtt)
            else inl (download, text, vtt)
        end
  end.

(* ================================================================== *)
(** * Helpers of the command line and of the transcriber *)

(** [ZeroDivisionError], which the integer division raises, beside the
    exceptions of the caption code. *)
Inductive arith_exn : Type :=
| ZeroDivisionError
| Other (e : exn).

(** [exact_div(x, y)] on integers: [%] and [//] are the flooring
    operations, and [%] is evaluated first. *)
Definition exact_div (x y : Z) : Z + arith_exn :=
  if y =? 0 then inr ZeroDivisionError
  else if x mod y =? 0 then inl (x / y)
  else inr (Other AssertionError).

(** [str(b)] for a boolean. *)
Definition str_of_bool (b : bool) : string := if b then "True" else "False".

Definition str2bool (string : string) : result bool :=
  if String.eqb string "True" then Ok true
  else if String.eqb string "False" then Ok false
  else Raise ValueError.

(** [int(s)] for a string, in base ten: white space is stripped at both
    ends, a sign may come first, and the digits may be separated by
    single underscores.  More digits than [max_str_digits] are refused
    (the default of [sys.get_int_max_str_digits()]). *)
Module PyInt.

Definition max_str_digits : nat := 4300.

(** The white space [int] strips: the ASCII one, NEL and the no-break
    space. *)
Definition space (c : ascii) : bool :=
  let n := nat_of_ascii c in
  (((9 <=? n) && (n <=? 13)) || (n =? 32) || (n =? 133) || (n =? 160))%nat.

(** The digits of a literal without its underscores; [after_digit]
    tells that the character before was a digit. *)
Fixpoint plain_digits (after_digit : bool) (s : string) : option string :=
  match s with
  | "" => if after_digit then Some "" else None
  | String c r =>
      if TextWrap.digit c
      then option_map (String c) (plain_digits true r)
      else if Ascii.eqb c "_" && after_digit then plain_digits false r
      else None
  end.

Definition value (digits : string) : option Z :=
  option_map (fun d => Z.of_N (N.of_uint d)) (NilEmpty.uint_of_string digits).

Definition magnitude (body : string) : result Z :=
  match plain_digits false body with
  | Some digits =>
      if (max_str_digits <? String.length digits)%nat then Raise ValueError
      else match value digits with
           | Some n => Ok n
           | None => Raise ValueError
           end
  | None => Raise ValueError
  end.

Definition int (s : string) : result Z :=
  match Py.rstrip_by space (Py.lstrip_by space s) with
  | String c body =>
      if Ascii.eqb c "-" then n <- magnitude body ;; Ok (- n)
      else if Ascii.eqb c "+" then magnitude body
      else magnitude (String c body)
  | "" => Raise ValueError
  end.

End PyInt.

Definition optional_int (string : string) : result (option Z) :=
  if String.eqb string "None" then Ok None
  else n <- PyInt.int string ;; Ok (Some n).

(** [write_txt]: one printed line for each segment. *)
Fixpoint write_txt (transcript : list Segment) (file : string) : string :=
  match transcript with
  | [] => file
  | segment :: rest => write_txt rest (print (Py.strip (seg_text segment)) file)
  end.

(** The fields of [WhisperTranscriber] that tell whether the work is
    spread over several devices. *)
Record WhisperTranscriber : Type := {
  parallel_device_list : option (list string);
  vad_cpu_cores : Z
}.

(** [s.split(sep)] for a separator of one character. *)
Fixpoint split_on (sep : ascii) (s : string) : list string :=
  match s with
  | "" => [""]
  | String c r =>
      if Ascii.eqb c sep then "" :: split_on sep r
      else match split_on sep r with
           | part :: parts => String c part :: parts
           | [] => [String c ""]
           end
  end.

(** [set_parallel_devices]: [None] and the empty string are false. *)
Definition set_parallel_devices (self : WhisperTranscriber)
    (vad_parallel_devices : option string) : WhisperTranscriber :=
  {| parallel_device_list :=
       match vad_parallel_devices with
       | Some devices =>
           if String.eqb devices "" then None
           else Some (List.map Py.strip (split_on "," devices))
       | None => None
       end;
     vad_cpu_cores := vad_cpu_cores self |}.

Definition _has_parallel_devices (self : WhisperTranscriber) : bool :=
  match parallel_device_list self with
  | Some devices => 0 <? Z.of_nat (List.length devices)
  | None => false
  end
  || (1 <? vad_cpu_cores self).

(** [_concat_prompt], a prompt being a string or [None]. *)
Definition _concat_prompt (prompt1 prompt2 : option string) : option string :=
  match prompt1, prompt2 with
  | None, _ => prompt2
  | _, None => prompt1
  | Some p1, Some p2 => Some (p1 ++ " " ++ p2)
  end.
(* ================================================================== *)
(** * Notions used by the statements *)

(** The value of a finite float, as [M * 2^E]. *)
Definition finite_value (x : float) : option (Z * Z) :=
  match Prim2SF x with
  | S754_zero _ => Some (0, 0)
  | S754_finite s m e => Some (if s then Z.neg m else Z.pos m, e)
  | _ => None
  end.

(** [n] is an integer nearest to [M * 2^E]: twice their distance is at
    most one (both sides scaled by the power of two that clears the
    fraction). *)
Definition nearest_integer (M E n : Z) : Prop :=
  2 * Z.abs (n * 2 ^ Z.max 0 (- E) - M * 2 ^ Z.max 0 E) <= 2 ^ Z.max 0 (- E).

(** The comparisons of times are those of the floats: a NaN is below
    nothing and equal to nothing, and the two zeros are equal. *)
Definition time_le (a b : float) : bool := (a <=? b)%float.
Definition time_eq (a b : float) : bool := (a =? b)%float.

(** Every word ends no earlier than it starts, and starts no earlier
    than the word before it ends. *)
Fixpoint words_ordered (words : list Word) : bool :=
  match words with
  | [] => true
  | w :: rest =>
      time_le (word_start w) (word_end w)
      && match rest with
         | [] => true
         | next :: _ => time_le (word_end w) (word_start next)
         end
      && words_ordered rest
  end.

(** Every word lies within the span of the segment. *)
Definition words_within (segment : Segment) (words : list Word) : bool :=
  forallb
    (fun w => time_le (seg_start segment) (word_start w)
              && time_le (word_end w) (seg_end segment))
    words.

(** The spans of [cues], in order, tile the interval from [a] to [b]:
    the first starts at [a], each ends where the next starts, the last
    ends at [b], and none runs backwards. *)
Fixpoint tiles (a : float) (cues : list Cue) (b : float) : bool :=
  match cues with
  | [] => time_eq a b
  | c :: rest =>
      time_eq a (cue_start c)
      && time_le (cue_start c) (cue_end c)
      && tiles (cue_end c) rest b
  end.

(** The words the loop of the synthesizer walks: those of the segment,
    after the pseudo-word of the speaker when there is a label. *)
Definition walked_words (segment : Segment) (words : list Word) : list Word :=
  match seg_longest_speaker segment with
  | Some speaker => speaker_word (seg_start segment) speaker :: words
  | None => words
  end.

(** The cursor after the loop: the end of the last word. *)
Fixpoint last_end (last : float) (words : list Word) : float :=
  match words with
  | [] => last
  | w :: rest => last_end (word_end w) rest
  end.

(** Sample segments: a word list given as (start, end, text). *)
Definition sample_word (t : float * float * string) : Word :=
  let '(a, b, s) := t in {| word_start := a; word_end := b; word_word := s |}.

Definition sample_segment (a b : float) (text : string)
    (words : list (float * float * string)) (speaker : option string) : Segment :=
  {| seg_start := a;
     seg_end := b;
     seg_text := text;
     seg_words := Some (List.map sample_word words);
     seg_longest_speaker := speaker |}.

Definition sample_result (text : string) (segments : list Segment) : TranscriptionResult :=
  {| res_text := text; res_language := None; res_segments := segments |}.

Definition sample_source (full short text : string) (segments : list Segment) : AudioSource :=
  {| get_full_name := full;
     get_short_name := short;
     transcribed := sample_result text segments |}.

(** Every character of [s] satisfies [p]. *)
Fixpoint all_chars (p : ascii -> bool) (s : string) : bool :=
  match s with
  | "" => true
  | String c r => p c && all_chars p r
  end.

Definition first_char (s : string) : option ascii :=
  match s with
  | "" => None
  | String c _ => Some c
  end.

Fixpoint last_char (s : string) : option ascii :=
  match s with
  | "" => None
  | String c "" => Some c
  | String _ r => last_char r
  end.

(** No two hyphens stand next to each other. *)
Fixpoint no_double_dash (s : string) : bool :=
  match s with
  | String a (String b _ as r) =>
      negb (Ascii.eqb a "-" && Ascii.eqb b "-") && no_double_dash r
  | _ => true
  end.

(** A character of a slug: a word character or a hyphen, not white
    space, and its own lowercase. *)
Definition slug_char (c : ascii) : bool :=
  (TextWrap.word_char c || Ascii.eqb c "-")
  && negb (Py.isspace c)
  && Ascii.eqb (Slug.lower_char c) c.

(** Neither a hyphen nor an underscore, if there is a character. *)
Definition not_dash_or_underscore (c : option ascii) : bool :=
  match c with
  | Some c => negb (Slug.dash_or_underscore c)
  | None => true
  end.

(** An SRT block as the format has it: the index, the two timestamps
    around an arrow, the text, and a blank line. *)
Definition srt_block_text (index : Z) (start end_ text : string) : string :=
  Py.str_of_int index ++ Py.nl
  ++ start ++ " --> " ++ end_ ++ Py.nl
  ++ text ++ Py.nl
  ++ Py.nl.

(** A time can be formatted: it is not negative (nor a NaN), and a
    thousand times it is finite ([formattable_iff] below). *)
Definition formattable (t : float) : bool :=
  match format_timestamp t true "," with
  | Ok _ => true
  | Raise _ => false
  end.

Definition cue_formattable (c : Cue) : bool :=
  formattable (cue_start c) && formattable (cue_end c).

(** What the statement says of the blocks written for [cues], numbered
    from [i]. *)
Definition blocks_of (i : Z) (cues : list Cue) (blocks : list string) : Prop :=
  List.length blocks = List.length cues
  /\ forall k c,
      nth_error cues k = Some c ->
      exists start end_,
        format_timestamp (cue_start c) true "," = Ok start
        /\ format_timestamp (cue_end c) true "," = Ok end_
        /\ nth_error blocks k
           = Some (srt_block_text (i + Z.of_nat k) start end_
                     (Py.replace "-->" "->" (cue_text c))).

(** A text that wrapping has nothing to normalise in: its only white
    space is the space character, and it does not end in white space. *)
Definition plain_spaced (text : string) : bool :=
  all_chars (fun c => negb (TextWrap.whitespace c) || Ascii.eqb c " ") text
  && match last_char text with
     | Some c => negb (Py.isspace c)
     | None => true
     end.

(** The token wrap in the words of its description: tokens are packed
    onto the current line, and a new line is started when one more
    token would exceed the width, unless the current line is empty.
    [current] is the line being filled and [used] the length counted
    for it; the result is the list of the lines, each a list of
    tokens. *)
Fixpoint pack_from (width : Z) (tokens : list entry) (current : list string)
    (used : Z) : list (list string) :=
  match tokens with
  | [] =>
      match current with
      | [] => []
      | _ :: _ => [current]
      end
  | e :: rest =>
      match current with
      | [] => pack_from width rest [entry_word e] (used + entry_length e)
      | _ :: _ =>
          if width <? used + entry_length e
          then current :: pack_from width rest [entry_word e] (entry_length e)
          else pack_from width rest (current ++ [entry_word e])%list
                 (used + entry_length e)
      end
  end.

Definition pack (width : Z) (tokens : list entry) : list (list string) :=
  pack_from width tokens [] 0.

(** The text of lines of tokens: the tokens of a line joined as they
    are, the lines joined by line feeds. *)
Definition lines_text (lines : list (list string)) : string :=
  Py.join Py.nl (List.map (Py.join "") lines).

(** The number of tokens on each line. *)
Definition line_sizes (lines : list (list string)) : list nat :=
  List.map (@List.length string) lines.

Definition no_line_feed (word : string) : bool :=
  all_chars (fun c => negb (Ascii.eqb c "010")) word.

(** The number of characters of the chunks still to be placed. *)
Definition pending (chunks : list string) : nat :=
  String.length (Py.join "" chunks).

(** A line of tokens respects the width: it counts for no more than the
    width, or it is a single token (which is never split). *)
Definition line_within (width : Z) (line : list string) : Prop :=
  line <> [] /\ (Py.len (Py.join "" line) <= width \/ List.length line = 1%nat).

(** The segment as the body of the generator leaves it: a labelled
    segment with words has the pseudo-word of its speaker in front of
    them, any other segment is as it was. *)
Definition touched (segment : Segment) : Segment :=
  match seg_words segment, seg_longest_speaker segment with
  | Some (first :: rest), Some speaker =>
      {| seg_start := seg_start segment;
         seg_end := seg_end segment;
         seg_text := seg_text segment;
         seg_words := Some (speaker_word (seg_start segment) speaker :: first :: rest);
         seg_longest_speaker := seg_longest_speaker segment |}
  | _, _ => segment
  end.

(** Two segments differ in their words at most. *)
Definition same_but_words (s s' : Segment) : Prop :=
  seg_start s' = seg_start s /\ seg_end s' = seg_end s
  /\ seg_text s' = seg_text s
  /\ seg_longest_speaker s' = seg_longest_speaker s.

Definition unlabelled (segment : Segment) : bool :=
  match seg_longest_speaker segment with
  | None => true
  | Some _ => false
  end.

(** The texts a renderer writes for [cues], numbered from [i]: one for
    each cue, in order, each being the block of the cue and the line
    feed that [print] adds. *)
Definition written_by (block : Z -> Cue -> result string) (i : Z)
    (cues : list Cue) (texts : list string) : Prop :=
  List.length texts = List.length cues
  /\ forall k c,
      nth_error cues k = Some c ->
      exists s,
        block (i + Z.of_nat k) c = Ok s /\ nth_error texts k = Some (s ++ Py.nl).

(** What [write_html] writes after the blocks of the segments. *)
Definition html_tail : string :=
  Py.tab ++ Py.tab ++ "</div>" ++ Py.nl ++ Py.nl
  ++ Py.tab ++ "</body></html>" ++ Py.nl.

(** A segment [write_html] can write: it has a speaker label and its
    start can be formatted. *)
Definition html_writable (segment : Segment) : bool :=
  negb (unlabelled segment) && formattable (seg_start segment).

(** The text a source adds to the combined text when several sources are
    processed: its full name, a colon, a line separator, and its text
    followed by a blank line unless the text is empty. *)
Definition source_block (linesep : string) (source : AudioSource) : string :=
  get_full_name source ++ ":" ++ linesep
  ++ (if 0 <? Py.len (res_text (transcribed source))
      then res_text (transcribed source) ++ linesep ++ linesep
      else res_text (transcribed source)).

(** The result of a source can be written. *)
Definition renders (highlight_words : bool) (source : AudioSource) : bool :=
  match write_result (transcribed source) "" highlight_words with
  | inl _ => true
  | inr _ => false
  end.

(** A text that does not start with a digit. *)
Definition not_digit_first (s : string) : bool :=
  match s with
  | String c _ => negb (TextWrap.digit c)
  | "" => true
  end.


(** A character of an ASCII slug: a lowercase letter of the English
    alphabet, a decimal digit, an underscore or a hyphen. *)
Definition slug_ascii_char (c : ascii) : bool :=
  let n := nat_of_ascii c in
  (((97 <=? n) && (n <=? 122)) || ((48 <=? n) && (n <=? 57))
   || (n =? 95) || (n =? 45))%nat.

(** A character of the ASCII range. *)
Definition ascii_range (c : ascii) : bool := (nat_of_ascii c <? 128)%nat.

(** The text without its white-space characters. *)
Fixpoint without_space (s : string) : string :=
  match s with
  | "" => ""
  | String c r =>
      if Py.isspace c then without_space r else String c (without_space r)
  end.

(** A character that is a space, or no white space of [textwrap]. *)
Definition space_or_ink (c : ascii) : bool :=
  negb (TextWrap.whitespace c) || Ascii.eqb c " ".

(** A line as the flat-text wrapper is to return it: not empty, no
    longer than the width, and with none of the white space of
    [textwrap] but spaces, so with no line feed inside. *)
Definition wrapped_line (width : Z) (line : string) : Prop :=
  line <> "" /\ Py.len line <= width /\ all_chars space_or_ink line = true.

(** No white space, if there is a character. *)
Definition not_space (c : option ascii) : bool :=
  match c with
  | Some c => negb (Py.isspace c)
  | None => true
  end.

(** [line] is [text] without the white space at its two ends. *)
Definition trimmed (text line : string) : Prop :=
  (exists before after,
      text = before ++ line ++ after
      /\ all_chars Py.isspace before = true
      /\ all_chars Py.isspace after = true)
  /\ not_space (first_char line) = true
  /\ not_space (last_char line) = true.

(** The number of occurrences of a character. *)
Fixpoint count_char (c : ascii) (s : string) : nat :=
  match s with
  | "" => O
  | String d r => ((if Ascii.eqb d c then 1 else 0) + count_char c r)%nat
  end.

(** The normal form keeps the numbered prefix that [transcribe_webui]
    puts before the short name of a source (as it does on ASCII text,
    and for every prefix of that shape: digits and an underscore). *)
Definition keeps_numbered_prefix (normalize : string -> string -> string) : Prop :=
  forall (i : Z) (name : string),
    exists t,
      normalize "NFKC" ((Py.format_d 2 i ++ "_") ++ name)
      = (Py.format_d 2 i ++ "_") ++ t.

(** The start and the end of a segment can be formatted. *)
Definition times_formattable (segment : Segment) : bool :=
  formattable (seg_start segment) && formattable (seg_end segment).

(** A segment that every renderer can write without highlighting: its
    times can be formatted and it has a speaker label. *)
Definition writable (segment : Segment) : bool :=
  times_formattable segment && negb (unlabelled segment).

(** More sources than [override_max_sources] allows. *)
Definition too_many (override_max_sources : option Z) (sources : list AudioSource)
  : bool :=
  match override_max_sources with
  | Some limit => limit <? Z.of_nat (List.length sources)
  | None => false
  end.

(** The path of the file [name] in [directory]: the two are joined by a
    slash, unless the directory is empty or ends with a slash already. *)
Definition in_directory (directory name : string) : string :=
  directory
  ++ match last_char directory with
     | None => ""
     | Some c => if Ascii.eqb c "/" then "" else "/"
     end
  ++ name.

(** The name of the archive of all files. *)
Definition archive_name (stamp : string) : string :=
  "All_Output-" ++ stamp ++ ".zip".

(** No slash in the text. *)
Definition no_slash (s : string) : bool :=
  all_chars (fun c => negb (Ascii.eqb c "/")) s.

(** The text after the last slash. *)
Fixpoint after_slash (path : string) : string :=
  match path with
  | "" => ""
  | String c rest =>
      if Ascii.eqb c "/" then after_slash rest
      else if no_slash rest then path else after_slash rest
  end.

(** [M * 2^E] lies half way between [n] and the integer on its other
    side: twice their distance is exactly one. *)
Definition tie (M E n : Z) : Prop :=
  2 * Z.abs (n * 2 ^ Z.max 0 (- E) - M * 2 ^ Z.max 0 E) = 2 ^ Z.max 0 (- E).

(** [ms] is the time [seconds] in milliseconds: the time is not
    negative, its product with 1000 (a float) is finite, and [ms] is the
    integer nearest to that product, the even one of the two when the
    product lies half way between them. *)
Definition milliseconds_of (seconds : float) (ms : Z) : Prop :=
  (0 <=? seconds)%float = true
  /\ exists M E,
      finite_value (seconds * 1000)%float = Some (M, E)
      /\ nearest_integer M E ms
      /\ (tie M E ms -> Z.even ms = true).

(** The number a decimal digit stands for: the digits follow one
    another from code 48 on. *)
Definition digit_value (c : ascii) : option Z :=
  let code := Z.of_nat (nat_of_ascii c) in
  if (48 <=? code) && (code <=? 57) then Some (code - 48) else None.

(** The number a text of decimal digits reads as, after the digits that
    have given [acc]. *)
Fixpoint decimal_from (acc : Z) (s : string) : option Z :=
  match s with
  | "" => Some acc
  | String c r =>
      match digit_value c with
      | Some v => decimal_from (10 * acc + v) r
      | None => None
      end
  end.

Definition decimal (s : string) : option Z :=
  match s with
  | "" => None
  | _ => decimal_from 0 s
  end.

(** [s] is the number [n] written in decimal digits, with zeros in
    front up to [width] digits and none beyond. *)
Definition field (width : nat) (n : Z) (s : string) : Prop :=
  decimal s = Some n
  /\ (width <= String.length s)%nat
  /\ ((width < String.length s)%nat -> first_char s <> Some "0"%char).

(** [text] shows [ms] milliseconds as a time of day: minutes and
    seconds of two digits and milliseconds of three, after [:] and
    [sep], and before them the hours, of two digits or more, and a
    colon, when they are forced or the time reaches one hour. *)
Definition clock (always_include_hours : bool) (sep : string) (ms : Z)
    (text : string) : Prop :=
  exists hh mm ss fff,
    field 2 (ms / 3600000) hh
    /\ field 2 (ms / 60000 mod 60) mm
    /\ field 2 (ms / 1000 mod 60) ss
    /\ field 3 (ms mod 1000) fff
    /\ text
       = (if always_include_hours || (3600000 <=? ms) then hh ++ ":" else "")
         ++ mm ++ ":" ++ ss ++ sep ++ fff.

(** A time that can be written: it is not negative (nor a NaN), and a
    thousand times it is finite. *)
Definition presentable (t : float) : bool :=
  (0 <=? t)%float
  && match finite_value (t * 1000)%float with
     | Some _ => true
     | None => false
     end.

Definition cue_presentable (c : Cue) : bool :=
  presentable (cue_start c) && presentable (cue_end c).

(** [out] is [text] with its arrows replaced: going from left to right,
    every [-->] found is replaced by [->] and the search goes on after
    it, so that an arrow made of the hyphens left and of what follows
    stays. *)
Inductive arrows_replaced : string -> string -> Prop :=
| arrows_end : arrows_replaced "" ""
| arrows_arrow (rest rest' : string) :
    arrows_replaced rest rest' ->
    arrows_replaced ("-->" ++ rest) ("->" ++ rest')
| arrows_other (c : ascii) (rest rest' : string) :
    String.prefix "-->" (String c rest) = false ->
    arrows_replaced rest rest' ->
    arrows_replaced (String c rest) (String c rest').

(** An SRT block for the cue [c] under the index [index]: the index in
    decimal, the start and the end of the cue as times of day of their
    milliseconds, with hours and a comma, around an arrow, the text
    with its arrows replaced, and a blank line. *)
Definition srt_block_of (index : Z) (c : Cue) (block : string) : Prop :=
  exists number start end_ text a b,
    field 1 index number
    /\ milliseconds_of (cue_start c) a /\ clock true "," a start
    /\ milliseconds_of (cue_end c) b /\ clock true "," b end_
    /\ arrows_replaced (cue_text c) text
    /\ block
       = number ++ Py.nl ++ start ++ " --> " ++ end_ ++ Py.nl
         ++ text ++ Py.nl ++ Py.nl.

(** A VTT block for the cue [c]: as an SRT block, without the index,
    with a full stop in the times and hours only from one hour on. *)
Definition vtt_block_of (c : Cue) (block : string) : Prop :=
  exists start end_ text a b,
    milliseconds_of (cue_start c) a /\ clock false "." a start
    /\ milliseconds_of (cue_end c) b /\ clock false "." b end_
    /\ arrows_replaced (cue_text c) text
    /\ block = start ++ " --> " ++ end_ ++ Py.nl ++ text ++ Py.nl ++ Py.nl.

(** The position of a character in a text. *)
Fixpoint translate (from to : string) (c : ascii) : option ascii :=
  match from, to with
  | String a from', String b to' =>
      if Ascii.eqb a c then Some b else translate from' to' c
  | _, _ => None
  end.

(** The lowercase of a character: the small letter of a capital letter
    of the English alphabet, and of a capital letter with an accent
    (the code points 192 to 222 but the multiplication sign) the
    character 32 places further; any other character is its own. *)
Definition to_lower (c : ascii) : ascii :=
  match translate "ABCDEFGHIJKLMNOPQRSTUVWXYZ" "abcdefghijklmnopqrstuvwxyz" c with
  | Some small => small
  | None =>
      let n := nat_of_ascii c in
      if ((192 <=? n) && (n <=? 222) && negb (n =? 215))%nat
      then ascii_of_nat (n + 32) else c
  end.

Fixpoint map_chars (f : ascii -> ascii) (s : string) : string :=
  match s with
  | "" => ""
  | String c r => String (f c) (map_chars f r)
  end.

Fixpoint filter_chars (p : ascii -> bool) (s : string) : string :=
  match s with
  | "" => ""
  | String c r => if p c then String c (filter_chars p r) else filter_chars p r
  end.

(** What a slug may be made from: word characters, hyphens and white
    space. *)
Definition allowed (c : ascii) : bool :=
  TextWrap.word_char c || Ascii.eqb c "-" || Py.isspace c.

Definition hyphen_or_space (c : ascii) : bool :=
  Ascii.eqb c "-" || Py.isspace c.

(** The text is at its end or at a hyphen or white space. *)
Definition at_break (s : string) : bool :=
  match s with
  | "" => true
  | String c _ => hyphen_or_space c
  end.

(** The pieces of a text between its runs of hyphens and white space,
    none of them empty. *)
Fixpoint pieces (s : string) : list string :=
  match s with
  | "" => []
  | String c r =>
      if hyphen_or_space c then pieces r
      else if at_break r then String c "" :: pieces r
      else
        match pieces r with
        | piece :: rest => String c piece :: rest
        | [] => [String c ""]
        end
  end.

Definition hyphen_or_underscore (c : ascii) : bool :=
  Ascii.eqb c "-" || Ascii.eqb c "_".

(** [line] is [text] without the characters of the kind [p] at its two
    ends, and with all the rest of it. *)
Definition trimmed_of (p : ascii -> bool) (text line : string) : Prop :=
  (exists before after,
      text = before ++ line ++ after
      /\ all_chars p before = true
      /\ all_chars p after = true)
  /\ match first_char line with Some c => p c = false | None => True end
  /\ match last_char line with Some c => p c = false | None => True end.

(** The slug of a text, in the words of its description: the text in
    lowercase, without the characters that are not allowed, cut into
    its pieces, the pieces joined by single hyphens, and the hyphens
    and underscores at the two ends taken off. *)
Definition slug_of (text slug : string) : Prop :=
  trimmed_of hyphen_or_underscore
    (Py.join "-" (pieces (filter_chars allowed (map_chars to_lower text))))
    slug.
(* ================================================================== *)
(** * The model on known values of the Python library *)

Example round_ties_to_even :
  py_round 0.5 = Ok 0 /\ py_round 1.5 = Ok 2 /\ py_round 2.5 = Ok 2
  /\ py_round (-2.5) = Ok (-2) /\ py_round 2.4 = Ok 2 /\ py_round 2.6 = Ok 3.
Proof. repeat split; vm_compute; reflexivity. Qed.

Example format_d_pads_with_zeros :
  Py.format_d 2 7 = "07" /\ Py.format_d 3 7 = "007" /\ Py.format_d 2 123 = "123"
  /\ Py.format_d 3 (-1) = "-01".
Proof. repeat split; reflexivity. Qed.

Example replace_goes_left_to_right :
  Py.replace "-->" "->" "a --> b ---> c" = "a -> b --> c".
Proof. reflexivity. Qed.

Example split_of_the_library_comment :
  TextWrap._split "Hello there -- you goof-ball, use the -b option!"
  = ["Hello"; " "; "there"; " "; "--"; " "; "you"; " "; "goof-"; "ball,"; " ";
     "use"; " "; "the"; " "; "-b"; " "; "option!"].
Proof. vm_compute. reflexivity. Qed.

Example wrap_breaks_at_spaces_and_hyphens :
  TextWrap.wrap "Hello there -- you goof-ball, use the -b option!" 12 4
  = Ok ["Hello there"; "-- you goof-"; "ball, use"; "the -b"; "option!"]
  /\ TextWrap.wrap "abcdefghij" 4 4 = Ok ["abcd"; "efgh"; "ij"].
Proof. split; vm_compute; reflexivity. Qed.

Example underline_keeps_leading_space :
  underline " Hello" = " " ++ "<u>Hello</u>" /\ underline "" = "<u></u>".
Proof. split; reflexivity. Qed.

Example slugify_of_a_file_name :
  Slug.slugify Slug.normalize_ascii "01_My  File--Name!.MP3_" true
  = "01_my-file-namemp3".
Proof. vm_compute. reflexivity. Qed.

Example join_words_wraps_at_the_width :
  __join_words [Str "(SPEAKER_00)"; Str " Hello"; Str " world"] (Some 12)
  = Ok ("(SPEAKER_00)" ++ Py.nl ++ " Hello world").
Proof. vm_compute. reflexivity. Qed.

(* ================================================================== *)
(** * Facts on strings *)

Lemma append_assoc (a b c : string) : (a ++ b) ++ c = a ++ b ++ c.
Proof. induction a as [| x a IH]; simpl; [reflexivity | now rewrite IH]. Qed.

Lemma append_nil_r (a : string) : a ++ "" = a.
Proof. induction a as [| x a IH]; simpl; [reflexivity | now rewrite IH]. Qed.

Lemma len_append (a b : string) : Py.len (a ++ b) = Py.len a + Py.len b.
Proof.
  unfold Py.len. induction a as [| x a IH]; simpl String.length; [reflexivity |].
  simpl String.append. simpl String.length. lia.
Qed.

Lemma len_nonneg (a : string) : 0 <= Py.len a.
Proof. unfold Py.len. lia. Qed.

Lemma len_pos (s : string) : s <> "" -> (0 <? Py.len s) = true.
Proof.
  intros H. destruct s as [| c r]; [congruence |].
  unfold Py.len. simpl String.length. apply Z.ltb_lt. lia.
Qed.

Lemma join_empty_cons (x : string) (xs : list string) :
  Py.join "" (x :: xs) = x ++ Py.join "" xs.
Proof.
  destruct xs as [| y ys]; simpl; [now rewrite append_nil_r | reflexivity].
Qed.

Lemma join_empty_app (xs ys : list string) :
  Py.join "" (xs ++ ys) = Py.join "" xs ++ Py.join "" ys.
Proof.
  induction xs as [| x xs IH]; [reflexivity |].
  rewrite <- app_comm_cons, !join_empty_cons, IH, append_assoc. reflexivity.
Qed.

Lemma join_empty_snoc (front : list string) (last : string) :
  Py.join "" (front ++ [last]) = Py.join "" front ++ last.
Proof. rewrite join_empty_app. simpl. reflexivity. Qed.

Lemma join_empty_nonempty (cur : list string) :
  Forall (fun s => s <> "") cur -> cur <> [] -> Py.join "" cur <> "".
Proof.
  intros Hne Hcur. destruct cur as [| x xs]; [congruence |].
  rewrite join_empty_cons. inversion Hne as [| ? ? Hx _]. subst.
  destruct x; [congruence | discriminate].
Qed.

Lemma take_drop (n : nat) (s : string) : TextWrap.take n s ++ TextWrap.drop n s = s.
Proof.
  revert s. induction n as [| n IH]; intros s; [reflexivity |].
  destruct s as [| c r]; simpl; [reflexivity | now rewrite IH].
Qed.

Lemma last_char_append (a b : string) :
  b <> "" -> last_char (a ++ b) = last_char b.
Proof.
  intros Hb. induction a as [| x a IH]; [reflexivity |].
  simpl String.append. simpl last_char. rewrite IH.
  destruct (a ++ b) as [| y t] eqn:E; [| reflexivity].
  destruct a; simpl in E; [congruence | discriminate].
Qed.

Section Chars.

Variables p q : ascii -> bool.

Lemma all_chars_impl (s : string) :
  (forall c, p c = true -> q c = true) ->
  all_chars p s = true -> all_chars q s = true.
Proof.
  intros Hpq. induction s as [| c r IH]; simpl; [reflexivity |].
  intros H. apply andb_prop in H as [Hc Hr].
  rewrite (Hpq c Hc), (IH Hr). reflexivity.
Qed.

Lemma all_chars_lstrip_by (s : string) :
  all_chars p s = true -> all_chars p (Py.lstrip_by q s) = true.
Proof.
  induction s as [| c r IH]; simpl; [reflexivity |].
  intros H. destruct (q c).
  - apply andb_prop in H as [_ Hr]. exact (IH Hr).
  - exact H.
Qed.

Lemma all_chars_rstrip_by (s : string) :
  all_chars p s = true -> all_chars p (Py.rstrip_by q s) = true.
Proof.
  induction s as [| c r IH]; simpl; [reflexivity |].
  intros H. apply andb_prop in H as [Hc Hr]. specialize (IH Hr).
  destruct (Py.rstrip_by q r) as [| d r'].
  - destruct (q c); simpl; [reflexivity | now rewrite Hc].
  - simpl in *. now rewrite Hc, IH.
Qed.

Lemma rstrip_by_head (s : string) (d : ascii) (r' : string) :
  Py.rstrip_by q s = String d r' -> exists t, s = String d t.
Proof.
  destruct s as [| c r]; simpl; [discriminate |].
  destruct (Py.rstrip_by q r) as [| e r''].
  - destruct (q c); [discriminate |]. intros H. injection H as <- _. now exists r.
  - intros H. injection H as <- _. now exists r.
Qed.

Lemma lstrip_by_first (s : string) (c : ascii) :
  first_char (Py.lstrip_by q s) = Some c -> q c = false.
Proof.
  induction s as [| a r IH]; simpl; [discriminate |].
  destruct (q a) eqn:Ha; [exact IH |].
  simpl. intros H. injection H as <-. exact Ha.
Qed.

Lemma rstrip_by_first (s : string) :
  first_char (Py.rstrip_by q s) = None
  \/ first_char (Py.rstrip_by q s) = first_char s.
Proof.
  destruct (Py.rstrip_by q s) as [| d r'] eqn:E; [now left | right].
  destruct (rstrip_by_head s d r' E) as [t ->]. reflexivity.
Qed.

Lemma rstrip_by_last (s : string) (c : ascii) :
  last_char (Py.rstrip_by q s) = Some c -> q c = false.
Proof.
  induction s as [| a r IH]; simpl; [discriminate |].
  destruct (Py.rstrip_by q r) as [| d r'].
  - destruct (q a) eqn:Ha; simpl; [discriminate |].
    intros H. injection H as <-. exact Ha.
  - exact IH.
Qed.

End Chars.

Lemma lstrip_by_split (p : ascii -> bool) (s : string) :
  exists before, s = before ++ Py.lstrip_by p s /\ all_chars p before = true.
Proof.
  induction s as [| c r IH]; [now exists "" |].
  cbn [Py.lstrip_by]. destruct (p c) eqn:Hc; [| now exists ""].
  destruct IH as [before [Hs Hb]]. exists (String c before).
  cbn [String.append all_chars]. now rewrite <- Hs, Hc, Hb.
Qed.


Lemma rstrip_by_split (p : ascii -> bool) (s : string) :
  exists after, s = Py.rstrip_by p s ++ after /\ all_chars p after = true.
Proof.
  induction s as [| c r IH]; [now exists "" |].
  cbn [Py.rstrip_by]. destruct IH as [after [Hs Ha]].
  destruct (Py.rstrip_by p r) as [| d t].
  - cbn [String.append] in Hs. subst after. destruct (p c) eqn:Hc.
    + exists (String c r). cbn [String.append all_chars].
      now rewrite Hc, Ha.
    + exists r. now split.
  - exists after. split; [| exact Ha].
    cbn [String.append] in *. now rewrite <- Hs.
Qed.


(* ================================================================== *)
(** * The timestamp formatter rounds to the nearest millisecond *)

Lemma round_half_even_nearest (m e : Z) :
  nearest_integer m e (round_half_even m e).
Proof.
  unfold nearest_integer, round_half_even.
  destruct (Z.leb_spec 0 e) as [He | He].
  - rewrite (Z.max_l 0 (- e)) by lia. rewrite (Z.max_r 0 e) by lia.
    change (2 ^ 0) with 1. rewrite Z.mul_1_r, Z.sub_diag. simpl. lia.
  - rewrite (Z.max_r 0 (- e)) by lia. rewrite (Z.max_l 0 e) by lia.
    change (2 ^ 0) with 1. rewrite Z.mul_1_r.
    assert (Hd : 0 < 2 ^ (- e)) by (apply Z.pow_pos_nonneg; lia).
    set (d := 2 ^ (- e)) in *.
    pose proof (Z.div_mod m d ltac:(lia)) as Hdm.
    pose proof (Z.mod_pos_bound m d Hd) as Hr.
    set (q := m / d) in *. set (r := m mod d) in *.
    destruct (Z.compare_spec (2 * r) d) as [Hc | Hc | Hc].
    + destruct (Z.even q); nia.
    + nia.
    + nia.
Qed.

Lemma nearest_integer_opp (M E n : Z) :
  nearest_integer M E n -> nearest_integer (- M) E (- n).
Proof.
  unfold nearest_integer. intros H.
  replace (- n * 2 ^ Z.max 0 (- E) - - M * 2 ^ Z.max 0 E)
    with (- (n * 2 ^ Z.max 0 (- E) - M * 2 ^ Z.max 0 E)) by ring.
  now rewrite Z.abs_opp.
Qed.

Lemma py_round_nearest (x : float) (M E : Z) :
  finite_value x = Some (M, E) ->
  exists n, py_round x = Ok n /\ nearest_integer M E n.
Proof.
  unfold finite_value, py_round.
  destruct (Prim2SF x) as [s | s | | s m e]; try discriminate.
  - intros H. injection H as <- <-. exists 0. split; [reflexivity |].
    unfold nearest_integer. simpl. lia.
  - intros H. injection H as <- <-.
    eexists. split; [reflexivity |].
    destruct s.
    + change (Z.neg m) with (- Z.pos m).
      apply nearest_integer_opp, round_half_even_nearest.
    + apply round_half_even_nearest.
Qed.

Lemma timestamp_fields_carry (ms : Z) :
  let '(hours, minutes, seconds, milliseconds) := timestamp_fields ms in
  ms = hours * 3600000 + minutes * 60000 + seconds * 1000 + milliseconds
  /\ 0 <= minutes < 60 /\ 0 <= seconds < 60 /\ 0 <= milliseconds < 1000.
Proof.
  unfold timestamp_fields.
  set (h := ms / 3600000).
  set (ms1 := ms - h * 3600000).
  set (mi := ms1 / 60000).
  set (ms2 := ms1 - mi * 60000).
  set (se := ms2 / 1000).
  assert (H1 : 0 <= ms1 < 3600000).
  { subst ms1 h. pose proof (Z.div_mod ms 3600000 ltac:(lia)).
    pose proof (Z.mod_pos_bound ms 3600000 ltac:(lia)). lia. }
  assert (H2 : 0 <= ms2 < 60000).
  { subst ms2 mi. pose proof (Z.div_mod ms1 60000 ltac:(lia)).
    pose proof (Z.mod_pos_bound ms1 60000 ltac:(lia)). lia. }
  assert (H3 : 0 <= ms2 - se * 1000 < 1000).
  { subst se. pose proof (Z.div_mod ms2 1000 ltac:(lia)).
    pose proof (Z.mod_pos_bound ms2 1000 ltac:(lia)). lia. }
  assert (0 <= mi < 60) by (subst mi; split;
    [apply Z.div_pos; lia | apply Z.div_lt_upper_bound; lia]).
  assert (0 <= se < 60) by (subst se; split;
    [apply Z.div_pos; lia | apply Z.div_lt_upper_bound; lia]).
  subst ms2 ms1. lia.
Qed.

(** ** Decimal numerals and the time of day *)

Lemma digits_of_uint (n : Z) :
  Py.digits n = NilEmpty.string_of_uint (N.to_uint (Z.abs_N n)).
Proof.
  unfold Py.digits, NilZero.string_of_uint.
  destruct (Z.abs_N n) as [| p]; [reflexivity |].
  cbn [N.to_uint]. pose proof (DecimalPos.Unsigned.to_uint_nonnil p) as Hp.
  now destruct (Pos.to_uint p).
Qed.

Lemma string_of_uint_digits (d : Decimal.uint) :
  all_chars TextWrap.digit (NilEmpty.string_of_uint d) = true.
Proof. induction d; [reflexivity | exact IHd ..]. Qed.

Lemma digits_chars (n : Z) : all_chars TextWrap.digit (Py.digits n) = true.
Proof. rewrite digits_of_uint. apply string_of_uint_digits. Qed.

Lemma digits_nonempty (n : Z) : Py.digits n <> "".
Proof.
  unfold Py.digits, NilZero.string_of_uint.
  destruct (Z.abs_N n) as [| p]; [discriminate |].
  cbn [N.to_uint]. pose proof (DecimalPos.Unsigned.to_uint_nonnil p) as Hp.
  destruct (Pos.to_uint p); [congruence | discriminate ..].
Qed.

Lemma format_d_nonneg (width : nat) (n : Z) :
  0 <= n ->
  Py.format_d width n
  = Py.zeros (width - 0 - String.length (Py.digits n)) ++ Py.digits n.
Proof.
  intros Hn. unfold Py.format_d.
  destruct (Z.ltb_spec n 0) as [Hneg | _]; [lia | reflexivity].
Qed.

(** The digits read from left to right, against the number that the
    library builds from the digits taken from right to left. *)
Lemma decimal_from_uint (d : Decimal.uint) :
  forall a : Decimal.uint,
    decimal_from (Z.of_N (DecimalPos.Unsigned.of_lu a)) (NilEmpty.string_of_uint d)
    = Some (Z.of_N (DecimalPos.Unsigned.of_lu (Decimal.revapp d a))).
Proof.
  induction d; intros a;
    cbn [NilEmpty.string_of_uint decimal_from Decimal.revapp];
    [reflexivity | ..];
    match goal with
    | |- context [digit_value ?c] =>
        let v := eval vm_compute in (digit_value c) in
        change (digit_value c) with v
    end;
    cbv beta iota;
    rewrite <- IHd; f_equal; cbn [DecimalPos.Unsigned.of_lu]; lia.
Qed.

(** The digits of a number read as the number. *)
Lemma decimal_of_digits (n : Z) : decimal (Py.digits n) = Some (Z.abs n).
Proof.
  pose proof (digits_nonempty n) as Hne. unfold decimal.
  destruct (Py.digits n) as [| c r] eqn:E; [congruence |]. rewrite <- E.
  rewrite digits_of_uint.
  pose proof (decimal_from_uint (N.to_uint (Z.abs_N n)) Decimal.Nil) as Hread.
  change (Z.of_N (DecimalPos.Unsigned.of_lu Decimal.Nil)) with 0 in Hread.
  rewrite Hread.
  change (Decimal.revapp (N.to_uint (Z.abs_N n)) Decimal.Nil)
    with (Decimal.rev (N.to_uint (Z.abs_N n))).
  rewrite <- DecimalPos.Unsigned.of_uint_alt.
  change (Pos.of_uint (N.to_uint (Z.abs_N n)))
    with (N.of_uint (N.to_uint (Z.abs_N n))).
  rewrite DecimalN.Unsigned.of_to. f_equal. apply N2Z.inj_abs_N.
Qed.

Lemma decimal_from_zeros (k : nat) (s : string) :
  decimal_from 0 (Py.zeros k ++ s) = decimal_from 0 s.
Proof.
  induction k as [| k IH]; [reflexivity |].
  cbn [Py.zeros String.append decimal_from].
  change (digit_value "0") with (Some 0). exact IH.
Qed.

Lemma length_zeros (k : nat) : String.length (Py.zeros k) = k.
Proof. induction k as [| k IH]; [reflexivity | cbn; now rewrite IH]. Qed.

(** The digits of a number start with no zero, unless the zero is all
    there is. *)
Lemma digits_canonical (n : Z) :
  String.length (Py.digits n) = 1%nat \/ first_char (Py.digits n) <> Some "0"%char.
Proof.
  rewrite digits_of_uint.
  pose proof (DecimalN.Unsigned.to_of (N.to_uint (Z.abs_N n))) as Hnorm.
  rewrite DecimalN.Unsigned.of_to in Hnorm.
  set (u := N.to_uint (Z.abs_N n)) in *.
  unfold Decimal.unorm in Hnorm.
  pose proof (DecimalFacts.nzhead_nonzero u) as Hhead.
  destruct (Decimal.nzhead u) as [| h | h | h | h | h | h | h | h | h | h] eqn:E.
  - left. rewrite Hnorm. reflexivity.
  - exfalso. exact (Hhead h eq_refl).
  - right. rewrite Hnorm. discriminate.
  - right. rewrite Hnorm. discriminate.
  - right. rewrite Hnorm. discriminate.
  - right. rewrite Hnorm. discriminate.
  - right. rewrite Hnorm. discriminate.
  - right. rewrite Hnorm. discriminate.
  - right. rewrite Hnorm. discriminate.
  - right. rewrite Hnorm. discriminate.
  - right. rewrite Hnorm. discriminate.
Qed.

Lemma length_string_append (a b : string) :
  String.length (a ++ b) = (String.length a + String.length b)%nat.
Proof. induction a as [| c a IH]; [reflexivity | cbn; now rewrite IH]. Qed.

(** [format(n, "0<width>d")] writes the field of [n]. *)
Lemma format_d_field (width : nat) (n : Z) :
  (1 <= width)%nat -> 0 <= n -> field width n (Py.format_d width n).
Proof.
  intros Hw Hn. rewrite (format_d_nonneg width n Hn), Nat.sub_0_r.
  pose proof (digits_nonempty n) as Hne.
  pose proof (digits_canonical n) as Hcan.
  set (body := Py.digits n) in *.
  assert (Hlen : (0 < String.length body)%nat).
  { destruct body; [congruence | cbn; lia]. }
  split; [| split].
  - unfold decimal.
    destruct (Py.zeros (width - String.length body) ++ body) as [| c r] eqn:E.
    + exfalso. destruct (Py.zeros _); [cbn in E; congruence | discriminate].
    + rewrite <- E, decimal_from_zeros.
      pose proof (decimal_of_digits n) as Hd. fold body in Hd.
      unfold decimal in Hd. destruct body; [congruence |].
      rewrite Hd. f_equal. lia.
  - rewrite length_string_append, length_zeros. lia.
  - rewrite length_string_append, length_zeros. intros Hlong.
    assert (Hk : (width - String.length body = 0)%nat) by lia.
    rewrite Hk. cbn [Py.zeros String.append].
    destruct Hcan as [Hone | Hfirst]; [lia | exact Hfirst].
Qed.

(** [str(n)] writes [n] with no zero in front. *)
Lemma str_of_int_field (n : Z) : 0 <= n -> field 1 n (Py.str_of_int n).
Proof.
  intros Hn. unfold Py.str_of_int.
  replace (Py.format_d 0 n) with (Py.format_d 1 n);
    [now apply format_d_field |].
  rewrite !(format_d_nonneg _ n Hn), !Nat.sub_0_r.
  pose proof (digits_nonempty n) as Hne.
  destruct (Py.digits n) as [| c r]; [congruence |].
  reflexivity.
Qed.

(** The fields that the successive divisions and subtractions give are
    those of the division of the whole number. *)
Lemma timestamp_fields_divmod (ms : Z) :
  timestamp_fields ms
  = (ms / 3600000, ms / 60000 mod 60, ms / 1000 mod 60, ms mod 1000).
Proof.
  unfold timestamp_fields.
  set (h := ms / 3600000).
  set (ms1 := ms - h * 3600000).
  set (mi := ms1 / 60000).
  set (ms2 := ms1 - mi * 60000).
  set (se := ms2 / 1000).
  assert (H1 : 0 <= ms1 < 3600000).
  { subst ms1 h. pose proof (Z.div_mod ms 3600000 ltac:(lia)).
    pose proof (Z.mod_pos_bound ms 3600000 ltac:(lia)). lia. }
  assert (H2 : 0 <= ms2 < 60000).
  { subst ms2 mi. pose proof (Z.div_mod ms1 60000 ltac:(lia)).
    pose proof (Z.mod_pos_bound ms1 60000 ltac:(lia)). lia. }
  assert (H3 : 0 <= ms2 - se * 1000 < 1000).
  { subst se. pose proof (Z.div_mod ms2 1000 ltac:(lia)).
    pose proof (Z.mod_pos_bound ms2 1000 ltac:(lia)). lia. }
  assert (Hmi : 0 <= mi < 60) by (subst mi; split;
    [apply Z.div_pos; lia | apply Z.div_lt_upper_bound; lia]).
  assert (Hse : 0 <= se < 60) by (subst se; split;
    [apply Z.div_pos; lia | apply Z.div_lt_upper_bound; lia]).
  assert (Hsum : ms = h * 3600000 + mi * 60000 + se * 1000 + (ms2 - se * 1000))
    by (subst ms2 ms1; lia).
  set (f := ms2 - se * 1000) in *.
  assert (E1 : ms / 60000 = h * 60 + mi).
  { symmetry. apply (Z.div_unique ms 60000 _ (se * 1000 + f)); lia. }
  assert (E2 : ms / 1000 = (h * 60 + mi) * 60 + se).
  { symmetry. apply (Z.div_unique ms 1000 _ f); lia. }
  assert (E3 : ms mod 1000 = f).
  { symmetry. apply (Z.mod_unique ms 1000 ((h * 60 + mi) * 60 + se)); lia. }
  rewrite E1, E2, E3.
  replace ((h * 60 + mi) mod 60) with mi
    by (apply (Z.mod_unique _ 60 h); lia).
  replace (((h * 60 + mi) * 60 + se) mod 60) with se
    by (apply (Z.mod_unique _ 60 (h * 60 + mi)); lia).
  reflexivity.
Qed.

(** What [render_fields] prints for the fields of a number that is not
    negative. *)
Lemma render_clock (always_include_hours : bool) (sep : string) (ms : Z) :
  0 <= ms ->
  clock always_include_hours sep ms
    (render_fields always_include_hours sep (timestamp_fields ms)).
Proof.
  intros Hms. rewrite timestamp_fields_divmod. unfold render_fields, clock.
  exists (Py.format_d 2 (ms / 3600000)), (Py.format_d 2 (ms / 60000 mod 60)),
    (Py.format_d 2 (ms / 1000 mod 60)), (Py.format_d 3 (ms mod 1000)).
  pose proof (Z.div_pos ms 3600000 Hms ltac:(lia)).
  pose proof (Z.mod_pos_bound (ms / 60000) 60 ltac:(lia)).
  pose proof (Z.mod_pos_bound (ms / 1000) 60 ltac:(lia)).
  pose proof (Z.mod_pos_bound ms 1000 ltac:(lia)).
  repeat split; try (apply format_d_field; lia).
  replace (0 <? ms / 3600000) with (3600000 <=? ms); [reflexivity |].
  destruct (Z.leb_spec 3600000 ms) as [Hge | Hlt]; symmetry.
  - apply Z.ltb_lt. apply Z.div_str_pos. lia.
  - apply Z.ltb_ge. rewrite Z.div_small; lia.
Qed.

Lemma round_half_even_tie (m e : Z) :
  tie m e (round_half_even m e) -> Z.even (round_half_even m e) = true.
Proof.
  unfold tie, round_half_even.
  destruct (Z.leb_spec 0 e) as [He | He].
  - rewrite (Z.max_l 0 (- e)) by lia. rewrite (Z.max_r 0 e) by lia.
    change (2 ^ 0) with 1. rewrite Z.mul_1_r, Z.sub_diag. cbn. lia.
  - rewrite (Z.max_r 0 (- e)) by lia. rewrite (Z.max_l 0 e) by lia.
    change (2 ^ 0) with 1. rewrite Z.mul_1_r.
    assert (Hd : 0 < 2 ^ (- e)) by (apply Z.pow_pos_nonneg; lia).
    set (d := 2 ^ (- e)) in *.
    pose proof (Z.div_mod m d ltac:(lia)) as Hdm.
    pose proof (Z.mod_pos_bound m d Hd) as Hr.
    set (q := m / d) in *. set (r := m mod d) in *.
    destruct (Z.compare_spec (2 * r) d) as [Hc | Hc | Hc].
    + intros _. destruct (Z.even q) eqn:Hq; [exact Hq |].
      rewrite Z.add_1_r, Z.even_succ, <- Z.negb_even, Hq. reflexivity.
    + intros Htie. exfalso. nia.
    + intros Htie. exfalso. nia.
Qed.

Lemma tie_opp (M E n : Z) : tie M E n -> tie (- M) E (- n).
Proof.
  unfold tie. intros H.
  replace (- n * 2 ^ Z.max 0 (- E) - - M * 2 ^ Z.max 0 E)
    with (- (n * 2 ^ Z.max 0 (- E) - M * 2 ^ Z.max 0 E)) by ring.
  now rewrite Z.abs_opp.
Qed.

(** [round] gives the nearest integer, and the even one at a tie. *)
Lemma py_round_half_even (x : float) (n : Z) :
  py_round x = Ok n ->
  exists M E,
    finite_value x = Some (M, E)
    /\ nearest_integer M E n
    /\ (tie M E n -> Z.even n = true).
Proof.
  unfold finite_value, py_round.
  destruct (Prim2SF x) as [s | s | | s m e]; try discriminate.
  - intros H. assert (n = 0) by congruence. subst n.
    exists 0, 0. split; [reflexivity |]. split; [| reflexivity].
    unfold nearest_integer. cbn. lia.
  - intros H.
    assert (Hn : n = if s then - round_half_even (Z.pos m) e
                     else round_half_even (Z.pos m) e) by congruence.
    exists (if s then Z.neg m else Z.pos m), e. split; [reflexivity |].
    subst n. destruct s.
    + change (Z.neg m) with (- Z.pos m). split.
      * apply nearest_integer_opp, round_half_even_nearest.
      * intros Htie. rewrite Z.even_opp. apply round_half_even_tie.
        apply tie_opp in Htie. now rewrite !Z.opp_involutive in Htie.
    + split; [apply round_half_even_nearest | apply round_half_even_tie].
Qed.

Lemma round_half_even_nonneg (m e : Z) : 0 <= m -> 0 <= round_half_even m e.
Proof.
  intros Hm. unfold round_half_even.
  destruct (Z.leb_spec 0 e) as [He | He].
  - apply Z.mul_nonneg_nonneg; [exact Hm | apply Z.pow_nonneg; lia].
  - assert (Hd : 0 < 2 ^ (- e)) by (apply Z.pow_pos_nonneg; lia).
    pose proof (Z.div_pos m (2 ^ (- e)) Hm Hd) as Hq.
    destruct (2 * (m mod 2 ^ (- e)) ?= 2 ^ (- e)); [| lia | lia].
    destruct (Z.even (m / 2 ^ (- e))); lia.
Qed.

(** The milliseconds of a time that passes the assertion are not
    negative: the product of a non-negative float and 1000 has no minus
    sign unless it is a zero. *)
Lemma py_round_milliseconds_nonneg (seconds : float) (ms : Z) :
  (0 <=? seconds)%float = true ->
  py_round (seconds * 1000)%float = Ok ms ->
  0 <= ms.
Proof.
  unfold py_round. rewrite leb_spec, mul_spec.
  change (Prim2SF 0) with (S754_zero false).
  change (Prim2SF 1000) with (S754_finite false 8796093022208000 (-43)).
  unfold SF64mul, SFmul.
  destruct (Prim2SF seconds) as [s | s | | s m e]; unfold SFleb, SFcompare;
    try discriminate.
  - intros _ H. assert (ms = 0) by congruence. lia.
  - destruct s; [intros H1; discriminate H1 |]. intros _.
    unfold binary_round_aux.
    destruct (shr_fexp _ _ _ _ _) as [mrs' e'].
    destruct (shr_fexp _ _ _ _ _) as [mrs'' e''].
    destruct (shr_m mrs'') as [| p | p]; simpl xorb.
    + intros H. assert (ms = 0) by congruence. lia.
    + destruct (e'' <=? emax - prec); [| discriminate].
      intros H.
      assert (Hms : ms = round_half_even (Z.pos p) e'') by congruence.
      rewrite Hms. apply round_half_even_nonneg. lia.
    + discriminate.
Qed.

(** What [format_timestamp] returns: the time of day of the
    milliseconds of the time. *)
Lemma format_timestamp_clock (seconds : float) (always_include_hours : bool)
    (sep text : string) :
  format_timestamp seconds always_include_hours sep = Ok text ->
  exists ms,
    milliseconds_of seconds ms /\ 0 <= ms
    /\ py_round (seconds * 1000)%float = Ok ms
    /\ clock always_include_hours sep ms text.
Proof.
  unfold format_timestamp, bind.
  destruct (0 <=? seconds)%float eqn:Hpos; simpl negb; cbv iota; [| discriminate].
  destruct (py_round (seconds * 1000)%float) as [ms |] eqn:Hr; [| discriminate].
  intros H. assert (Htext : text = render_fields always_include_hours sep
                                     (timestamp_fields ms)) by congruence.
  pose proof (py_round_milliseconds_nonneg seconds ms Hpos Hr) as Hms.
  exists ms. split; [| split; [exact Hms | split; [reflexivity |]]].
  - split; [exact Hpos |]. exact (py_round_half_even _ _ Hr).
  - rewrite Htext. now apply render_clock.
Qed.

(** C3 (as amended).  For every non-negative [seconds] whose product
    with 1000 is finite, [format_timestamp] takes as milliseconds the
    integer nearest to that product (so it rounds, it does not
    truncate), and the even one of the two when the product lies half
    way between them; it splits it into hours, minutes, seconds and
    milliseconds by integer division with carries, and prints the
    fields as a time of day; [format_timestamp(0)] is 00:00.000 without
    forced hours and 00:00:00.000 with them; and
    [format_timestamp(3661.2005)] with forced hours is 01:01:01.200,
    the product 3661200.5 being a tie that [round] sends to the even
    integer, as it sends 1.5 and 2.5 both to 2. *)
Theorem format_timestamp_rounds_to_nearest
    (seconds : float) (always_include_hours : bool) (sep : string) (M E : Z) :
  (0 <=? seconds)%float = true ->
  finite_value (seconds * 1000)%float = Some (M, E) ->
  (exists ms hours minutes secs millis,
      py_round (seconds * 1000)%float = Ok ms
      /\ nearest_integer M E ms
      /\ (tie M E ms -> Z.even ms = true)
      /\ timestamp_fields ms = (hours, minutes, secs, millis)
      /\ ms = hours * 3600000 + minutes * 60000 + secs * 1000 + millis
      /\ 0 <= minutes < 60 /\ 0 <= secs < 60 /\ 0 <= millis < 1000
      /\ format_timestamp seconds always_include_hours sep
         = Ok ((if always_include_hours || (0 <? hours)
                then Py.format_d 2 hours ++ ":" else "")
               ++ Py.format_d 2 minutes ++ ":" ++ Py.format_d 2 secs
               ++ sep ++ Py.format_d 3 millis)
      /\ clock always_include_hours sep ms
           ((if always_include_hours || (0 <? hours)
             then Py.format_d 2 hours ++ ":" else "")
            ++ Py.format_d 2 minutes ++ ":" ++ Py.format_d 2 secs
            ++ sep ++ Py.format_d 3 millis))
  /\ format_timestamp 0 false "." = Ok "00:00.000"
  /\ format_timestamp 0 true "." = Ok "00:00:00.000"
  /\ format_timestamp 3661.2005 true "." = Ok "01:01:01.200"
  /\ format_timestamp 0.0006 false "." = Ok "00:00.001"
  /\ format_timestamp 0.0015 false "." = Ok "00:00.002"
  /\ format_timestamp 0.0025 false "." = Ok "00:00.002".
Proof.
  intros Hpos Hfin.
  split; [| repeat split; vm_compute; reflexivity].
  destruct (py_round_nearest _ _ _ Hfin) as [ms [Hr Hn]].
  destruct (py_round_half_even _ _ Hr) as (M' & E' & Hfin' & _ & Htie).
  assert (HM : M' = M) by congruence. assert (HE : E' = E) by congruence.
  subst M' E'.
  pose proof (py_round_milliseconds_nonneg seconds ms Hpos Hr) as Hms.
  pose proof (timestamp_fields_carry ms) as Hc.
  pose proof (render_clock always_include_hours sep ms Hms) as Hclock.
  destruct (timestamp_fields ms) as [[[hours minutes] secs] millis] eqn:Hf.
  exists ms, hours, minutes, secs, millis.
  split; [exact Hr |]. split; [exact Hn |]. split; [exact Htie |].
  split; [exact Hf |].
  destruct Hc as (Hsum & Hmin & Hsec & Hmil).
  split; [exact Hsum |]. split; [exact Hmin |]. split; [exact Hsec |].
  split; [exact Hmil |]. split; [| exact Hclock].
  unfold format_timestamp, bind, render_fields.
  rewrite Hpos, Hr, Hf. reflexivity.
Qed.

Lemma format_timestamp_rounds_to_nearest_witness :
  (exists ms hours minutes secs millis,
      py_round (0.0015 * 1000)%float = Ok ms
      /\ nearest_integer 6755399441055744 (-52) ms
      /\ (tie 6755399441055744 (-52) ms -> Z.even ms = true)
      /\ timestamp_fields ms = (hours, minutes, secs, millis)
      /\ ms = hours * 3600000 + minutes * 60000 + secs * 1000 + millis
      /\ 0 <= minutes < 60 /\ 0 <= secs < 60 /\ 0 <= millis < 1000
      /\ format_timestamp 0.0015 true ","
         = Ok ((if true || (0 <? hours)
                then Py.format_d 2 hours ++ ":" else "")
               ++ Py.format_d 2 minutes ++ ":" ++ Py.format_d 2 secs
               ++ "," ++ Py.format_d 3 millis)
      /\ clock true "," ms
           ((if true || (0 <? hours)
             then Py.format_d 2 hours ++ ":" else "")
            ++ Py.format_d 2 minutes ++ ":" ++ Py.format_d 2 secs
            ++ "," ++ Py.format_d 3 millis))
  /\ format_timestamp 0 false "." = Ok "00:00.000"
  /\ format_timestamp 0 true "." = Ok "00:00:00.000"
  /\ format_timestamp 3661.2005 true "." = Ok "01:01:01.200"
  /\ format_timestamp 0.0006 false "." = Ok "00:00.001"
  /\ format_timestamp 0.0015 false "." = Ok "00:00.002"
  /\ format_timestamp 0.0025 false "." = Ok "00:00.002".
Proof.
  apply (format_timestamp_rounds_to_nearest 0.0015 true ","
           6755399441055744 (-52));
    vm_compute; reflexivity.
Defined.

(** C3, the claim as written fails: the product 3661.2005 * 1000.0 is
    the float 3661200.5, and [round] gives 3661200. *)
Lemma format_timestamp_3661_2005_is_not_201 :
  Prim2SF (3661.2005 * 1000)%float = S754_finite false 7862368205799424 (-31)
  /\ 7862368205799424 = 3661200 * 2 ^ 31 + 2 ^ 30
  /\ py_round (3661.2005 * 1000)%float = Ok 3661200
  /\ format_timestamp 3661.2005 true "." <> Ok "01:01:01.201".
Proof.
  repeat split; try (vm_compute; reflexivity).
  vm_compute. discriminate.
Qed.

(* ================================================================== *)
(** * The cues of a highlighted segment tile its span *)

(** The comparisons of floats on values that are not NaN. *)

Lemma time_le_eq_l (a b : float) : time_le a b = true -> time_eq a a = true.
Proof.
  unfold time_le, time_eq. rewrite leb_spec, eqb_spec. unfold SFleb, SFeqb.
  destruct (Prim2SF a) as [s | s | | s m e];
    destruct (Prim2SF b) as [s' | s' | | s' m' e']; simpl;
    try discriminate; intros _; try reflexivity;
    destruct s; try reflexivity;
    rewrite ?Z.compare_refl, ?Pos.compare_refl; simpl;
    rewrite ?Pos.compare_refl; reflexivity.
Qed.

Lemma time_le_eq_r (a b : float) : time_le a b = true -> time_eq b b = true.
Proof.
  unfold time_le, time_eq. rewrite leb_spec, eqb_spec. unfold SFleb, SFeqb.
  destruct (Prim2SF a) as [s | s | | s m e];
    destruct (Prim2SF b) as [s' | s' | | s' m' e']; simpl;
    try discriminate; try (destruct s; discriminate); intros _; try reflexivity;
    destruct s'; try reflexivity;
    rewrite ?Z.compare_refl, ?Pos.compare_refl; simpl;
    rewrite ?Pos.compare_refl; reflexivity.
Qed.

Lemma time_eq_le (a : float) : time_eq a a = true -> time_le a a = true.
Proof.
  unfold time_le, time_eq. rewrite leb_spec, eqb_spec. unfold SFleb, SFeqb.
  destruct (SFcompare (Prim2SF a) (Prim2SF a)) as [[ | | ] | ];
    try discriminate; reflexivity.
Qed.

Lemma join_words_budget (words : list entry) (w : Z) :
  0 <= w -> exists text, __join_words words (Some w) = Ok text.
Proof.
  intros Hw. unfold __join_words.
  destruct (Z.ltb_spec w 0) as [H | H]; [lia |].
  eexists. reflexivity.
Qed.

Lemma highlight_loop_cons (maxLineWidth : option Z) (text_words : list string)
    (subtitle_text : string) (i : nat) (this_word : Word) (rest : list Word)
    (last : float) :
  highlight_loop maxLineWidth text_words subtitle_text i (this_word :: rest) last
  = let filler :=
      if negb (last =? word_start this_word)%float
      then [mk_cue last (word_start this_word) subtitle_text] else [] in
    match __join_words (highlight_entries i text_words) maxLineWidth with
    | Raise e => (filler, Raise e)
    | Ok text =>
        let '(cues, r) :=
          highlight_loop maxLineWidth text_words subtitle_text (S i) rest
            (word_end this_word) in
        ((filler ++ mk_cue (word_start this_word) (word_end this_word) text :: cues)%list, r)
    end.
Proof. reflexivity. Qed.

Lemma highlight_loop_tiles (w : Z) (text_words : list string) (subtitle_text : string) :
  0 <= w ->
  forall (words : list Word) (i : nat) (last : float),
    words_ordered words = true ->
    time_eq last last = true ->
    match words with
    | [] => True
    | first :: _ => time_le last (word_start first) = true
    end ->
    exists cues,
      highlight_loop (Some w) text_words subtitle_text i words last
      = (cues, Ok (last_end last words))
      /\ (List.length words <= List.length cues <= 2 * List.length words)%nat
      /\ forall closing b,
          tiles (last_end last words) closing b = true ->
          tiles last (cues ++ closing) b = true.
Proof.
  intros Hw words. induction words as [| this_word rest IH]; intros i last Hord Hlast Hfirst.
  - exists []. simpl. repeat split; auto.
  - simpl in Hord. apply andb_prop in Hord as [Hord Hrest].
    apply andb_prop in Hord as [Hspan Hnext].
    destruct (IH (S i) (word_end this_word) Hrest (time_le_eq_r _ _ Hspan))
      as [cues [Hloop [Hlen Htile]]].
    { destruct rest; [exact I | exact Hnext]. }
    destruct (join_words_budget (highlight_entries i text_words) w Hw) as [text Htext].
    rewrite highlight_loop_cons, Htext, Hloop. cbv zeta.
    eexists. split; [reflexivity |]. split.
    + rewrite length_app. simpl List.length.
      destruct (negb (last =? word_start this_word)%float); simpl; lia.
    + intros closing b Hclose. specialize (Htile closing b Hclose).
      rewrite <- app_assoc. simpl last_end in Hclose.
      destruct (last =? word_start this_word)%float eqn:Heq; simpl.
      * unfold time_eq at 1. rewrite Heq, Hspan. exact Htile.
      * rewrite Hlast, Hfirst. unfold time_eq at 1.
        fold (time_eq (word_start this_word) (word_start this_word)).
        rewrite (time_le_eq_l _ _ Hspan), Hspan. exact Htile.
Qed.

Lemma last_end_within (segment : Segment) (words : list Word) (last : float) :
  words <> [] ->
  words_within segment words = true ->
  time_le (last_end last words) (seg_end segment) = true.
Proof.
  revert last. induction words as [| w rest IH]; intros last Hne Hin; [congruence |].
  simpl in Hin. apply andb_prop in Hin as [Hw Hrest].
  apply andb_prop in Hw as [_ Hend].
  destruct rest as [| w' rest'].
  - exact Hend.
  - change (time_le (last_end (word_end w) (w' :: rest')) (seg_end segment) = true).
    apply IH; [discriminate | exact Hrest].
Qed.

Lemma walked_words_ordered (segment : Segment) (words : list Word) :
  words <> [] ->
  words_ordered words = true ->
  words_within segment words = true ->
  words_ordered (walked_words segment words) = true
  /\ time_eq (seg_start segment) (seg_start segment) = true
  /\ match walked_words segment words with
     | [] => True
     | first :: _ => time_le (seg_start segment) (word_start first) = true
     end
  /\ last_end (seg_start segment) (walked_words segment words)
     = last_end (seg_start segment) words.
Proof.
  intros Hne Hord Hin.
  destruct words as [| w0 rest]; [congruence |].
  assert (Hs : time_le (seg_start segment) (word_start w0) = true).
  { simpl in Hin. apply andb_prop in Hin as [Hw _].
    apply andb_prop in Hw as [Hw _]. exact Hw. }
  pose proof (time_le_eq_l _ _ Hs) as Hnan.
  unfold walked_words. destruct (seg_longest_speaker segment) as [speaker |].
  - repeat split; try assumption.
    + change (time_le (seg_start segment) (seg_start segment)
              && time_le (seg_start segment) (word_start w0)
              && words_ordered (w0 :: rest) = true).
      rewrite (time_eq_le _ Hnan), Hs, Hord. reflexivity.
    + simpl. apply time_eq_le, Hnan.
  - repeat split; assumption.
Qed.

Lemma preprocess_segment_highlighted (segment : Segment) (words : list Word) (w : Z) :
  seg_words segment = Some words ->
  words <> [] ->
  words_ordered words = true ->
  words_within segment words = true ->
  0 <= w ->
  exists segment' cues,
    preprocess_segment (Some w) true segment
    = (segment', {| yielded := cues; raised := None |})
    /\ seg_words segment' = Some (walked_words segment words)
    /\ tiles (seg_start segment) cues (seg_end segment) = true
    /\ (List.length (walked_words segment words) <= List.length cues
        <= 2 * List.length (walked_words segment words) + 1)%nat.
Proof.
  intros Hwords Hne Hord Hin Hw.
  destruct (walked_words_ordered segment words Hne Hord Hin)
    as [Hord' [Hnan [Hfirst Hlast]]].
  pose proof (last_end_within segment words (seg_start segment) Hne Hin) as Hend.
  rewrite <- Hlast in Hend.
  unfold preprocess_segment. rewrite Hwords.
  destruct words as [| w0 rest]; [congruence |].
  fold (walked_words segment (w0 :: rest)).
  set (walked := walked_words segment (w0 :: rest)) in *.
  destruct (join_words_budget (map Str (map word_word walked)) w Hw)
    as [subtitle_text Htext].
  rewrite Htext.
  destruct (highlight_loop_tiles w (map word_word walked) subtitle_text Hw
              walked 0%nat (seg_start segment) Hord' Hnan Hfirst)
    as [cues [Hloop [Hlen Htile]]].
  rewrite Hloop.
  eexists. eexists. split; [reflexivity |]. split; [reflexivity |].
  set (last := last_end (seg_start segment) walked) in *.
  split.
  - apply Htile.
    destruct (last =? seg_end segment)%float eqn:Heq; simpl.
    + exact Heq.
    + rewrite (time_le_eq_l _ _ Hend), Hend. simpl.
      apply (time_le_eq_r _ _ Hend).
  - rewrite length_app.
    destruct (negb (last =? seg_end segment)%float); simpl; lia.
Qed.

(** C1 (as amended).  For every segment with non-empty word timings
    (each word ending no earlier than it starts and starting no earlier
    than the one before ends, all within the span of the segment), a
    non-negative line width and highlighting enabled, the synthesizer
    yields its cues without failing; their spans tile the span of the
    segment with no gap and no overlap; and their number lies between
    the number of walked words and twice that number plus one, the
    walked words being those of the segment and, before them, the
    pseudo-word of the speaker when the segment has a label. *)
Theorem highlighted_cues_tile_segment (segment : Segment) (words : list Word) (w : Z) :
  seg_words segment = Some words ->
  words <> [] ->
  words_ordered words = true ->
  words_within segment words = true ->
  0 <= w ->
  exists segment' cues,
    __subtitle_preprocessor_iterator [segment] (Some w) true
    = ([segment'], {| yielded := cues; raised := None |})
    /\ seg_words segment' = Some (walked_words segment words)
    /\ tiles (seg_start segment) cues (seg_end segment) = true
    /\ (List.length (walked_words segment words) <= List.length cues
        <= 2 * List.length (walked_words segment words) + 1)%nat.
Proof.
  intros Hwords Hne Hord Hin Hw.
  destruct (preprocess_segment_highlighted segment words w Hwords Hne Hord Hin Hw)
    as [segment' [cues [Hpre Hrest]]].
  exists segment', cues. split; [| exact Hrest].
  simpl. rewrite Hpre. simpl. rewrite app_nil_r. reflexivity.
Qed.

Lemma highlighted_cues_tile_segment_witness :
  exists segment' cues,
    __subtitle_preprocessor_iterator
      [sample_segment 0 3 " Hello world"
         [(0.5, 1, " Hello"); (1.5, 2, " world")]%float None]
      (Some 80) true
    = ([segment'], {| yielded := cues; raised := None |})
    /\ seg_words segment'
       = Some (List.map sample_word [(0.5, 1, " Hello"); (1.5, 2, " world")]%float)
    /\ tiles 0 cues 3 = true
    /\ (2 <= List.length cues <= 5)%nat.
Proof.
  apply (highlighted_cues_tile_segment
           (sample_segment 0 3 " Hello world"
              [(0.5, 1, " Hello"); (1.5, 2, " world")]%float None)
           (List.map sample_word [(0.5, 1, " Hello"); (1.5, 2, " world")]%float) 80).
  - reflexivity.
  - discriminate.
  - vm_compute. reflexivity.
  - vm_compute. reflexivity.
  - lia.
Defined.

(** C1, the claim as written fails.  Two words that follow each other
    without a gap and fill the segment give two cues, an even number;
    with a speaker label one word can give four cues, more than twice
    the number of its words plus one; and with no line width the first
    highlight cue cannot be built. *)
Lemma highlighted_cue_count_can_be_even :
  let adjacent :=
    sample_segment 0 2 " Hello world" [(0, 1, " Hello"); (1, 2, " world")]%float None in
  let labelled :=
    sample_segment 0 3 " Hello" [(1, 2, " Hello")]%float (Some "SPEAKER_00") in
  (words_ordered (List.map sample_word [(0, 1, " Hello"); (1, 2, " world")]%float) = true
   /\ words_within adjacent
        (List.map sample_word [(0, 1, " Hello"); (1, 2, " world")]%float) = true
   /\ List.map (fun c => (cue_start c, cue_end c))
        (yielded (snd (__subtitle_preprocessor_iterator [adjacent] (Some 80) true)))
      = [(0, 1); (1, 2)]%float
   /\ Nat.odd (List.length
        (yielded (snd (__subtitle_preprocessor_iterator [adjacent] (Some 80) true))))
      = false)
  /\ (words_ordered (List.map sample_word [(1, 2, " Hello")]%float) = true
      /\ words_within labelled (List.map sample_word [(1, 2, " Hello")]%float) = true
      /\ List.map (fun c => (cue_start c, cue_end c))
           (yielded (snd (__subtitle_preprocessor_iterator [labelled] (Some 80) true)))
         = [(0, 0); (0, 1); (1, 2); (2, 3)]%float)
  /\ snd (__subtitle_preprocessor_iterator [adjacent] None true)
     = {| yielded := []; raised := Some TypeError |}.
Proof.
  vm_compute. repeat split; reflexivity.
Qed.

(* ================================================================== *)
(** * Rendering and the segments it is given *)

Lemma speakerid_none : speakerid None = Raise TypeError.
Proof. reflexivity. Qed.

Lemma write_html_unlabelled (segment : Segment) (rest : list Segment)
    (file : string) (maxLineWidth : option Z) (highlight_words : bool) :
  seg_longest_speaker segment = None ->
  write_html (segment :: rest) file maxLineWidth highlight_words
  = (html_head file, Some TypeError).
Proof.
  intros H. unfold write_html. simpl write_html_segments.
  unfold html_block. rewrite H. reflexivity.
Qed.

(** Whatever the width and the highlighting, the body of the generator
    leaves a labelled segment with one more word than it had. *)
Lemma preprocess_segment_inserts_speaker_word (maxLineWidth : option Z)
    (highlight_words : bool) (segment : Segment) (first : Word)
    (rest : list Word) (speaker : string) :
  seg_words segment = Some (first :: rest) ->
  seg_longest_speaker segment = Some speaker ->
  seg_words (fst (preprocess_segment maxLineWidth highlight_words segment))
  = Some (speaker_word (seg_start segment) speaker :: first :: rest).
Proof.
  intros Hwords Hspeaker. unfold preprocess_segment.
  rewrite Hwords, Hspeaker.
  destruct (__join_words _ maxLineWidth) as [subtitle_text | e]; [| reflexivity].
  destruct highlight_words; [| reflexivity].
  destruct (highlight_loop _ _ _ _ _ _) as [cues [last | e]]; reflexivity.
Qed.

(** C2, on the code.  A segment with word timings and a speaker label is
    changed by the synthesizer: the pseudo-word of the speaker is
    inserted into the word list the segment holds.  [write_result]
    renders the same segments three times, so the SRT text, rendered
    second, carries the label twice where the VTT text carries it once,
    and the segments end with two pseudo-words. *)
Theorem rendering_inserts_speaker_word_into_segment :
  let segment :=
    sample_segment 0 1 " Hello" [(0, 1, " Hello")]%float (Some "SPEAKER_00") in
  let pseudo := speaker_word 0 "SPEAKER_00" in
  fst (__subtitle_preprocessor_iterator [segment] (Some 80) false)
  = [sample_segment 0 1 " Hello" [(0, 0, "(SPEAKER_00)"); (0, 1, " Hello")]%float
       (Some "SPEAKER_00")]
  /\ fst (__subtitle_preprocessor_iterator [segment] (Some 80) false) <> [segment]
  /\ exists w,
      write_result (sample_result " Hello" [segment]) "x" false = inl w
      /\ out_vtt w
         = "WEBVTT" ++ Py.nl ++ Py.nl
           ++ "00:00.000 --> 00:01.000" ++ Py.nl
           ++ "(SPEAKER_00) Hello" ++ Py.nl ++ Py.nl
      /\ out_srt w
         = "1" ++ Py.nl
           ++ "00:00:00,000 --> 00:00:01,000" ++ Py.nl
           ++ "(SPEAKER_00)(SPEAKER_00) Hello" ++ Py.nl ++ Py.nl
      /\ snd (fst (write_srt [segment] "" (Some 80) false))
         = "1" ++ Py.nl
           ++ "00:00:00,000 --> 00:00:01,000" ++ Py.nl
           ++ "(SPEAKER_00) Hello" ++ Py.nl ++ Py.nl
      /\ List.map seg_words (segments_after w)
         = [Some [pseudo; pseudo; sample_word (0, 1, " Hello")%float]].
Proof.
  cbv zeta. split; [vm_compute; reflexivity |].
  split; [vm_compute; discriminate |].
  eexists. split; [vm_compute; reflexivity |].
  repeat split; vm_compute; reflexivity.
Qed.

(** C5, on the code.  For a segment with no speaker label [write_html]
    does not reach the empty suffix: [re.search] is called on [None] and
    raises [TypeError], which the handler prints and raises again, so
    the block of the segment is not written.  With a label the block is
    written. *)
Theorem write_html_fails_without_speaker :
  let unlabelled :=
    {| seg_start := 0; seg_end := 1; seg_text := " Hello";
       seg_words := None; seg_longest_speaker := None |} in
  let labelled :=
    {| seg_start := 0; seg_end := 1; seg_text := " Hello";
       seg_words := None; seg_longest_speaker := Some "SPEAKER_01" |} in
  html_block unlabelled = Raise TypeError
  /\ write_html [unlabelled] "" (Some 80) false = (html_head "", Some TypeError)
  /\ snd (write_html [labelled; unlabelled] "" (Some 80) false) = Some TypeError
  /\ snd (write_html [labelled] "" (Some 80) false) = None
  /\ snd (__get_subs [unlabelled] "html" 80 false) = inr (Raised TypeError).
Proof.
  cbv zeta. repeat split; vm_compute; reflexivity.
Qed.

(** C7, on the code.  With a width the tokens of a line are
    concatenated as they are; with no width (or a negative one) the
    tokens are joined with a space between them, so two words that carry
    their own leading space end up two spaces apart, and tokens given as
    dicts cannot be joined at all. *)
Theorem join_words_without_budget_inserts_spaces :
  __join_words [Str " Hello"; Str " world"] None = Ok " Hello  world"
  /\ __join_words [Str " Hello"; Str " world"] (Some (-1)) = Ok " Hello  world"
  /\ __join_words [Str " Hello"; Str " world"] None <> Ok (" Hello" ++ " world")
  /\ __join_words [Str " Hello"; Str " world"] (Some 80) = Ok (" Hello" ++ " world")
  /\ __join_words [Dict " Hello" 6; Dict " world" 6] None = Raise TypeError.
Proof.
  repeat split; try (vm_compute; reflexivity).
  vm_compute. discriminate.
Qed.

(* ================================================================== *)
(** * The combined text of several sources *)

(** C4 (as amended).  When two sources with non-empty transcripts are
    dispatched, their number is allowed and their results are written,
    the combined text is, for each source in order, its full name, a
    colon, a line separator, its text and two line separators: the blank
    line follows the second source as well. *)
Theorem combined_text_of_two_sources
    (normalize : string -> string -> string) (linesep : string)
    (output_dir : option string) (downloadDirectory stamp : string)
    (override_max_sources : option Z)
    (highlight_words : bool) (source1 source2 : AudioSource) (w1 w2 : written) :
  (forall limit, override_max_sources = Some limit -> 2 <= limit) ->
  write_result (transcribed source1) (file_prefix normalize "01_" source1)
    highlight_words = inl w1 ->
  write_result (transcribed source2) (file_prefix normalize "02_" source2)
    highlight_words = inl w2 ->
  res_text (transcribed source1) <> "" ->
  res_text (transcribed source2) <> "" ->
  exists download vtt,
    transcribe_webui normalize linesep output_dir downloadDirectory stamp
      override_max_sources highlight_words (Sources [source1; source2])
    = inl (download,
           (get_full_name source1 ++ ":" ++ linesep
            ++ res_text (transcribed source1) ++ linesep ++ linesep)
           ++ (get_full_name source2 ++ ":" ++ linesep
               ++ res_text (transcribed source2) ++ linesep ++ linesep),
           vtt).
Proof.
  intros Hmax H1 H2 Ht1 Ht2.
  assert (E1 : out_text w1 = res_text (transcribed source1)).
  { unfold write_result in H1.
    destruct (__get_subs _ "vtt" _ _) as [sa [vtt | e]]; [| discriminate].
    destruct (__get_subs sa "srt" _ _) as [sb [srt | e]]; [| discriminate].
    destruct (__get_subs sb "html" _ _) as [sc [html | e]]; [| discriminate].
    injection H1 as <-. reflexivity. }
  assert (E2 : out_text w2 = res_text (transcribed source2)).
  { unfold write_result in H2.
    destruct (__get_subs _ "vtt" _ _) as [sa [vtt | e]]; [| discriminate].
    destruct (__get_subs sa "srt" _ _) as [sb [srt | e]]; [| discriminate].
    destruct (__get_subs sb "html" _ _) as [sc [html | e]]; [| discriminate].
    injection H2 as <-. reflexivity. }
  unfold transcribe_webui.
  replace (match override_max_sources with
           | Some limit => limit <? Z.of_nat (List.length [source1; source2])
           | None => false
           end) with false.
  2:{ destruct override_max_sources as [limit |]; [| reflexivity].
      symmetry. apply Z.ltb_ge. specialize (Hmax limit eq_refl).
      cbn [List.length]. lia. }
  change (1 <? Z.of_nat (List.length [source1; source2])) with true.
  unfold transcribe_sources.
  change (Py.format_d 2 (0 + 1) ++ "_") with "01_".
  change (Py.format_d 2 (0 + 1 + 1) ++ "_") with "02_".
  rewrite H1, H2, E1, E2, (len_pos _ Ht1), (len_pos _ Ht2).
  eexists. eexists. reflexivity.
Qed.

Lemma combined_text_of_two_sources_witness :
  exists download vtt,
    transcribe_webui Slug.normalize_ascii Py.nl None "/tmp/out" "20240101-120000"
      None false
      (Sources [sample_source "a.mp3" "a" "x" []; sample_source "b.mp3" "b" "y" []])
    = inl (download,
           ("a.mp3" ++ ":" ++ Py.nl ++ "x" ++ Py.nl ++ Py.nl)
           ++ ("b.mp3" ++ ":" ++ Py.nl ++ "y" ++ Py.nl ++ Py.nl),
           vtt).
Proof.
  eapply (combined_text_of_two_sources Slug.normalize_ascii Py.nl None "/tmp/out"
            "20240101-120000" None false
            (sample_source "a.mp3" "a" "x" []) (sample_source "b.mp3" "b" "y" [])).
  - discriminate.
  - vm_compute. reflexivity.
  - vm_compute. reflexivity.
  - discriminate.
  - discriminate.
Defined.

(** C4, the claim as written fails: the combined text of two sources
    ends with the blank line of the second one. *)
Lemma combined_text_ends_with_blank_line :
  exists download vtt,
    transcribe_webui Slug.normalize_ascii Py.nl None "/tmp/out" "20240101-120000"
      None false
      (Sources [sample_source "a.mp3" "a" "x" []; sample_source "b.mp3" "b" "y" []])
    = inl (download,
           "a.mp3:" ++ Py.nl ++ "x" ++ Py.nl ++ Py.nl
           ++ "b.mp3:" ++ Py.nl ++ "y" ++ Py.nl ++ Py.nl,
           vtt)
    /\ "a.mp3:" ++ Py.nl ++ "x" ++ Py.nl ++ Py.nl
       ++ "b.mp3:" ++ Py.nl ++ "y" ++ Py.nl ++ Py.nl
       <> "a.mp3:" ++ Py.nl ++ "x" ++ Py.nl ++ Py.nl ++ "b.mp3:" ++ Py.nl ++ "y".
Proof.
  eexists. eexists. split; [vm_compute; reflexivity | vm_compute; discriminate].
Qed.

(* ================================================================== *)
(** * Slugs *)

Lemma no_double_dash_tail (c : ascii) (r : string) :
  no_double_dash (String c r) = true -> no_double_dash r = true.
Proof.
  destruct r as [| d r']; [reflexivity |].
  intros H. change (negb (Ascii.eqb c "-" && Ascii.eqb d "-")
                    && no_double_dash (String d r') = true) in H.
  now apply andb_prop in H as [_ H].
Qed.

Lemma no_double_dash_lstrip_by (q : ascii -> bool) (s : string) :
  no_double_dash s = true -> no_double_dash (Py.lstrip_by q s) = true.
Proof.
  induction s as [| c r IH]; [reflexivity |].
  intros H. simpl Py.lstrip_by. destruct (q c); [| exact H].
  apply IH. exact (no_double_dash_tail c r H).
Qed.

Lemma no_double_dash_rstrip_by (q : ascii -> bool) (s : string) :
  no_double_dash s = true -> no_double_dash (Py.rstrip_by q s) = true.
Proof.
  induction s as [| c r IH]; [reflexivity |].
  intros H. pose proof (IH (no_double_dash_tail c r H)) as IHr.
  simpl Py.rstrip_by.
  destruct (Py.rstrip_by q r) as [| d r'] eqn:E.
  - destruct (q c); reflexivity.
  - destruct (rstrip_by_head q r d r' E) as [t ->].
    change (negb (Ascii.eqb c "-" && Ascii.eqb d "-")
            && no_double_dash (String d t) = true) in H.
    apply andb_prop in H as [Hcd _].
    change (negb (Ascii.eqb c "-" && Ascii.eqb d "-")
            && no_double_dash (String d r') = true).
    now rewrite Hcd, IHr.
Qed.

Lemma lower_char_idempotent (c : ascii) :
  Ascii.eqb (Slug.lower_char (Slug.lower_char c)) (Slug.lower_char c) = true.
Proof.
  destruct c as [b0 b1 b2 b3 b4 b5 b6 b7].
  destruct b0, b1, b2, b3, b4, b5, b6, b7; reflexivity.
Qed.

Lemma lower_fixed (s : string) :
  all_chars (fun c => Ascii.eqb (Slug.lower_char c) c) (Slug.lower s) = true.
Proof.
  induction s as [| c r IH]; simpl; [reflexivity |].
  now rewrite lower_char_idempotent, IH.
Qed.

Lemma lower_of_fixed (s : string) :
  all_chars (fun c => Ascii.eqb (Slug.lower_char c) c) s = true ->
  Slug.lower s = s.
Proof.
  induction s as [| c r IH]; simpl; [reflexivity |].
  intros H. apply andb_prop in H as [Hc Hr].
  apply Ascii.eqb_eq in Hc. now rewrite Hc, (IH Hr).
Qed.

Lemma drop_others_chars (p : ascii -> bool) (s : string) :
  all_chars p s = true ->
  all_chars (fun c => p c && Slug.kept c) (Slug.drop_others s) = true.
Proof.
  induction s as [| c r IH]; simpl; [reflexivity |].
  intros H. apply andb_prop in H as [Hc Hr].
  destruct (Slug.kept c) eqn:Hk; [| exact (IH Hr)].
  simpl. now rewrite Hc, Hk, (IH Hr).
Qed.

Lemma collapse_from_chars (p : ascii -> bool) (s : string) (in_run : bool) :
  all_chars p s = true ->
  all_chars (fun c => Ascii.eqb c "-" || (p c && negb (Slug.separator c)))
    (Slug.collapse_from in_run s) = true.
Proof.
  revert in_run. induction s as [| c r IH]; intros in_run; simpl; [reflexivity |].
  intros H. apply andb_prop in H as [Hc Hr].
  destruct (Slug.separator c) eqn:Hs.
  - destruct in_run; simpl; now rewrite ?(IH true Hr).
  - simpl. rewrite Hc, Hs, (IH false Hr). simpl. now rewrite orb_true_r.
Qed.

Lemma collapse_from_dashes (s : string) (in_run : bool) :
  no_double_dash (Slug.collapse_from in_run s) = true
  /\ (in_run = true ->
      match first_char (Slug.collapse_from in_run s) with
      | Some c => Ascii.eqb c "-" = false
      | None => True
      end).
Proof.
  revert in_run. induction s as [| c r IH]; intros in_run; simpl; [now split |].
  destruct (Slug.separator c) eqn:Hs.
  - destruct in_run.
    + exact (IH true).
    + split; [| discriminate].
      destruct (IH true) as [Hnd Hfirst]. specialize (Hfirst eq_refl).
      destruct (Slug.collapse_from true r) as [| d t]; [reflexivity |].
      simpl in Hfirst.
      change (negb (Ascii.eqb "-" "-" && Ascii.eqb d "-")
              && no_double_dash (String d t) = true).
      now rewrite Hfirst, Hnd.
  - assert (Hc : Ascii.eqb c "-" = false).
    { unfold Slug.separator in Hs. now apply orb_false_elim in Hs as [Hs _]. }
    split; [| now simpl].
    destruct (IH false) as [Hnd _].
    destruct (Slug.collapse_from false r) as [| d t]; [reflexivity |].
    change (negb (Ascii.eqb c "-" && Ascii.eqb d "-")
            && no_double_dash (String d t) = true).
    now rewrite Hc, Hnd.
Qed.

Lemma collapsed_char_is_slug_char (c : ascii) :
  Ascii.eqb c "-"
  || ((Ascii.eqb (Slug.lower_char c) c && Slug.kept c) && negb (Slug.separator c))
  = true ->
  slug_char c = true.
Proof.
  destruct c as [b0 b1 b2 b3 b4 b5 b6 b7].
  destruct b0, b1, b2, b3, b4, b5, b6, b7; vm_compute; intros H;
    first [reflexivity | discriminate H].
Qed.

Lemma to_lower_lower_char (c : ascii) : to_lower c = Slug.lower_char c.
Proof.
  destruct c as [b0 b1 b2 b3 b4 b5 b6 b7].
  destruct b0, b1, b2, b3, b4, b5, b6, b7; vm_compute; reflexivity.
Qed.

Lemma map_to_lower (s : string) : map_chars to_lower s = Slug.lower s.
Proof.
  induction s as [| c r IH]; [reflexivity |].
  cbn [map_chars Slug.lower]. now rewrite to_lower_lower_char, IH.
Qed.

Lemma allowed_kept (c : ascii) : allowed c = Slug.kept c.
Proof.
  unfold allowed, Slug.kept.
  destruct (TextWrap.word_char c), (Ascii.eqb c "-"), (Py.isspace c); reflexivity.
Qed.

Lemma filter_allowed (s : string) : filter_chars allowed s = Slug.drop_others s.
Proof.
  induction s as [| c r IH]; [reflexivity |].
  cbn [filter_chars Slug.drop_others]. now rewrite allowed_kept, IH.
Qed.

Lemma filter_ascii (s : string) :
  filter_chars (fun c => (nat_of_ascii c <? 128)%nat) s = Slug.ascii_ignore s.
Proof.
  induction s as [| c r IH]; [reflexivity |].
  cbn [filter_chars Slug.ascii_ignore]. now rewrite IH.
Qed.

Lemma join_dash_cons (c : ascii) (piece : string) (rest : list string) :
  Py.join "-" (String c piece :: rest) = String c (Py.join "-" (piece :: rest)).
Proof. destruct rest; reflexivity. Qed.

Lemma pieces_start (c : ascii) (r : string) :
  hyphen_or_space c = false -> pieces (String c r) <> [].
Proof.
  intros Hc. cbn [pieces]. rewrite Hc.
  destruct (at_break r); [discriminate |].
  destruct (pieces r); discriminate.
Qed.

(** The text with its runs collapsed is the pieces joined by single
    hyphens, after a hyphen when the text starts with a run that is not
    the end of one already replaced, and before hyphens at most. *)
Lemma collapse_from_pieces (s : string) :
  forall in_run : bool,
    exists trail,
      all_chars (fun c => Ascii.eqb c "-") trail = true
      /\ Slug.collapse_from in_run s
         = (if match s with
               | String c _ => hyphen_or_space c
               | "" => false
               end && negb in_run
            then "-" else "")
           ++ Py.join "-" (pieces s) ++ trail.
Proof.
  induction s as [| c r IH]; intros in_run.
  - exists "". split; reflexivity.
  - cbn [Slug.collapse_from pieces].
    change (Slug.separator c) with (hyphen_or_space c).
    destruct (hyphen_or_space c) eqn:Hc.
    + destruct (IH true) as [trail [Htrail Hr]].
      rewrite andb_false_r in Hr. cbn [String.append] in Hr.
      exists trail. split; [exact Htrail |].
      destruct in_run; cbn [andb negb String.append]; now rewrite Hr.
    + destruct (IH false) as [trail [Htrail Hr]].
      rewrite andb_true_r in Hr. cbn [andb String.append]. rewrite Hr.
      destruct r as [| d t].
      * exists trail. split; [exact Htrail | reflexivity].
      * cbn [at_break]. destruct (hyphen_or_space d) eqn:Hd.
        -- destruct (pieces (String d t)) as [| piece rest] eqn:Hp.
           ++ exists (String "-" trail). split; [exact Htrail | reflexivity].
           ++ exists trail. split; [exact Htrail |].
              change (Py.join "-" (String c "" :: piece :: rest))
                with (String c ("-" ++ Py.join "-" (piece :: rest))).
              reflexivity.
        -- pose proof (pieces_start d t Hd) as Hne.
           destruct (pieces (String d t)) as [| piece rest]; [congruence |].
           exists trail. split; [exact Htrail |].
           now rewrite join_dash_cons.
Qed.

Lemma lstrip_by_all_empty (p : ascii -> bool) (s : string) :
  all_chars p s = true -> Py.lstrip_by p s = "".
Proof.
  induction s as [| c r IH]; [reflexivity |].
  cbn [all_chars Py.lstrip_by]. intros H. apply andb_prop in H as [-> Hr].
  exact (IH Hr).
Qed.

Lemma rstrip_by_all_empty (p : ascii -> bool) (s : string) :
  all_chars p s = true -> Py.rstrip_by p s = "".
Proof.
  induction s as [| c r IH]; [reflexivity |].
  cbn [all_chars Py.rstrip_by]. intros H. apply andb_prop in H as [Hc Hr].
  now rewrite (IH Hr), Hc.
Qed.

Lemma rstrip_by_append_all (p : ascii -> bool) (s trail : string) :
  all_chars p trail = true -> Py.rstrip_by p (s ++ trail) = Py.rstrip_by p s.
Proof.
  intros Ht. induction s as [| c r IH].
  - cbn [String.append Py.rstrip_by]. now apply rstrip_by_all_empty.
  - cbn [String.append Py.rstrip_by]. now rewrite IH.
Qed.

Lemma strip_by_append_all (p : ascii -> bool) (s trail : string) :
  all_chars p trail = true ->
  Py.rstrip_by p (Py.lstrip_by p (s ++ trail)) = Py.rstrip_by p (Py.lstrip_by p s).
Proof.
  intros Ht. induction s as [| c r IH].
  - cbn [String.append Py.lstrip_by]. now rewrite (lstrip_by_all_empty p trail Ht).
  - cbn [String.append Py.lstrip_by]. destruct (p c); [exact IH |].
    exact (rstrip_by_append_all p (String c r) trail Ht).
Qed.

(** Stripping the characters of a kind at the two ends of a text gives
    the text trimmed of them. *)
Lemma strip_by_trimmed (p : ascii -> bool) (text : string) :
  trimmed_of p text (Py.rstrip_by p (Py.lstrip_by p text)).
Proof.
  unfold trimmed_of. split; [| split].
  - destruct (lstrip_by_split p text) as [before [Hl Hb]].
    destruct (rstrip_by_split p (Py.lstrip_by p text)) as [after [Hr Ha]].
    exists before, after. split; [| now split].
    now rewrite <- Hr.
  - destruct (rstrip_by_first p (Py.lstrip_by p text)) as [E | E];
      rewrite E; [exact I |].
    pose proof (lstrip_by_first p text) as Hf.
    destruct (first_char (Py.lstrip_by p text)) as [c |]; [| exact I].
    exact (Hf c eq_refl).
  - pose proof (rstrip_by_last p (Py.lstrip_by p text)) as Hl.
    destruct (last_char (Py.rstrip_by p (Py.lstrip_by p text))) as [c |];
      [| exact I].
    exact (Hl c eq_refl).
Qed.

(** The last two steps of [slugify] give the slug of the pieces. *)
Lemma strip_collapse_pieces (s : string) :
  trimmed_of hyphen_or_underscore (Py.join "-" (pieces s))
    (Slug.strip_chars (Slug.collapse s)).
Proof.
  unfold Slug.strip_chars, Slug.collapse.
  change Slug.dash_or_underscore with hyphen_or_underscore.
  destruct (collapse_from_pieces s false) as [trail [Htrail ->]].
  assert (Ht : all_chars hyphen_or_underscore trail = true).
  { eapply all_chars_impl; [| exact Htrail].
    intros c Hc. unfold hyphen_or_underscore. now rewrite Hc. }
  assert (Hstrip : Py.rstrip_by hyphen_or_underscore
                     (Py.lstrip_by hyphen_or_underscore
                        ((if match s with
                              | String c _ => hyphen_or_space c
                              | "" => false
                              end && negb false
                          then "-" else "")
                         ++ Py.join "-" (pieces s) ++ trail))
                   = Py.rstrip_by hyphen_or_underscore
                       (Py.lstrip_by hyphen_or_underscore (Py.join "-" (pieces s)))).
  { destruct (_ && _).
    - change (Py.lstrip_by hyphen_or_underscore
                ("-" ++ Py.join "-" (pieces s) ++ trail))
        with (Py.lstrip_by hyphen_or_underscore (Py.join "-" (pieces s) ++ trail)).
      now apply strip_by_append_all.
    - cbn [String.append]. now apply strip_by_append_all. }
  rewrite Hstrip. apply strip_by_trimmed.
Qed.

(** C10.  For every input string, and whatever the normal form of it
    is, [slugify] returns the slug of that normal form (without its
    characters beyond ASCII unless they are allowed): the text in
    lowercase, without its characters other than word characters,
    hyphens and white space, with each run of hyphens and white space
    between two pieces replaced by a single hyphen, and with the hyphens
    and underscores at its two ends taken off.  So the slug is made of
    word characters and hyphens, none of them white space nor a capital
    letter, with no two hyphens next to each other, with neither a
    hyphen nor an underscore at its ends, and it is its own lowercase;
    and the file prefix the dispatcher builds for a source is
    lowercase. *)
Theorem slugify_is_a_lowercase_slug
    (normalize : string -> string -> string) (value : string) (allow_unicode : bool) :
  let out := Slug.slugify normalize value allow_unicode in
  slug_of (if allow_unicode then normalize "NFKC" value
           else filter_chars (fun c => (nat_of_ascii c <? 128)%nat)
                  (normalize "NFKD" value))
    out
  /\ all_chars (fun c => Ascii.eqb (to_lower c) c) out = true
  /\ all_chars slug_char out = true
  /\ no_double_dash out = true
  /\ not_dash_or_underscore (first_char out) = true
  /\ not_dash_or_underscore (last_char out) = true
  /\ Slug.lower out = out
  /\ forall (source_prefix : string) (source : AudioSource),
       map_chars to_lower (file_prefix normalize source_prefix source)
       = file_prefix normalize source_prefix source
       /\ Slug.lower (file_prefix normalize source_prefix source)
          = file_prefix normalize source_prefix source.
Proof.
  assert (Hchars : forall v a, all_chars slug_char (Slug.slugify normalize v a) = true).
  { intros v a. unfold Slug.slugify, Slug.strip_chars, Slug.collapse.
    apply all_chars_rstrip_by, all_chars_lstrip_by.
    eapply all_chars_impl; [exact collapsed_char_is_slug_char |].
    apply (collapse_from_chars
             (fun c => Ascii.eqb (Slug.lower_char c) c && Slug.kept c)).
    apply drop_others_chars, lower_fixed. }
  assert (Hfixed : forall v a,
             all_chars (fun c => Ascii.eqb (Slug.lower_char c) c)
               (Slug.slugify normalize v a) = true).
  { intros v a. eapply all_chars_impl; [| exact (Hchars v a)].
    intros c Hc. unfold slug_char in Hc.
    now apply andb_prop in Hc as [_ Hc]. }
  assert (Hlower : forall v a,
             Slug.lower (Slug.slugify normalize v a) = Slug.slugify normalize v a).
  { intros v a. apply lower_of_fixed, Hfixed. }
  cbv zeta. split.
  { unfold slug_of, Slug.slugify.
    rewrite map_to_lower, filter_allowed.
    destruct allow_unicode; [| rewrite filter_ascii]; apply strip_collapse_pieces. }
  split.
  { eapply all_chars_impl; [| exact (Hfixed value allow_unicode)].
    intros c Hc. now rewrite to_lower_lower_char. }
  split; [apply Hchars |]. split.
  { unfold Slug.slugify, Slug.strip_chars, Slug.collapse.
    apply no_double_dash_rstrip_by, no_double_dash_lstrip_by.
    apply collapse_from_dashes. }
  split.
  { unfold Slug.slugify, Slug.strip_chars.
    match goal with |- context [Py.rstrip_by ?q (Py.lstrip_by ?q' ?s)] =>
      destruct (rstrip_by_first q (Py.lstrip_by q' s)) as [E | E];
      rewrite E; [reflexivity |];
      pose proof (lstrip_by_first q' s) as Hf;
      destruct (first_char (Py.lstrip_by q' s)) as [c |]; [| reflexivity];
      simpl; now rewrite (Hf c eq_refl)
    end. }
  split.
  { unfold Slug.slugify, Slug.strip_chars.
    match goal with |- context [Py.rstrip_by ?q ?s] =>
      pose proof (rstrip_by_last q s) as Hl;
      destruct (last_char (Py.rstrip_by q s)) as [c |]; [| reflexivity];
      simpl; now rewrite (Hl c eq_refl)
    end. }
  split; [apply Hlower |].
  intros source_prefix source. unfold file_prefix.
  split; [rewrite map_to_lower |]; apply Hlower.
Qed.

Lemma slugify_is_a_lowercase_slug_witness :
  slug_of "_My  Talk -- (final).MP3 "
    (Slug.slugify Slug.normalize_ascii "_My  Talk -- (final).MP3 " true)
  /\ Slug.slugify Slug.normalize_ascii "_My  Talk -- (final).MP3 " true
     = "my-talk-finalmp3"
  /\ Py.join "-"
       (pieces (filter_chars allowed (map_chars to_lower "_My  Talk -- (final).MP3 ")))
     = "_my-talk-finalmp3".
Proof.
  split; [| split; reflexivity].
  exact (proj1 (slugify_is_a_lowercase_slug Slug.normalize_ascii
                  "_My  Talk -- (final).MP3 " true)).
Defined.

(* ================================================================== *)
(** * The SRT renderer *)

Lemma formattable_iff (t : float) :
  formattable t = true
  <-> (0 <=? t)%float = true /\ finite_value (t * 1000)%float <> None.
Proof.
  unfold formattable, format_timestamp, py_round, finite_value, bind.
  destruct (0 <=? t)%float; simpl negb; cbv iota.
  - destruct (Prim2SF (t * 1000)%float); split; intros H;
      try discriminate; try (split; [reflexivity | discriminate]);
      try reflexivity; destruct H as [_ H]; congruence.
  - split; [discriminate | intros [H _]; discriminate].
Qed.

Lemma blocks_of_app (i : Z) (cues1 cues2 : list Cue) (blocks1 blocks2 : list string) :
  blocks_of i cues1 blocks1 ->
  blocks_of (i + Z.of_nat (List.length cues1)) cues2 blocks2 ->
  blocks_of i (cues1 ++ cues2) (blocks1 ++ blocks2).
Proof.
  intros [Hl1 H1] [Hl2 H2]. split.
  - rewrite !length_app. congruence.
  - intros k c Hk.
    destruct (Nat.lt_ge_cases k (List.length cues1)) as [Hlt | Hge].
    + rewrite nth_error_app1 in Hk by exact Hlt.
      rewrite nth_error_app1 by (rewrite Hl1; exact Hlt).
      exact (H1 k c Hk).
    + rewrite nth_error_app2 in Hk by exact Hge.
      rewrite nth_error_app2 by (rewrite Hl1; exact Hge).
      rewrite Hl1.
      destruct (H2 _ c Hk) as [start [end_ [Hs [He Hb]]]].
      exists start, end_. repeat split; try assumption.
      rewrite Hb. do 2 f_equal. lia.
Qed.

Lemma srt_block_ok (i : Z) (c : Cue) (start end_ : string) :
  format_timestamp (cue_start c) true "," = Ok start ->
  format_timestamp (cue_end c) true "," = Ok end_ ->
  srt_block i c
  = Ok (Py.str_of_int i ++ Py.nl ++ start ++ " --> " ++ end_ ++ Py.nl
        ++ Py.replace "-->" "->" (cue_text c) ++ Py.nl).
Proof. intros Hs He. unfold srt_block. rewrite Hs, He. reflexivity. Qed.

Lemma write_cues_cons (block : Z -> Cue -> result string) (i : Z) (c : Cue)
    (rest : list Cue) (file s : string) :
  block i c = Ok s ->
  write_cues block i (c :: rest) file = write_cues block (i + 1) rest (print s file).
Proof. intros H. simpl. rewrite H. reflexivity. Qed.

Lemma write_cues_srt (cues : list Cue) :
  forall (i : Z) (file : string),
    forallb cue_formattable cues = true ->
    exists blocks,
      write_cues srt_block i cues file
      = (file ++ Py.join "" blocks, i + Z.of_nat (List.length cues), None)
      /\ blocks_of i cues blocks.
Proof.
  induction cues as [| c rest IH]; intros i file Hok.
  - exists []. simpl. rewrite append_nil_r, Z.add_0_r.
    split; [reflexivity |]. split; [reflexivity |].
    intros k c Hk. destruct k; discriminate.
  - simpl in Hok. apply andb_prop in Hok as [Hc Hrest].
    unfold cue_formattable, formattable in Hc. apply andb_prop in Hc as [Hs He].
    destruct (format_timestamp (cue_start c) true ",") as [start |] eqn:Es;
      [| discriminate].
    destruct (format_timestamp (cue_end c) true ",") as [end_ |] eqn:Ee;
      [| discriminate].
    set (text := Py.replace "-->" "->" (cue_text c)).
    destruct (IH (i + 1)
                (print (Py.str_of_int i ++ Py.nl ++ start ++ " --> " ++ end_
                        ++ Py.nl ++ text ++ Py.nl) file) Hrest)
      as [blocks [Hw [Hlen Hnth]]].
    exists (srt_block_text i start end_ text :: blocks). split.
    + rewrite (write_cues_cons _ _ _ _ _ _ (srt_block_ok i c start end_ Es Ee)).
      fold text. rewrite Hw.
      replace (i + 1 + Z.of_nat (List.length rest))
        with (i + Z.of_nat (List.length (c :: rest)))
        by (simpl List.length; lia).
      rewrite join_empty_cons. unfold print, srt_block_text.
      rewrite !append_assoc. reflexivity.
    + split; [simpl; congruence |].
      intros k c' Hk. destruct k as [| k].
      * simpl in Hk. injection Hk as <-. exists start, end_.
        repeat split; try assumption. simpl. rewrite Z.add_0_r. reflexivity.
      * simpl in Hk. destruct (Hnth k c' Hk) as [s' [e' [Hs' [He' Hb]]]].
        exists s', e'. repeat split; try assumption.
        simpl nth_error. rewrite Hb. do 2 f_equal. lia.
Qed.

Lemma render_transcript_srt (transcript : list Segment)
    (maxLineWidth : option Z) (highlight_words : bool) :
  forall (transcript' : list Segment) (cues : list Cue) (i : Z) (file : string),
    __subtitle_preprocessor_iterator transcript maxLineWidth highlight_words
    = (transcript', {| yielded := cues; raised := None |}) ->
    forallb cue_formattable cues = true ->
    exists blocks,
      render_transcript srt_block transcript maxLineWidth highlight_words i file
      = (transcript', file ++ Py.join "" blocks, None)
      /\ blocks_of i cues blocks.
Proof.
  induction transcript as [| segment rest IH]; intros transcript' cues i file Hit Hok.
  - simpl in Hit. injection Hit as <- <-. exists []. simpl.
    rewrite append_nil_r. split; [reflexivity |]. split; [reflexivity |].
    intros k c Hk. destruct k; discriminate.
  - simpl in Hit. simpl render_transcript.
    destruct (preprocess_segment maxLineWidth highlight_words segment)
      as [segment' out].
    destruct (raised out) as [e |] eqn:Hr.
    { injection Hit as _ Hout. rewrite Hout in Hr. simpl in Hr. discriminate. }
    destruct (__subtitle_preprocessor_iterator rest maxLineWidth highlight_words)
      as [rest' out'] eqn:Hrest.
    injection Hit as <- <- Hr'.
    rewrite forallb_app in Hok. apply andb_prop in Hok as [Hok1 Hok2].
    destruct (write_cues_srt (yielded out) i file Hok1) as [blocks1 [Hw1 Hb1]].
    rewrite Hw1.
    destruct out' as [cues' r']. simpl in Hr'. subst r'.
    destruct (IH rest' cues' (i + Z.of_nat (List.length (yielded out)))
                (file ++ Py.join "" blocks1) eq_refl Hok2)
      as [blocks2 [Hw2 Hb2]].
    rewrite Hw2. exists (blocks1 ++ blocks2)%list. split.
    + rewrite join_empty_app, append_assoc. reflexivity.
    + apply blocks_of_app; assumption.
Qed.

Lemma presentable_formattable (t : float) : presentable t = formattable t.
Proof.
  pose proof (formattable_iff t) as H. unfold presentable.
  destruct (formattable t).
  - destruct (proj1 H eq_refl) as [-> Hfin].
    destruct (finite_value (t * 1000)%float); [reflexivity | congruence].
  - destruct (0 <=? t)%float; [| reflexivity].
    destruct (finite_value (t * 1000)%float) as [v |]; [| reflexivity].
    assert (false = true); [| discriminate].
    apply H. split; [reflexivity | discriminate].
Qed.

Lemma cue_presentable_formattable (cues : list Cue) :
  forallb cue_presentable cues = forallb cue_formattable cues.
Proof.
  induction cues as [| c rest IH]; [reflexivity |].
  cbn [forallb]. rewrite IH. unfold cue_presentable, cue_formattable.
  now rewrite !presentable_formattable.
Qed.

Lemma prefix_arrow (s : string) :
  String.prefix "-->" s = true -> exists rest, s = "-->" ++ rest.
Proof.
  destruct s as [| c1 [| c2 [| c3 rest]]]; cbn [String.prefix];
    try discriminate.
  - destruct (Ascii.ascii_dec "-" c1); discriminate.
  - destruct (Ascii.ascii_dec "-" c1); [| discriminate].
    destruct (Ascii.ascii_dec "-" c2); discriminate.
  - destruct (Ascii.ascii_dec "-" c1) as [<- |]; [| discriminate].
    destruct (Ascii.ascii_dec "-" c2) as [<- |]; [| discriminate].
    destruct (Ascii.ascii_dec ">" c3) as [<- |]; [| discriminate].
    intros _. now exists rest.
Qed.

Lemma replace_arrows_upto (n : nat) :
  forall s, (String.length s <= n)%nat ->
            arrows_replaced s (Py.replace "-->" "->" s).
Proof.
  induction n as [| n IH]; intros s Hlen.
  - destruct s; [constructor | cbn in Hlen; lia].
  - destruct s as [| c r]; [constructor |].
    unfold Py.replace. cbn [Py.replace_from].
    destruct (String.prefix "-->" (String c r)) eqn:Hp.
    + destruct (prefix_arrow _ Hp) as [rest Hs].
      assert (Hc : c = "-"%char) by (cbn in Hs; congruence).
      assert (Hr : r = String "-" (String ">" rest)) by (cbn in Hs; congruence).
      subst c r.
      change (Py.replace_from "-->" "->" (String.length "-->" - 1)
                (String "-" (String ">" rest)))
        with (Py.replace "-->" "->" rest).
      apply (arrows_arrow rest). apply IH. cbn in Hlen. lia.
    + apply arrows_other; [exact Hp |].
      apply IH. cbn in Hlen. lia.
Qed.

(** What [str.replace] does to the arrows of a text. *)
Lemma replace_arrows (s : string) : arrows_replaced s (Py.replace "-->" "->" s).
Proof. apply (replace_arrows_upto (String.length s)). apply Nat.le_refl. Qed.

(** An SRT block, from the index, the times and the text it is made
    of. *)
Lemma srt_block_text_of (index : Z) (c : Cue) (start end_ : string) :
  0 <= index ->
  format_timestamp (cue_start c) true "," = Ok start ->
  format_timestamp (cue_end c) true "," = Ok end_ ->
  srt_block_of index c
    (srt_block_text index start end_ (Py.replace "-->" "->" (cue_text c))).
Proof.
  intros Hi Hs He.
  destruct (format_timestamp_clock _ _ _ _ Hs) as (a & Ha & _ & _ & Hca).
  destruct (format_timestamp_clock _ _ _ _ He) as (b & Hb & _ & _ & Hcb).
  exists (Py.str_of_int index), start, end_,
    (Py.replace "-->" "->" (cue_text c)), a, b.
  split; [now apply str_of_int_field |].
  split; [exact Ha |]. split; [exact Hca |].
  split; [exact Hb |]. split; [exact Hcb |].
  split; [apply replace_arrows | reflexivity].
Qed.

(** C6 (as amended).  When the synthesizer yields the cues [cues] for a
    transcript without raising, and the times of the cues can be written
    (they are not negative and finite in milliseconds), [write_srt]
    writes exactly one block for each cue, in the order of the cues:
    block number [k] (counting from zero) carries the index [k + 1] in
    decimal, the start and the end of the cue as times of day of their
    rounded milliseconds, with hours and a comma, joined by an arrow,
    then the text of the cue with its arrows replaced from left to right,
    then a blank line; so are the two blocks of the two cues given
    last, where the arrow of four characters leaves an arrow behind. *)
Theorem write_srt_numbered_blocks (transcript transcript' : list Segment)
    (maxLineWidth : option Z) (highlight_words : bool)
    (cues : list Cue) (file : string) :
  __subtitle_preprocessor_iterator transcript maxLineWidth highlight_words
  = (transcript', {| yielded := cues; raised := None |}) ->
  forallb cue_presentable cues = true ->
  exists blocks,
    write_srt transcript file maxLineWidth highlight_words
    = (transcript', file ++ Py.join "" blocks, None)
    /\ List.length blocks = List.length cues
    /\ (forall k c,
          nth_error cues k = Some c ->
          exists block,
            nth_error blocks k = Some block
            /\ srt_block_of (Z.of_nat k + 1) c block)
    /\ write_srt
         [sample_segment 0 1.5 " a --> b" [] None;
          sample_segment 1.5 3661.2005 " c --->d" [] None] "" (Some 80) false
       = ([sample_segment 0 1.5 " a --> b" [] None;
           sample_segment 1.5 3661.2005 " c --->d" [] None],
          "1" ++ Py.nl ++ "00:00:00,000 --> 00:00:01,500" ++ Py.nl
          ++ "a -> b" ++ Py.nl ++ Py.nl
          ++ "2" ++ Py.nl ++ "00:00:01,500 --> 01:01:01,200" ++ Py.nl
          ++ "c -->d" ++ Py.nl ++ Py.nl,
          None).
Proof.
  intros Hit Hok. rewrite cue_presentable_formattable in Hok.
  assert (Hsample : write_srt
                      [sample_segment 0 1.5 " a --> b" [] None;
                       sample_segment 1.5 3661.2005 " c --->d" [] None]
                      "" (Some 80) false
                    = ([sample_segment 0 1.5 " a --> b" [] None;
                        sample_segment 1.5 3661.2005 " c --->d" [] None],
                       "1" ++ Py.nl ++ "00:00:00,000 --> 00:00:01,500" ++ Py.nl
                       ++ "a -> b" ++ Py.nl ++ Py.nl
                       ++ "2" ++ Py.nl ++ "00:00:01,500 --> 01:01:01,200" ++ Py.nl
                       ++ "c -->d" ++ Py.nl ++ Py.nl,
                       None))
    by (vm_compute; reflexivity).
  unfold write_srt at 1.
  destruct (render_transcript_srt transcript maxLineWidth highlight_words
              transcript' cues 1 file Hit Hok) as [blocks [Hw [Hlen Hnth]]].
  exists blocks. split; [exact Hw |]. split; [exact Hlen |].
  split; [| exact Hsample].
  intros k c Hk. destruct (Hnth k c Hk) as [start [end_ [Hs [He Hb]]]].
  eexists. split; [exact Hb |].
  replace (Z.of_nat k + 1) with (1 + Z.of_nat k) by lia.
  apply srt_block_text_of; [lia | exact Hs | exact He].
Qed.

Lemma write_srt_numbered_blocks_witness :
  exists blocks,
    write_srt
      [sample_segment 0 1.5 " a --> b" [] None;
       sample_segment 1.5 3661.2005 " c --->d" [] None] "" (Some 80) false
    = ([sample_segment 0 1.5 " a --> b" [] None;
        sample_segment 1.5 3661.2005 " c --->d" [] None],
       "" ++ Py.join "" blocks, None)
    /\ List.length blocks
       = List.length [mk_cue 0 1.5 "a --> b"; mk_cue 1.5 3661.2005 "c --->d"]
    /\ (forall k c,
          nth_error [mk_cue 0 1.5 "a --> b"; mk_cue 1.5 3661.2005 "c --->d"] k
          = Some c ->
          exists block,
            nth_error blocks k = Some block
            /\ srt_block_of (Z.of_nat k + 1) c block)
    /\ write_srt
         [sample_segment 0 1.5 " a --> b" [] None;
          sample_segment 1.5 3661.2005 " c --->d" [] None] "" (Some 80) false
       = ([sample_segment 0 1.5 " a --> b" [] None;
           sample_segment 1.5 3661.2005 " c --->d" [] None],
          "1" ++ Py.nl ++ "00:00:00,000 --> 00:00:01,500" ++ Py.nl
          ++ "a -> b" ++ Py.nl ++ Py.nl
          ++ "2" ++ Py.nl ++ "00:00:01,500 --> 01:01:01,200" ++ Py.nl
          ++ "c -->d" ++ Py.nl ++ Py.nl,
          None).
Proof.
  apply (write_srt_numbered_blocks
           [sample_segment 0 1.5 " a --> b" [] None;
            sample_segment 1.5 3661.2005 " c --->d" [] None]
           [sample_segment 0 1.5 " a --> b" [] None;
            sample_segment 1.5 3661.2005 " c --->d" [] None]
           (Some 80) false
           [mk_cue 0 1.5 "a --> b"; mk_cue 1.5 3661.2005 "c --->d"] "");
    vm_compute; reflexivity.
Defined.

(** C6, the claim as written fails: of the three cues that the
    synthesizer yields for these segments, [write_srt] writes the first
    only, and raises at the second, whose start is negative. *)
Lemma write_srt_writes_fewer_blocks_than_cues :
  snd (__subtitle_preprocessor_iterator
         [sample_segment 0 1 " first" [] None;
          sample_segment (-1) 2 " second" [] None;
          sample_segment 2 3 " third" [] None] (Some 80) false)
  = {| yielded := [mk_cue 0 1 "first"; mk_cue (-1) 2 "second"; mk_cue 2 3 "third"];
       raised := None |}
  /\ write_srt
       [sample_segment 0 1 " first" [] None;
        sample_segment (-1) 2 " second" [] None;
        sample_segment 2 3 " third" [] None] "" (Some 80) false
     = ([sample_segment 0 1 " first" [] None;
         sample_segment (-1) 2 " second" [] None;
         sample_segment 2 3 " third" [] None],
        "1" ++ Py.nl ++ "00:00:00,000 --> 00:00:01,000" ++ Py.nl
        ++ "first" ++ Py.nl ++ Py.nl,
        Some AssertionError).
Proof. split; vm_compute; reflexivity. Qed.

(* ================================================================== *)
(** * Flat-text wrapping of a text that fits *)

Lemma drop_shorter (n : nat) (c : ascii) (r : string) :
  (String.length (TextWrap.drop (S n) (String c r)) <= String.length r)%nat.
Proof.
  simpl. revert r. induction n as [| n IH]; intros r; [simpl; lia |].
  destruct r as [| d r']; simpl; [lia |]. specialize (IH r'). lia.
Qed.

Lemma word_chunk_positive (before : list ascii) (c : ascii) (r : string) :
  exists n, TextWrap.word_chunk before (String c r) = S n.
Proof.
  destruct r as [| d r']; [now exists O |].
  cbn [TextWrap.word_chunk].
  repeat match goal with
         | |- context [if ?b then _ else _] => destruct b
         end; eexists; reflexivity.
Qed.

Lemma chunk_length_positive (before : list ascii) (c : ascii) (r : string) :
  exists n, TextWrap.chunk_length before (String c r) = S n.
Proof.
  unfold TextWrap.chunk_length.
  destruct (TextWrap.whitespace c) eqn:Hc.
  - simpl. rewrite Hc. eexists. reflexivity.
  - destruct (TextWrap.emdash_between before (String c r)) as [k |] eqn:Hk.
    + unfold TextWrap.emdash_between in Hk.
      destruct before as [| p _]; [discriminate |].
      destruct (TextWrap.word_punct p); [| discriminate].
      unfold TextWrap.emdash_ahead in Hk.
      destruct (TextWrap.drop _ _) as [| d _]; [discriminate |].
      destruct (2 <=? TextWrap.hyphen_run (String c r))%nat eqn:H2; [| discriminate].
      destruct (TextWrap.word_char d); [| discriminate].
      injection Hk as <-. apply Nat.leb_le in H2.
      simpl in H2 |- *.
      destruct (Ascii.eqb c TextWrap.hyphen); [eexists; reflexivity | lia].
    + apply word_chunk_positive.
Qed.

Lemma split_from_cons (fuel : nat) (before : list ascii) (c : ascii) (r : string) :
  TextWrap.split_from (S fuel) before (String c r)
  = TextWrap.take (TextWrap.chunk_length before (String c r)) (String c r)
    :: TextWrap.split_from fuel
         (TextWrap.push
            (TextWrap.take (TextWrap.chunk_length before (String c r)) (String c r))
            before)
         (TextWrap.drop (TextWrap.chunk_length before (String c r)) (String c r)).
Proof. reflexivity. Qed.

(** The chunks of a text are not empty, and put together they are the
    text. *)
Lemma split_from_join (fuel : nat) :
  forall (before : list ascii) (s : string),
    (String.length s <= fuel)%nat ->
    Py.join "" (TextWrap.split_from fuel before s) = s
    /\ Forall (fun chunk => chunk <> "") (TextWrap.split_from fuel before s).
Proof.
  induction fuel as [| fuel IH]; intros before s Hlen.
  - destruct s; [now split | simpl in Hlen; lia].
  - destruct s as [| c r]; [now split |].
    destruct (chunk_length_positive before c r) as [n Hn].
    rewrite split_from_cons, Hn.
    destruct (IH (TextWrap.push (TextWrap.take (S n) (String c r)) before)
                (TextWrap.drop (S n) (String c r))) as [Hjoin Hne].
    { pose proof (drop_shorter n c r). simpl in Hlen. lia. }
    split.
    + rewrite join_empty_cons, Hjoin. apply take_drop.
    + constructor; [discriminate | exact Hne].
Qed.

Lemma expandtabs_plain (tabsize : nat) (s : string) :
  all_chars (fun c => negb (TextWrap.whitespace c) || Ascii.eqb c " ") s = true ->
  forall column, TextWrap.expandtabs_from tabsize column s = s.
Proof.
  induction s as [| c r IH]; intros H column; [reflexivity |].
  simpl in H. apply andb_prop in H as [Hc Hr]. simpl.
  destruct (Ascii.eqb_spec c "009") as [-> | _]; [discriminate Hc |].
  now rewrite (IH Hr).
Qed.

Lemma translate_whitespace_plain (s : string) :
  all_chars (fun c => negb (TextWrap.whitespace c) || Ascii.eqb c " ") s = true ->
  TextWrap.translate_whitespace s = s.
Proof.
  induction s as [| c r IH]; intros H; [reflexivity |].
  simpl in H. apply andb_prop in H as [Hc Hr]. simpl. rewrite (IH Hr).
  destruct (TextWrap.whitespace c); [| reflexivity].
  simpl in Hc. apply Ascii.eqb_eq in Hc. now subst c.
Qed.

Lemma last_char_lstrip_by (p : ascii -> bool) (s : string) (c : ascii) :
  last_char s = Some c -> p c = false -> last_char (Py.lstrip_by p s) = Some c.
Proof.
  intros Hlast Hc. induction s as [| a r IH]; [discriminate |].
  simpl Py.lstrip_by. destruct (p a) eqn:Ha; [| exact Hlast].
  apply IH. destruct r as [| d r']; [| exact Hlast].
  simpl in Hlast. injection Hlast as ->. congruence.
Qed.

Lemma rstrip_by_nonempty (p : ascii -> bool) (s : string) (c : ascii) :
  last_char s = Some c -> p c = false -> Py.rstrip_by p s <> "".
Proof.
  intros Hlast Hc. induction s as [| a r IH]; [discriminate |].
  simpl Py.rstrip_by. destruct r as [| d r'].
  - simpl in Hlast. injection Hlast as ->. simpl. rewrite Hc. discriminate.
  - specialize (IH Hlast).
    destruct (Py.rstrip_by p (String d r')); [congruence | discriminate].
Qed.

Lemma blank_false (chunk : string) (c : ascii) :
  last_char chunk = Some c -> Py.isspace c = false -> TextWrap.blank chunk = false.
Proof.
  intros Hlast Hc. unfold TextWrap.blank, Py.strip.
  apply String.eqb_neq.
  apply (rstrip_by_nonempty _ _ c); [| exact Hc].
  now apply last_char_lstrip_by.
Qed.

Lemma drop_trailing_blank_kept (chunks : list string) (c : ascii) :
  Forall (fun chunk => chunk <> "") chunks ->
  last_char (Py.join "" chunks) = Some c ->
  Py.isspace c = false ->
  TextWrap.drop_trailing_blank chunks = chunks.
Proof.
  intros Hne Hlast Hc. unfold TextWrap.drop_trailing_blank.
  destruct (List.rev chunks) as [| last front] eqn:E; [reflexivity |].
  assert (Hchunks : chunks = (List.rev front ++ [last])%list).
  { rewrite <- (rev_involutive chunks), E. reflexivity. }
  assert (Hl : last <> "").
  { rewrite Forall_forall in Hne. apply Hne. rewrite Hchunks.
    apply in_or_app. right. now left. }
  rewrite Hchunks, join_empty_snoc, (last_char_append _ _ Hl) in Hlast.
  now rewrite (blank_false last c Hlast Hc).
Qed.

Lemma fill_line_all (width : Z) (chunks : list string) :
  forall (cur_line : list string) (cur_len : Z),
    cur_len + Py.len (Py.join "" chunks) <= width ->
    TextWrap.fill_line width chunks cur_line cur_len
    = ([], (cur_line ++ chunks)%list, cur_len + Py.len (Py.join "" chunks)).
Proof.
  induction chunks as [| chunk rest IH]; intros cur_line cur_len Hfit.
  - simpl. rewrite app_nil_r. change (Py.len "") with 0. now rewrite Z.add_0_r.
  - rewrite join_empty_cons, len_append in *.
    pose proof (len_nonneg (Py.join "" rest)).
    simpl TextWrap.fill_line.
    destruct (Z.leb_spec (cur_len + Py.len chunk) width) as [_ | Hgt]; [| lia].
    rewrite IH by lia. rewrite <- app_assoc. simpl. now rewrite Z.add_assoc.
Qed.

Lemma wrap_fitting_text (text : string) (w : Z) :
  plain_spaced text = true ->
  0 < w ->
  Py.len text <= w ->
  TextWrap.wrap text w 4 = Ok (match text with "" => [] | _ => [text] end).
Proof.
  intros Hplain Hw Hfit.
  unfold plain_spaced in Hplain. apply andb_prop in Hplain as [Hws Hlast].
  unfold TextWrap.wrap, TextWrap._munge_whitespace, TextWrap.expandtabs.
  rewrite (expandtabs_plain 4 text Hws 0%nat), (translate_whitespace_plain text Hws).
  unfold TextWrap._wrap_chunks, TextWrap._split.
  destruct (Z.leb_spec w 0) as [Hle | _]; [lia |].
  destruct (split_from_join (String.length text) [] text (Nat.le_refl _))
    as [Hjoin Hne].
  set (chunks := TextWrap.split_from (String.length text) [] text) in *.
  rewrite Hjoin.
  destruct chunks as [| first rest] eqn:Hchunks.
  - simpl in Hjoin. subst text. reflexivity.
  - assert (Htext : text <> "").
    { intros ->. inversion Hne as [| ? ? Hfirst _]. subst.
      destruct first; [congruence | rewrite join_empty_cons in Hjoin; discriminate]. }
    destruct (last_char text) as [c |] eqn:Hc.
    2:{ destruct text as [| a t]; [congruence |]. exfalso. clear - Hc.
        revert a Hc. induction t as [| b t IH]; intros a Hc; [discriminate |].
        exact (IH b Hc). }
    apply negb_true_iff in Hlast.
    assert (Hround : TextWrap.wrap_round w (first :: rest) [] = ([], [text])).
    { unfold TextWrap.wrap_round. simpl List.length. simpl Nat.eqb.
      replace (TextWrap.blank first && negb true) with false
        by (destruct (TextWrap.blank first); reflexivity).
      rewrite (fill_line_all w (first :: rest) [] 0) by (rewrite Hjoin; lia).
      simpl app.
      rewrite (drop_trailing_blank_kept (first :: rest) c Hne)
        by (rewrite ?Hjoin; assumption).
      rewrite Hjoin. reflexivity. }
    simpl TextWrap.wrap_lines. rewrite Hround.
    destruct text as [| a t]; [congruence |].
    destruct (String.length (String a t)); reflexivity.
Qed.

(** C8 (as amended).  [process_text] returns the text unchanged when
    there is no width (none given, or a negative one), whatever the
    text; and when the width is at least one and at least the length of
    the text, for a text whose only white space is the space character
    and which does not end in white space. *)
Theorem process_text_keeps_fitting_text (text : string) (w : Z) :
  plain_spaced text = true ->
  0 < w ->
  Py.len text <= w ->
  process_text text (Some w) = Ok text
  /\ (forall t, process_text t None = Ok t)
  /\ (forall t n, n < 0 -> process_text t (Some n) = Ok t).
Proof.
  intros Hplain Hw Hfit. split; [| split].
  - unfold process_text.
    destruct (Z.ltb_spec w 0) as [Hneg | _]; [lia |].
    rewrite (wrap_fitting_text text w Hplain Hw Hfit). simpl bind.
    destruct text; reflexivity.
  - reflexivity.
  - intros t n Hn. unfold process_text.
    destruct (Z.ltb_spec n 0) as [_ | Hge]; [reflexivity | lia].
Qed.

Lemma process_text_keeps_fitting_text_witness :
  process_text "(SPEAKER_00) Hello  world" (Some 80) = Ok "(SPEAKER_00) Hello  world"
  /\ (forall t, process_text t None = Ok t)
  /\ (forall t n, n < 0 -> process_text t (Some n) = Ok t).
Proof.
  apply (process_text_keeps_fitting_text "(SPEAKER_00) Hello  world" 80).
  - vm_compute. reflexivity.
  - lia.
  - vm_compute. discriminate.
Defined.

(** C8, the claim as written fails.  A line feed or a tab inside a
    short text is replaced by spaces, white space at the end of it is
    dropped, and a width of zero is refused even for the empty text. *)
Lemma process_text_changes_short_text :
  process_text ("a" ++ Py.nl ++ "b") (Some 80) = Ok "a b"
  /\ Py.len ("a" ++ Py.nl ++ "b") <= 80
  /\ "a b" <> "a" ++ Py.nl ++ "b"
  /\ process_text ("a" ++ Py.tab ++ "b") (Some 80) = Ok "a   b"
  /\ process_text "Hello " (Some 80) = Ok "Hello"
  /\ process_text "" (Some 0) = Raise ValueError.
Proof.
  repeat split; try (vm_compute; reflexivity); vm_compute; discriminate.
Qed.

(* ================================================================== *)
(** * The rounds of the wrapping loop are enough *)

Lemma length_append (a b : string) :
  String.length (a ++ b) = (String.length a + String.length b)%nat.
Proof. induction a as [| x a IH]; simpl; [reflexivity | now rewrite IH]. Qed.

Lemma pending_cons (chunk : string) (rest : list string) :
  pending (chunk :: rest) = (String.length chunk + pending rest)%nat.
Proof. unfold pending. now rewrite join_empty_cons, length_append. Qed.

Lemma pending_app (xs ys : list string) :
  pending (xs ++ ys) = (pending xs + pending ys)%nat.
Proof. unfold pending. now rewrite join_empty_app, length_append. Qed.

Lemma nonempty_length (s : string) : s <> "" -> (0 < String.length s)%nat.
Proof. destruct s; [congruence | simpl; lia]. Qed.

Lemma length_drop (n : nat) (s : string) :
  String.length (TextWrap.drop n s) = (String.length s - n)%nat.
Proof.
  revert s. induction n as [| n IH]; intros s; [simpl; lia |].
  destruct s as [| c r]; [reflexivity | simpl; apply IH].
Qed.

(** What the inner loop leaves: it has moved a front part of the chunks
    onto the line, the line still fits, and the next chunk does not. *)
Lemma fill_line_spec (width : Z) (chunks : list string) :
  forall (cur_line : list string) (cur_len : Z),
    cur_len <= width ->
    exists taken left,
      TextWrap.fill_line width chunks cur_line cur_len
      = (left, (cur_line ++ taken)%list, cur_len + Py.len (Py.join "" taken))
      /\ chunks = (taken ++ left)%list
      /\ cur_len + Py.len (Py.join "" taken) <= width
      /\ match left with
         | chunk :: _ =>
             width < cur_len + Py.len (Py.join "" taken) + Py.len chunk
         | [] => True
         end.
Proof.
  induction chunks as [| chunk rest IH]; intros cur_line cur_len Hfit.
  - exists [], []. simpl. rewrite app_nil_r, Z.add_0_r. repeat split; auto.
  - simpl TextWrap.fill_line.
    destruct (Z.leb_spec (cur_len + Py.len chunk) width) as [Hle | Hgt].
    + destruct (IH (cur_line ++ [chunk])%list (cur_len + Py.len chunk) Hle)
        as [taken [left [Hfill [Hsplit [Hfit' Hnext]]]]].
      exists (chunk :: taken), left.
      rewrite Hfill, join_empty_cons, len_append, <- app_assoc, Z.add_assoc.
      repeat split; try assumption.
      simpl. now rewrite Hsplit.
    + exists [], (chunk :: rest). simpl. rewrite app_nil_r, Z.add_0_r.
      repeat split; auto.
Qed.

Lemma rfind_hyphen_from_bound (s : string) :
  forall i stop h,
    TextWrap.rfind_hyphen_from i stop s = Some h -> (h < stop)%nat.
Proof.
  induction s as [| c r IH]; intros i stop h; simpl; [discriminate |].
  destruct (Nat.ltb_spec i stop) as [Hlt | _]; [| discriminate].
  destruct (TextWrap.rfind_hyphen_from (S i) stop r) as [j |] eqn:E.
  - intros H. injection H as <-. exact (IH _ _ _ E).
  - destruct (Ascii.eqb c TextWrap.hyphen); [| discriminate].
    intros H. injection H as <-. exact Hlt.
Qed.

(** Breaking a chunk that is longer than the line leaves a part of it
    that is not empty, and takes at least one character when the line is
    empty. *)
Lemma handle_long_word_spec (chunk : string) (rest cur_line : list string)
    (cur_len width : Z) :
  0 < width ->
  0 <= cur_len <= width ->
  width < Py.len chunk ->
  exists e,
    TextWrap._handle_long_word (chunk :: rest) cur_line cur_len width
    = (TextWrap.drop e chunk :: rest, (cur_line ++ [TextWrap.take e chunk])%list)
    /\ (e < String.length chunk)%nat
    /\ (cur_len = 0 -> (0 < e)%nat).
Proof.
  intros Hw Hcur Hlong. unfold TextWrap._handle_long_word.
  destruct (Z.ltb_spec width 1) as [Hbad | _]; [lia |].
  unfold Py.len in *.
  destruct (Z.ltb_spec (width - cur_len) (Z.of_nat (String.length chunk)))
    as [_ | Hbad]; [| lia].
  destruct (TextWrap.rfind_hyphen_from 0 (Z.to_nat (width - cur_len)) chunk)
    as [h |] eqn:Eh.
  - pose proof (rfind_hyphen_from_bound _ _ _ _ Eh) as Hh.
    destruct ((0 <? h)%nat && TextWrap.any_not_hyphen (TextWrap.take h chunk)).
    + exists (Z.to_nat (Z.of_nat h + 1)). split; [reflexivity |]. split; lia.
    + exists (Z.to_nat (width - cur_len)). split; [reflexivity |]. split; lia.
  - exists (Z.to_nat (width - cur_len)). split; [reflexivity |]. split; lia.
Qed.

(** A round leaves fewer characters to place than it found, in chunks
    that are still not empty. *)
Lemma wrap_round_progress (width : Z) (first : string) (rest lines : list string) :
  0 < width ->
  Forall (fun chunk => chunk <> "") (first :: rest) ->
  (pending (fst (TextWrap.wrap_round width (first :: rest) lines))
   < pending (first :: rest))%nat
  /\ Forall (fun chunk => chunk <> "")
       (fst (TextWrap.wrap_round width (first :: rest) lines)).
Proof.
  intros Hw Hne. unfold TextWrap.wrap_round.
  set (chunks0 :=
         if TextWrap.blank first && negb (Nat.eqb (List.length lines) 0)
         then rest else first :: rest).
  assert (H0 : Forall (fun chunk => chunk <> "") chunks0
               /\ (chunks0 = first :: rest
                   \/ (pending chunks0 < pending (first :: rest))%nat)).
  { subst chunks0. inversion Hne as [| ? ? Hfirst Hrest]. subst.
    destruct (_ && _).
    - split; [exact Hrest | right].
      rewrite pending_cons. pose proof (nonempty_length _ Hfirst). lia.
    - split; [exact Hne | now left]. }
  destruct H0 as [Hne0 Hcase].
  destruct (fill_line_spec width chunks0 [] 0 ltac:(lia))
    as [taken [left [Hfill [Hsplit [Hfit Hnext]]]]].
  rewrite Hfill. simpl app.
  assert (Hleft : Forall (fun chunk => chunk <> "") left).
  { rewrite Hsplit in Hne0. now apply Forall_app in Hne0 as [_ H]. }
  assert (Hpend : (pending chunks0 = pending taken + pending left)%nat)
    by (rewrite Hsplit; apply pending_app).
  assert (Hgoal :
    forall chunks2 cur_line2,
      Forall (fun chunk => chunk <> "") chunks2 ->
      (pending chunks2 < pending (first :: rest))%nat ->
      (pending
         (fst match TextWrap.drop_trailing_blank cur_line2 with
              | [] => (chunks2, lines)
              | _ :: _ =>
                  (chunks2,
                   (lines ++ [Py.join "" (TextWrap.drop_trailing_blank cur_line2)])%list)
              end)
       < pending (first :: rest))%nat
      /\ Forall (fun chunk => chunk <> "")
           (fst match TextWrap.drop_trailing_blank cur_line2 with
                | [] => (chunks2, lines)
                | _ :: _ =>
                    (chunks2,
                     (lines ++ [Py.join "" (TextWrap.drop_trailing_blank cur_line2)])%list)
                end)).
  { intros chunks2 cur_line2 H1 H2.
    destruct (TextWrap.drop_trailing_blank cur_line2); simpl; now split. }
  assert (Hlen0 : 0 <= Py.len (Py.join "" taken)) by apply len_nonneg.
  destruct left as [| chunk left'].
  - apply Hgoal; [constructor |].
    destruct Hcase as [-> | Hlt].
    + rewrite Hpend. rewrite app_nil_r in Hsplit. rewrite <- Hsplit.
      change (pending []) with 0%nat.
      rewrite pending_cons. inversion Hne as [| ? ? Hfirst _]. subst.
      pose proof (nonempty_length _ Hfirst). lia.
    + rewrite Hpend in Hlt. change (pending []) with 0%nat. lia.
  - inversion Hleft as [| ? ? Hchunk Hleft']. subst.
    destruct (Z.ltb_spec width (Py.len chunk)) as [Hlong | Hshort].
    + destruct (handle_long_word_spec chunk left' taken
                  (0 + Py.len (Py.join "" taken)) width Hw ltac:(lia) Hlong)
        as [e [Hh [He Hpos]]].
      rewrite Hh. apply Hgoal.
      * constructor; [| exact Hleft'].
        intros Hempty. pose proof (length_drop e chunk) as Hd.
        rewrite Hempty in Hd. simpl in Hd. lia.
      * rewrite pending_cons, length_drop.
        rewrite pending_cons in Hpend.
        destruct Hcase as [Hsame | Hlt]; [| lia].
        rewrite <- Hsame.
        destruct taken as [| t ts].
        -- specialize (Hpos eq_refl). rewrite Hpend.
           change (pending []) with 0%nat. lia.
        -- rewrite Hsplit in Hne0. inversion Hne0 as [| ? ? Ht _]. subst.
           pose proof (nonempty_length _ Ht).
           rewrite Hpend, (pending_cons t ts). lia.
    + apply Hgoal; [exact Hleft |].
      destruct Hcase as [Hsame | Hlt]; [| lia].
      rewrite <- Hsame, Hpend.
      destruct taken as [| t ts].
      * exfalso. simpl in Hnext. change (Py.len "") with 0 in Hnext. lia.
      * rewrite Hsplit in Hne0. inversion Hne0 as [| ? ? Ht _]. subst.
        pose proof (nonempty_length _ Ht). rewrite (pending_cons t ts). lia.
Qed.

(** The loop of [_wrap_chunks] does not depend on the number of rounds
    it is allowed, once that number exceeds the characters to place: it
    ends because the chunks are exhausted. *)
Lemma wrap_lines_fuel (width : Z) :
  0 < width ->
  forall (fuel1 fuel2 : nat) (chunks lines : list string),
    Forall (fun chunk => chunk <> "") chunks ->
    (pending chunks < fuel1)%nat ->
    (pending chunks < fuel2)%nat ->
    TextWrap.wrap_lines fuel1 width chunks lines
    = TextWrap.wrap_lines fuel2 width chunks lines.
Proof.
  intros Hw. induction fuel1 as [| fuel1 IH]; intros fuel2 chunks lines Hne H1 H2;
    [lia |].
  destruct fuel2 as [| fuel2]; [lia |].
  destruct chunks as [| first rest]; [reflexivity |].
  simpl TextWrap.wrap_lines.
  destruct (wrap_round_progress width first rest lines Hw Hne) as [Hlt Hne'].
  destruct (TextWrap.wrap_round width (first :: rest) lines) as [chunks' lines'].
  simpl in Hlt, Hne'. apply IH; [exact Hne' | lia | lia].
Qed.

(** The chunks of a text are exhausted by [wrap]: more rounds give the
    same lines. *)
Lemma wrap_rounds_suffice (text : string) (width : Z) (tabsize extra : nat) :
  0 < width ->
  TextWrap.wrap text width tabsize
  = Ok (TextWrap.wrap_lines
          (S (pending (TextWrap._split (TextWrap._munge_whitespace tabsize text)))
           + extra)
          width (TextWrap._split (TextWrap._munge_whitespace tabsize text)) []).
Proof.
  intros Hw. unfold TextWrap.wrap, TextWrap._wrap_chunks.
  destruct (Z.leb_spec width 0) as [Hbad | _]; [lia |].
  f_equal. apply wrap_lines_fuel; [exact Hw | | unfold pending; lia | unfold pending; lia].
  unfold TextWrap._split. apply split_from_join. apply Nat.le_refl.
Qed.

(* ================================================================== *)
(** * Highlight cues keep the line breaks *)

Lemma join_words_loop_cons (w : Z) (e : entry) (rest : list entry)
    (lines : list string) (current_line : string) (current_length : Z) :
  join_words_loop w (e :: rest) lines current_line current_length
  = if (0 <? current_length) && (w <? current_length + entry_length e)
    then join_words_loop w rest (lines ++ [current_line])%list
           ("" ++ entry_word e) (0 + entry_length e)
    else join_words_loop w rest lines (current_line ++ entry_word e)
           (current_length + entry_length e).
Proof. reflexivity. Qed.

(** The loop of [__join_words] packs the tokens as [pack_from] does,
    when every token has a text and counts for a positive length. *)
Lemma join_words_loop_packs (w : Z) (words : list entry) :
  Forall (fun e => entry_word e <> "" /\ 0 < entry_length e) words ->
  forall (lines : list string) (cur : list string) (used : Z),
    Forall (fun s => s <> "") cur ->
    (cur = [] -> used = 0) ->
    (cur <> [] -> 0 < used) ->
    close_lines (join_words_loop w words lines (Py.join "" cur) used)
    = (lines ++ List.map (Py.join "") (pack_from w words cur used))%list.
Proof.
  intros Hwords. induction Hwords as [| e rest [He Hl] _ IH];
    intros lines cur used Hcur Hzero Hpos.
  - simpl join_words_loop. unfold close_lines.
    destruct cur as [| x xs].
    + simpl. now rewrite app_nil_r.
    + rewrite (len_pos _ (join_empty_nonempty _ Hcur ltac:(discriminate))).
      reflexivity.
  - rewrite join_words_loop_cons.
    assert (Htoken : Forall (fun s => s <> "") [entry_word e])
      by (constructor; [exact He | constructor]).
    destruct cur as [| x xs].
    + rewrite (Hzero eq_refl). cbn [Z.ltb Z.compare andb pack_from].
      change (Py.join "" [] ++ entry_word e) with (Py.join "" [entry_word e]).
      apply IH; [exact Htoken | discriminate | intros _; lia].
    + specialize (Hpos ltac:(discriminate)).
      destruct (Z.ltb_spec 0 used) as [_ | Hbad]; [| lia].
      cbn [andb pack_from].
      destruct (w <? used + entry_length e).
      * change ("" ++ entry_word e) with (Py.join "" [entry_word e]).
        rewrite Z.add_0_l.
        rewrite IH; [| exact Htoken | discriminate | intros _; lia].
        cbn [map]. rewrite <- app_assoc. reflexivity.
      * rewrite <- join_empty_snoc.
        apply IH.
        -- apply Forall_app. split; [exact Hcur | exact Htoken].
        -- intros H. destruct xs; discriminate H.
        -- intros _. lia.
Qed.

Lemma join_words_packs (w : Z) (words : list entry) :
  0 <= w ->
  Forall (fun e => entry_word e <> "" /\ 0 < entry_length e) words ->
  __join_words words (Some w) = Ok (lines_text (pack w words)).
Proof.
  intros Hw Hwords. unfold __join_words.
  destruct (Z.ltb_spec w 0) as [Hneg | _]; [lia |].
  change "" with (Py.join "" []) at 1.
  rewrite (join_words_loop_packs w words Hwords [] [] 0
             (Forall_nil _) (fun _ => eq_refl) ltac:(congruence)).
  reflexivity.
Qed.

(** The sizes of the lines depend on the lengths counted for the tokens
    alone. *)
Lemma pack_from_sizes (w : Z) (words1 : list entry) :
  forall (words2 : list entry) (cur1 cur2 : list string) (used : Z),
    List.map entry_length words1 = List.map entry_length words2 ->
    List.length cur1 = List.length cur2 ->
    line_sizes (pack_from w words1 cur1 used)
    = line_sizes (pack_from w words2 cur2 used).
Proof.
  induction words1 as [| e1 rest1 IH]; intros words2 cur1 cur2 used Hlen Hcur.
  - destruct words2 as [| e2 rest2]; [| discriminate].
    destruct cur1, cur2; try discriminate; simpl in *; [reflexivity | congruence].
  - destruct words2 as [| e2 rest2]; [discriminate |].
    simpl in Hlen. injection Hlen as He Hrest.
    destruct cur1 as [| x1 xs1], cur2 as [| x2 xs2]; try discriminate.
    + simpl pack_from. rewrite He. now apply IH.
    + cbn [pack_from]. rewrite He.
      destruct (w <? used + entry_length e2).
      * unfold line_sizes. cbn [map]. fold line_sizes.
        rewrite Hcur. f_equal. now apply IH.
      * apply IH; [exact Hrest |]. rewrite !length_app, Hcur. reflexivity.
Qed.

Lemma underline_nonempty (word : string) : word <> "" -> underline word <> "".
Proof.
  intros Hw. unfold underline.
  destruct (_ || _); [| exact Hw].
  destruct (TextWrap.take (space_run word) word); discriminate.
Qed.

Lemma highlight_entries_from_lengths (i : nat) (text_words : list string) :
  forall j,
    List.map entry_length (highlight_entries_from j i text_words)
    = List.map Py.len text_words.
Proof.
  induction text_words as [| word rest IH]; intros j; [reflexivity |].
  simpl. now rewrite IH.
Qed.

Lemma highlight_entries_from_words (i : nat) (text_words : list string) :
  forall j k word,
    nth_error text_words k = Some word ->
    nth_error (List.map entry_word (highlight_entries_from j i text_words)) k
    = Some (if Nat.eqb (j + k) i then underline word else word).
Proof.
  induction text_words as [| first rest IH]; intros j k word Hk.
  - destruct k; discriminate.
  - destruct k as [| k].
    + simpl in Hk. injection Hk as <-. simpl. now rewrite Nat.add_0_r.
    + simpl in Hk. simpl. rewrite (IH (S j) k word Hk).
      now rewrite Nat.add_succ_r.
Qed.

Lemma highlight_entries_from_tokens (i : nat) (text_words : list string) :
  Forall (fun word => word <> "") text_words ->
  forall j,
    Forall (fun e => entry_word e <> "" /\ 0 < entry_length e)
      (highlight_entries_from j i text_words).
Proof.
  intros Hne. induction Hne as [| word rest Hw _ IH]; intros j; [constructor |].
  simpl. constructor; [| apply IH]. simpl. split.
  - destruct (Nat.eqb j i); [now apply underline_nonempty | exact Hw].
  - apply Z.ltb_lt, len_pos, Hw.
Qed.

Lemma plain_tokens (text_words : list string) :
  Forall (fun word => word <> "") text_words ->
  Forall (fun e => entry_word e <> "" /\ 0 < entry_length e)
    (List.map Str text_words).
Proof.
  intros Hne. induction Hne as [| word rest Hw _ IH]; [constructor |].
  simpl. constructor; [| exact IH]. simpl. split; [exact Hw |].
  apply Z.ltb_lt, len_pos, Hw.
Qed.

Lemma drop_space_run (word : string) :
  TextWrap.drop (space_run word) word = Py.lstrip_by Py.isspace word.
Proof.
  induction word as [| c r IH]; [reflexivity |].
  simpl. destruct (Py.isspace c); [exact IH | reflexivity].
Qed.

Lemma line_run_all (s : string) :
  no_line_feed s = true ->
  TextWrap.take (line_run s) s = s /\ TextWrap.drop (line_run s) s = "".
Proof.
  unfold no_line_feed. induction s as [| c r IH]; [now split |].
  simpl. intros H. apply andb_prop in H as [Hc Hr].
  apply negb_true_iff in Hc. rewrite Hc. simpl.
  destruct (IH Hr) as [-> ->]. now split.
Qed.

Lemma underline_marks_stripped_word (word : string) :
  no_line_feed word = true ->
  underline word
  = TextWrap.take (space_run word) word
    ++ "<u>" ++ Py.lstrip_by Py.isspace word ++ "</u>".
Proof.
  intros H. unfold underline. rewrite drop_space_run.
  assert (Hs : no_line_feed (Py.lstrip_by Py.isspace word) = true)
    by (apply all_chars_lstrip_by; exact H).
  destruct (line_run_all _ Hs) as [-> ->]. reflexivity.
Qed.

(** C9 (as amended).  In the cue that highlights word [i], each token
    counts for the length of the word as it is, the markup left out;
    the text of token [i] is the word with the tags around what is left
    of it after its leading white space (for a word without a line
    feed), and the other tokens are the words; and for words that are
    not empty and a width that is not negative, the highlighted text and
    the plain text are both the greedy packing of their tokens, with the
    same number of tokens on every line. *)
Theorem highlight_cue_keeps_line_breaks (text_words : list string) (i : nat) (w : Z) :
  0 <= w ->
  Forall (fun word => word <> "") text_words ->
  List.map entry_length (highlight_entries i text_words)
  = List.map Py.len text_words
  /\ (forall k word,
        nth_error text_words k = Some word ->
        nth_error (List.map entry_word (highlight_entries i text_words)) k
        = Some (if Nat.eqb k i then underline word else word))
  /\ (forall word,
        no_line_feed word = true ->
        underline word
        = TextWrap.take (space_run word) word
          ++ "<u>" ++ Py.lstrip_by Py.isspace word ++ "</u>")
  /\ __join_words (List.map Str text_words) (Some w)
     = Ok (lines_text (pack w (List.map Str text_words)))
  /\ __join_words (highlight_entries i text_words) (Some w)
     = Ok (lines_text (pack w (highlight_entries i text_words)))
  /\ line_sizes (pack w (highlight_entries i text_words))
     = line_sizes (pack w (List.map Str text_words)).
Proof.
  intros Hw Hne. unfold highlight_entries.
  split; [apply highlight_entries_from_lengths |].
  split; [intros k word Hk; exact (highlight_entries_from_words i text_words 0 k word Hk) |].
  split; [exact underline_marks_stripped_word |].
  split; [apply join_words_packs; [exact Hw | now apply plain_tokens] |].
  split; [apply join_words_packs; [exact Hw | now apply highlight_entries_from_tokens] |].
  apply pack_from_sizes; [| reflexivity].
  rewrite highlight_entries_from_lengths.
  clear. induction text_words as [| word rest IH]; [reflexivity |].
  simpl. now rewrite IH.
Qed.

Lemma highlight_cue_keeps_line_breaks_witness :
  List.map entry_length (highlight_entries 1 ["(SPEAKER_00)"; " Hello"; " world"])
  = List.map Py.len ["(SPEAKER_00)"; " Hello"; " world"]
  /\ (forall k word,
        nth_error ["(SPEAKER_00)"; " Hello"; " world"] k = Some word ->
        nth_error
          (List.map entry_word
             (highlight_entries 1 ["(SPEAKER_00)"; " Hello"; " world"])) k
        = Some (if Nat.eqb k 1 then underline word else word))
  /\ (forall word,
        no_line_feed word = true ->
        underline word
        = TextWrap.take (space_run word) word
          ++ "<u>" ++ Py.lstrip_by Py.isspace word ++ "</u>")
  /\ __join_words (List.map Str ["(SPEAKER_00)"; " Hello"; " world"]) (Some 12)
     = Ok (lines_text (pack 12 (List.map Str ["(SPEAKER_00)"; " Hello"; " world"])))
  /\ __join_words (highlight_entries 1 ["(SPEAKER_00)"; " Hello"; " world"]) (Some 12)
     = Ok (lines_text
             (pack 12 (highlight_entries 1 ["(SPEAKER_00)"; " Hello"; " world"])))
  /\ line_sizes (pack 12 (highlight_entries 1 ["(SPEAKER_00)"; " Hello"; " world"]))
     = line_sizes (pack 12 (List.map Str ["(SPEAKER_00)"; " Hello"; " world"])).
Proof.
  apply (highlight_cue_keeps_line_breaks ["(SPEAKER_00)"; " Hello"; " world"] 1 12).
  - lia.
  - repeat constructor; discriminate.
Defined.

(** C9, the claim as written fails.  The length counted for the
    highlighted word is that of the word, 3 for the word below, not the
    10 characters of the word with its markup.  Besides, an empty word
    that is highlighted at the end of the text gets a line of its own,
    which the plain text does not have, and a word with a line feed
    inside is not marked at all. *)
Lemma highlight_length_leaves_markup_out :
  highlight_entries 0 [" hi"] = [Dict (" " ++ "<u>hi</u>") 3]
  /\ Py.len (" " ++ "<u>hi</u>") = 10
  /\ List.map entry_length (highlight_entries 0 [" hi"])
     <> List.map Py.len (List.map entry_word (highlight_entries 0 [" hi"]))
  /\ __join_words (List.map Str ["abcde"; ""]) (Some 3) = Ok "abcde"
  /\ __join_words (highlight_entries 1 ["abcde"; ""]) (Some 3)
     = Ok ("abcde" ++ Py.nl ++ "<u></u>")
  /\ underline ("a" ++ Py.nl ++ "b") = "a" ++ Py.nl ++ "b".
Proof.
  repeat split; try (vm_compute; reflexivity); vm_compute; discriminate.
Qed.

(* ================================================================== *)
(** * Further properties of the timestamp formatter *)

Lemma format_d_digits_width (width : nat) (bound : nat) :
  forallb
    (fun k => Nat.eqb (String.length (Py.format_d width (Z.of_nat k))) width)
    (seq 0 bound) = true ->
  forall n, 0 <= n < Z.of_nat bound ->
            String.length (Py.format_d width n) = width.
Proof.
  intros Hall n Hn. rewrite forallb_forall in Hall.
  specialize (Hall (Z.to_nat n)).
  rewrite Z2Nat.id in Hall by lia.
  apply Nat.eqb_eq, Hall, in_seq. lia.
Qed.

Lemma format_d_2_width (n : Z) :
  0 <= n < 100 -> String.length (Py.format_d 2 n) = 2%nat.
Proof. apply (format_d_digits_width 2 100). vm_compute. reflexivity. Qed.

Lemma format_d_3_width (n : Z) :
  0 <= n < 1000 -> String.length (Py.format_d 3 n) = 3%nat.
Proof. apply (format_d_digits_width 3 1000). vm_compute. reflexivity. Qed.

(** X1.  [format_timestamp] raises [AssertionError] exactly for the
    times that are negative or NaN; it returns a string exactly for the
    times that are not negative and whose product with 1000 is finite;
    and the milliseconds it then prints come from a number that is not
    negative. *)
Theorem format_timestamp_outcomes (seconds : float) (always_include_hours : bool)
    (sep : string) :
  (format_timestamp seconds always_include_hours sep = Raise AssertionError
   <-> (0 <=? seconds)%float = false)
  /\ ((exists text, format_timestamp seconds always_include_hours sep = Ok text)
      <-> (0 <=? seconds)%float = true
          /\ finite_value (seconds * 1000)%float <> None)
  /\ (forall text,
        format_timestamp seconds always_include_hours sep = Ok text ->
        exists ms,
          py_round (seconds * 1000)%float = Ok ms /\ 0 <= ms
          /\ text = render_fields always_include_hours sep (timestamp_fields ms)).
Proof.
  unfold format_timestamp, bind.
  destruct (0 <=? seconds)%float eqn:Hpos; simpl negb; cbv iota.
  - split; [| split].
    + split; [| discriminate].
      unfold py_round. destruct (Prim2SF (seconds * 1000)%float); discriminate.
    + unfold py_round, finite_value.
      destruct (Prim2SF (seconds * 1000)%float); split;
        try (intros [text H]; discriminate H);
        try (intros [_ H]; congruence);
        try (intros _; split; [reflexivity | discriminate]);
        intros _; eexists; reflexivity.
    + intros text H.
      destruct (py_round (seconds * 1000)%float) as [ms |] eqn:Hr; [| discriminate].
      injection H as <-. exists ms.
      split; [reflexivity |]. split; [| reflexivity].
      exact (py_round_milliseconds_nonneg seconds ms Hpos Hr).
  - split; [| split].
    + split; reflexivity.
    + split; [intros [text H]; discriminate H | intros [H _]; discriminate H].
    + intros text H. discriminate H.
Qed.

(** X2.  Every text that [format_timestamp] returns shows the
    milliseconds of the time, as [round] gives them, as a time of day:
    the minutes and the seconds in two digits and the milliseconds in
    three, around the colon and the separator, and before them the
    hours (in two digits, in more from a hundred hours on) and a colon,
    exactly when the hours are forced or the milliseconds reach one
    hour.  So the text has a fixed width below a hundred hours of
    milliseconds.  The conditions bear on the rounded milliseconds, not
    on the time: 3599.9995 seconds are 3600000 milliseconds and show an
    hour. *)
Theorem format_timestamp_fixed_width (seconds : float) (always_include_hours : bool)
    (sep text : string) :
  format_timestamp seconds always_include_hours sep = Ok text ->
  exists ms,
    milliseconds_of seconds ms
    /\ clock always_include_hours sep ms text
    /\ (ms < 360000000 ->
        String.length text
        = ((if always_include_hours || (3600000 <=? ms)%Z then 3 else 0)
           + 2 + 1 + 2 + String.length sep + 3)%nat).
Proof.
  intros Hfmt.
  destruct (format_timestamp_clock _ _ _ _ Hfmt) as (ms & Hof & Hms & Hr & Hclock).
  exists ms. split; [exact Hof |]. split; [exact Hclock |]. intros Hbound.
  assert (Hpos : (0 <=? seconds)%float = true) by exact (proj1 Hof).
  assert (Htext : text
                  = render_fields always_include_hours sep (timestamp_fields ms)).
  { unfold format_timestamp, bind in Hfmt. rewrite Hpos, Hr in Hfmt.
    simpl negb in Hfmt. cbv iota in Hfmt. congruence. }
  pose proof (timestamp_fields_carry ms) as Hc.
  destruct (timestamp_fields ms) as [[[hours minutes] secs] millis] eqn:Hf.
  destruct Hc as [Hsum [Hmin [Hsec Hmil]]].
  assert (Hhours : 0 <= hours < 100) by lia.
  rewrite Htext. unfold render_fields.
  rewrite !length_append.
  rewrite (format_d_2_width minutes ltac:(lia)), (format_d_2_width secs ltac:(lia)),
    (format_d_3_width millis Hmil).
  replace (3600000 <=? ms) with (0 <? hours)
    by (destruct (Z.ltb_spec 0 hours), (Z.leb_spec 3600000 ms); lia || reflexivity).
  destruct (always_include_hours || (0 <? hours)).
  - rewrite length_append, (format_d_2_width hours Hhours). simpl. lia.
  - simpl. lia.
Qed.

Lemma format_timestamp_fixed_width_witness :
  exists ms,
    milliseconds_of 3599.9995 ms
    /\ clock false "." ms "01:00:00.000"
    /\ (ms < 360000000 ->
        String.length "01:00:00.000"
        = ((if false || (3600000 <=? ms)%Z then 3 else 0)
           + 2 + 1 + 2 + String.length "." + 3)%nat).
Proof.
  apply (format_timestamp_fixed_width 3599.9995 false "." "01:00:00.000").
  vm_compute. reflexivity.
Defined.

(* ================================================================== *)
(** * The token wrapper keeps to the width *)

Lemma pack_from_within (width : Z) (words : list string) :
  forall (current : list string) (used : Z),
    used = Py.len (Py.join "" current) ->
    (current = [] \/ used <= width \/ List.length current = 1%nat) ->
    List.concat (pack_from width (List.map Str words) current used)
    = (current ++ words)%list
    /\ Forall (line_within width) (pack_from width (List.map Str words) current used).
Proof.
  induction words as [| word rest IH]; intros current used Hused Hcur.
  - simpl. destruct current as [| x xs].
    + split; [reflexivity | constructor].
    + split; [simpl; now rewrite !app_nil_r |].
      constructor; [| constructor]. split; [discriminate |].
      destruct Hcur as [H | [H | H]]; [discriminate | left; lia | now right].
  - simpl map. destruct current as [| x xs].
    + cbn [pack_from entry_word entry_length].
      destruct (IH [word] (used + Py.len word)) as [Hcat Hall].
      * simpl Py.join in *. change (Py.len "") with 0 in Hused. lia.
      * right. now right.
      * split; [exact Hcat | exact Hall].
    + cbn [pack_from entry_word entry_length].
      destruct (Z.ltb_spec width (used + Py.len word)) as [Hover | Hfit].
      * destruct (IH [word] (Py.len word)) as [Hcat Hall].
        -- reflexivity.
        -- right. now right.
        -- split.
           ++ simpl List.concat. rewrite Hcat. reflexivity.
           ++ constructor; [| exact Hall]. split; [discriminate |].
              destruct Hcur as [H | [H | H]]; [discriminate | left; lia | now right].
      * destruct (IH ((x :: xs) ++ [word])%list (used + Py.len word)) as [Hcat Hall].
        -- rewrite join_empty_snoc, len_append. lia.
        -- right. left. exact Hfit.
        -- split; [| exact Hall]. rewrite Hcat, <- app_assoc. reflexivity.
Qed.

(** X3.  For words that are not empty and a width that is not negative,
    the text [__join_words] returns is made of lines that hold all the
    words once and in order, each line joined with nothing in between,
    and no line counts for more than the width unless it holds a single
    word. *)
Theorem join_words_lines_within_width (words : list string) (w : Z) :
  0 <= w ->
  Forall (fun word => word <> "") words ->
  exists lines,
    __join_words (List.map Str words) (Some w)
    = Ok (Py.join Py.nl (List.map (Py.join "") lines))
    /\ List.concat lines = words
    /\ Forall (line_within w) lines.
Proof.
  intros Hw Hne. exists (pack w (List.map Str words)).
  split; [exact (join_words_packs w _ Hw (plain_tokens words Hne)) |].
  unfold pack. apply (pack_from_within w words [] 0); [reflexivity | now left].
Qed.

Lemma join_words_lines_within_width_witness :
  exists lines,
    __join_words (List.map Str ["(SPEAKER_00)"; " Hello"; " world"; " again"]) (Some 12)
    = Ok (Py.join Py.nl (List.map (Py.join "") lines))
    /\ List.concat lines = ["(SPEAKER_00)"; " Hello"; " world"; " again"]
    /\ Forall (line_within 12) lines.
Proof.
  apply (join_words_lines_within_width
           ["(SPEAKER_00)"; " Hello"; " world"; " again"] 12).
  - lia.
  - repeat constructor; discriminate.
Defined.

(* ================================================================== *)
(** * What the synthesizer yields and what it leaves *)

Lemma process_text_returns (text : string) (maxLineWidth : option Z) :
  maxLineWidth <> Some 0 -> exists out, process_text text maxLineWidth = Ok out.
Proof.
  intros H. unfold process_text.
  destruct maxLineWidth as [w |]; [| eexists; reflexivity].
  destruct (Z.ltb_spec w 0) as [Hneg | Hpos]; [eexists; reflexivity |].
  unfold TextWrap.wrap, TextWrap._wrap_chunks.
  destruct (Z.leb_spec w 0) as [Hle | Hgt].
  - exfalso. apply H. f_equal. lia.
  - eexists. reflexivity.
Qed.

Lemma join_words_of_strings (words : list string) (maxLineWidth : option Z) :
  exists text, __join_words (List.map Str words) maxLineWidth = Ok text.
Proof.
  assert (Hitems : str_items (List.map Str words) = Ok words).
  { induction words as [| word rest IH]; [reflexivity |].
    simpl. rewrite IH. reflexivity. }
  unfold __join_words. destruct maxLineWidth as [w |].
  - destruct (w <? 0); [rewrite Hitems |]; eexists; reflexivity.
  - rewrite Hitems. eexists. reflexivity.
Qed.

Lemma preprocess_segment_plain (maxLineWidth : option Z) (segment : Segment) :
  maxLineWidth <> Some 0 ->
  exists text,
    snd (preprocess_segment maxLineWidth false segment)
    = {| yielded := [mk_cue (seg_start segment) (seg_end segment) text];
         raised := None |}.
Proof.
  intros Hw. unfold preprocess_segment.
  destruct (seg_words segment) as [[| first rest] |].
  - destruct (seg_longest_speaker segment) as [speaker |].
    + destruct (process_text_returns
                  ("(" ++ speaker ++ ") " ++ Py.strip (seg_text segment))
                  maxLineWidth Hw) as [out ->].
      eexists. reflexivity.
    + destruct (no_budget maxLineWidth); [eexists; reflexivity |].
      destruct (process_text_returns (Py.strip (seg_text segment)) maxLineWidth Hw)
        as [out ->].
      eexists. reflexivity.
  - match goal with
    | |- context [__join_words (List.map Str ?ws) maxLineWidth] =>
        destruct (join_words_of_strings ws maxLineWidth) as [text ->]
    end.
    eexists. reflexivity.
  - destruct (seg_longest_speaker segment) as [speaker |].
    + destruct (process_text_returns
                  ("(" ++ speaker ++ ") " ++ Py.strip (seg_text segment))
                  maxLineWidth Hw) as [out ->].
      eexists. reflexivity.
    + destruct (no_budget maxLineWidth); [eexists; reflexivity |].
      destruct (process_text_returns (Py.strip (seg_text segment)) maxLineWidth Hw)
        as [out ->].
      eexists. reflexivity.
Qed.

(** X4.  With highlighting off and a line width other than zero, the
    synthesizer never fails and yields exactly one cue for each segment,
    in order, with the start and the end of the segment, whether the
    segment has words or not. *)
Theorem plain_cues_one_per_segment (transcript : list Segment)
    (maxLineWidth : option Z) :
  maxLineWidth <> Some 0 ->
  exists cues,
    snd (__subtitle_preprocessor_iterator transcript maxLineWidth false)
    = {| yielded := cues; raised := None |}
    /\ List.map (fun c => (cue_start c, cue_end c)) cues
       = List.map (fun s => (seg_start s, seg_end s)) transcript.
Proof.
  intros Hw. induction transcript as [| segment rest IH].
  - exists []. split; reflexivity.
  - destruct IH as [cues [Hrest Hspans]].
    destruct (preprocess_segment_plain maxLineWidth segment Hw) as [text Hseg].
    simpl __subtitle_preprocessor_iterator.
    destruct (preprocess_segment maxLineWidth false segment) as [segment' out].
    simpl in Hseg. subst out. simpl raised. cbv iota.
    destruct (__subtitle_preprocessor_iterator rest maxLineWidth false)
      as [rest' out'].
    simpl in Hrest. subst out'.
    exists (mk_cue (seg_start segment) (seg_end segment) text :: cues).
    split; [reflexivity |]. simpl. now rewrite Hspans.
Qed.

Lemma plain_cues_one_per_segment_witness :
  exists cues,
    snd (__subtitle_preprocessor_iterator
           [sample_segment 0 1 " Hello" [(0, 1, " Hello")]%float (Some "SPEAKER_00");
            sample_segment 1 2.5 " world" [] None]
           (Some 80) false)
    = {| yielded := cues; raised := None |}
    /\ List.map (fun c => (cue_start c, cue_end c)) cues
       = List.map (fun s => (seg_start s, seg_end s))
           [sample_segment 0 1 " Hello" [(0, 1, " Hello")]%float (Some "SPEAKER_00");
            sample_segment 1 2.5 " world" [] None].
Proof.
  apply (plain_cues_one_per_segment
           [sample_segment 0 1 " Hello" [(0, 1, " Hello")]%float (Some "SPEAKER_00");
            sample_segment 1 2.5 " world" [] None]
           (Some 80)).
  discriminate.
Defined.

Lemma segment_eta (segment : Segment) :
  {| seg_start := seg_start segment;
     seg_end := seg_end segment;
     seg_text := seg_text segment;
     seg_words := seg_words segment;
     seg_longest_speaker := seg_longest_speaker segment |} = segment.
Proof. destruct segment. reflexivity. Qed.

(** The body of the generator changes the word list of a labelled
    segment with words and nothing else, whatever it yields. *)
Lemma preprocess_segment_touched (maxLineWidth : option Z) (highlight_words : bool)
    (segment : Segment) :
  fst (preprocess_segment maxLineWidth highlight_words segment) = touched segment.
Proof.
  destruct segment as [a b t words speaker].
  unfold preprocess_segment, touched. cbn [seg_start seg_end seg_text seg_words
                                            seg_longest_speaker].
  destruct words as [[| first rest] |]; destruct speaker as [speaker |];
    repeat match goal with
           | |- context [process_text ?x ?y] => destruct (process_text x y)
           | |- context [no_budget ?x] => destruct (no_budget x)
           | |- context [__join_words ?x ?y] => destruct (__join_words x y)
           | |- context [highlight_loop ?a ?b ?c ?d ?e ?f] =>
               destruct (highlight_loop a b c d e f) as [? [? | ?]]
           | |- context [if highlight_words then _ else _] => destruct highlight_words
           end;
    reflexivity.
Qed.

Lemma touched_same_but_words (segment : Segment) :
  same_but_words segment (touched segment).
Proof.
  destruct segment as [a b t words speaker].
  unfold touched, same_but_words.
  destruct words as [[| first rest] |]; destruct speaker;
    repeat split; reflexivity.
Qed.

(** X5.  The synthesizer gives back as many segments as it was given and
    never changes the start, the end, the text or the speaker label of a
    segment: a segment is either as it was or has the pseudo-word of its
    speaker inserted; and when the generator runs to its end, every
    segment has been treated so, exactly once. *)
Theorem synthesizer_changes_words_only (transcript : list Segment)
    (maxLineWidth : option Z) (highlight_words : bool) :
  Forall2 (fun s s' => same_but_words s s' /\ (s' = s \/ s' = touched s))
    transcript
    (fst (__subtitle_preprocessor_iterator transcript maxLineWidth highlight_words))
  /\ (raised (snd (__subtitle_preprocessor_iterator transcript maxLineWidth
                     highlight_words)) = None ->
      fst (__subtitle_preprocessor_iterator transcript maxLineWidth highlight_words)
      = List.map touched transcript).
Proof.
  assert (Hrefl : forall l : list Segment,
             Forall2 (fun s s' => same_but_words s s' /\ (s' = s \/ s' = touched s)) l l).
  { induction l; constructor; [| assumption].
    split; [repeat split; reflexivity | now left]. }
  induction transcript as [| segment rest IH].
  - split; [constructor | reflexivity].
  - simpl __subtitle_preprocessor_iterator.
    pose proof (preprocess_segment_touched maxLineWidth highlight_words segment) as Ht.
    destruct (preprocess_segment maxLineWidth highlight_words segment)
      as [segment' out].
    simpl in Ht. subst segment'.
    destruct (raised out) as [e |] eqn:Hr.
    + simpl. rewrite Hr. split; [| discriminate].
      constructor; [| apply Hrefl].
      split; [apply touched_same_but_words | now right].
    + destruct (__subtitle_preprocessor_iterator rest maxLineWidth highlight_words)
        as [rest' out'].
      simpl in *. destruct IH as [IH1 IH2]. split.
      * constructor; [| exact IH1].
        split; [apply touched_same_but_words | now right].
      * intros H. now rewrite (IH2 H).
Qed.

(* ================================================================== *)
(** * The renderers, cue by cue *)

Lemma format_timestamp_returns (t : float) (always_include_hours : bool)
    (sep : string) :
  (exists s, format_timestamp t always_include_hours sep = Ok s)
  <-> formattable t = true.
Proof.
  unfold formattable, format_timestamp, bind.
  destruct (negb (0 <=? t)%float).
  - split; [intros [s H]; discriminate H | discriminate].
  - destruct (py_round (t * 1000)%float).
    + split; [reflexivity | intros _; eexists; reflexivity].
    + split; [intros [s H]; discriminate H | discriminate].
Qed.

Lemma iterator_cons (segment : Segment) (rest : list Segment)
    (maxLineWidth : option Z) (highlight_words : bool) :
  __subtitle_preprocessor_iterator (segment :: rest) maxLineWidth highlight_words
  = let '(segment', out) := preprocess_segment maxLineWidth highlight_words segment in
    match raised out with
    | Some e => (segment' :: rest, out)
    | None =>
        let '(rest', out') :=
          __subtitle_preprocessor_iterator rest maxLineWidth highlight_words in
        (segment' :: rest',
         {| yielded := (yielded out ++ yielded out')%list; raised := raised out' |})
    end.
Proof. reflexivity. Qed.

Lemma render_transcript_cons (block : Z -> Cue -> result string)
    (segment : Segment) (rest : list Segment) (maxLineWidth : option Z)
    (highlight_words : bool) (i : Z) (file : string) :
  render_transcript block (segment :: rest) maxLineWidth highlight_words i file
  = let '(segment', out) := preprocess_segment maxLineWidth highlight_words segment in
    match write_cues block i (yielded out) file with
    | (file', _, Some e) => (segment' :: rest, file', Some e)
    | (file', i', None) =>
        match raised out with
        | Some e => (segment' :: rest, file', Some e)
        | None =>
            let '(rest', file'', r) :=
              render_transcript block rest maxLineWidth highlight_words i' file' in
            (segment' :: rest', file'', r)
        end
    end.
Proof. reflexivity. Qed.

Lemma written_by_nil (block : Z -> Cue -> result string) (i : Z) :
  written_by block i [] [].
Proof. split; [reflexivity |]. intros k c Hk. destruct k; discriminate. Qed.

Lemma written_by_app (block : Z -> Cue -> result string) (i : Z)
    (cues1 cues2 : list Cue) (texts1 texts2 : list string) :
  written_by block i cues1 texts1 ->
  written_by block (i + Z.of_nat (List.length cues1)) cues2 texts2 ->
  written_by block i (cues1 ++ cues2) (texts1 ++ texts2).
Proof.
  intros [Hl1 H1] [Hl2 H2]. split.
  - rewrite !length_app. congruence.
  - intros k c Hk.
    destruct (Nat.lt_ge_cases k (List.length cues1)) as [Hlt | Hge].
    + rewrite nth_error_app1 in Hk by exact Hlt.
      rewrite nth_error_app1 by (rewrite Hl1; exact Hlt).
      exact (H1 k c Hk).
    + rewrite nth_error_app2 in Hk by exact Hge.
      rewrite nth_error_app2 by (rewrite Hl1; exact Hge).
      rewrite Hl1.
      destruct (H2 _ c Hk) as [s [Hb Hn]].
      exists s. split; [| exact Hn].
      rewrite <- Hb. f_equal. lia.
Qed.

(** The loop of a renderer on cues that can all be written. *)
Lemma write_cues_written (block : Z -> Cue -> result string) (cues : list Cue) :
  forall (i : Z) (file : string),
    (forall k c, nth_error cues k = Some c ->
                 exists s, block (i + Z.of_nat k) c = Ok s) ->
    exists texts,
      write_cues block i cues file
      = (file ++ Py.join "" texts, i + Z.of_nat (List.length cues), None)
      /\ written_by block i cues texts.
Proof.
  induction cues as [| c rest IH]; intros i file Hok.
  - exists []. simpl. rewrite append_nil_r, Z.add_0_r.
    split; [reflexivity | apply written_by_nil].
  - destruct (Hok 0%nat c eq_refl) as [s Hs]. rewrite Z.add_0_r in Hs.
    destruct (IH (i + 1) (print s file)) as [texts [Hw Hwr]].
    { intros k c' Hk. destruct (Hok (S k) c' Hk) as [s' Hs'].
      exists s'. rewrite <- Hs'. f_equal. lia. }
    exists ((s ++ Py.nl) :: texts). split.
    + rewrite (write_cues_cons _ _ _ _ _ _ Hs), Hw.
      replace (i + 1 + Z.of_nat (List.length rest))
        with (i + Z.of_nat (List.length (c :: rest)))
        by (simpl List.length; lia).
      rewrite join_empty_cons. unfold print. rewrite !append_assoc. reflexivity.
    + apply (written_by_app block i [c] rest [s ++ Py.nl] texts).
      * split; [reflexivity |]. intros k c' Hk.
        destruct k as [| k]; [| destruct k; discriminate].
        simpl in Hk. injection Hk as <-. exists s.
        rewrite Z.add_0_r. split; [exact Hs | reflexivity].
      * exact Hwr.
Qed.

(** The loop of a renderer up to the first cue that cannot be written. *)
Lemma write_cues_stops (block : Z -> Cue -> result string) (good : list Cue)
    (bad : Cue) (rest : list Cue) (e : exn) :
  forall (i : Z) (file : string),
    (forall k c, nth_error good k = Some c ->
                 exists s, block (i + Z.of_nat k) c = Ok s) ->
    block (i + Z.of_nat (List.length good)) bad = Raise e ->
    exists texts,
      write_cues block i (good ++ bad :: rest) file
      = (file ++ Py.join "" texts, i + Z.of_nat (List.length good), Some e)
      /\ written_by block i good texts.
Proof.
  induction good as [| c good IH]; intros i file Hok Hbad.
  - exists []. simpl in *. rewrite Z.add_0_r in *. rewrite Hbad, append_nil_r.
    split; [reflexivity | apply written_by_nil].
  - destruct (Hok 0%nat c eq_refl) as [s Hs]. rewrite Z.add_0_r in Hs.
    destruct (IH (i + 1) (print s file)) as [texts [Hw Hwr]].
    { intros k c' Hk. destruct (Hok (S k) c' Hk) as [s' Hs'].
      exists s'. rewrite <- Hs'. f_equal. lia. }
    { rewrite <- Hbad. f_equal. simpl List.length. lia. }
    exists ((s ++ Py.nl) :: texts). split.
    + rewrite <- app_comm_cons, (write_cues_cons _ _ _ _ _ _ Hs), Hw.
      replace (i + 1 + Z.of_nat (List.length good))
        with (i + Z.of_nat (List.length (c :: good)))
        by (simpl List.length; lia).
      rewrite join_empty_cons. unfold print. rewrite !append_assoc. reflexivity.
    + apply (written_by_app block i [c] good [s ++ Py.nl] texts).
      * split; [reflexivity |]. intros k c' Hk.
        destruct k as [| k]; [| destruct k; discriminate].
        simpl in Hk. injection Hk as <-. exists s.
        rewrite Z.add_0_r. split; [exact Hs | reflexivity].
      * exact Hwr.
Qed.

(** A renderer on a transcript whose cues can all be written. *)
Lemma render_transcript_written (block : Z -> Cue -> result string)
    (maxLineWidth : option Z) (highlight_words : bool) (transcript : list Segment) :
  forall (transcript' : list Segment) (cues : list Cue) (i : Z) (file : string),
    __subtitle_preprocessor_iterator transcript maxLineWidth highlight_words
    = (transcript', {| yielded := cues; raised := None |}) ->
    (forall k c, nth_error cues k = Some c ->
                 exists s, block (i + Z.of_nat k) c = Ok s) ->
    exists texts,
      render_transcript block transcript maxLineWidth highlight_words i file
      = (transcript', file ++ Py.join "" texts, None)
      /\ written_by block i cues texts.
Proof.
  induction transcript as [| segment rest IH]; intros transcript' cues i file Hit Hok.
  - simpl in Hit. injection Hit as <- <-. exists []. simpl.
    rewrite append_nil_r. split; [reflexivity | apply written_by_nil].
  - rewrite iterator_cons in Hit. rewrite render_transcript_cons.
    destruct (preprocess_segment maxLineWidth highlight_words segment)
      as [segment' out].
    destruct (raised out) as [e |] eqn:Hr.
    { injection Hit as _ Hout. rewrite Hout in Hr. discriminate Hr. }
    destruct (__subtitle_preprocessor_iterator rest maxLineWidth highlight_words)
      as [rest' out'] eqn:Hrest.
    injection Hit as <- <- Hr'.
    destruct (write_cues_written block (yielded out) i file) as [texts1 [Hw1 Hb1]].
    { intros k c Hk. apply Hok. rewrite nth_error_app1; [exact Hk |].
      apply nth_error_Some. congruence. }
    rewrite Hw1.
    destruct out' as [cues' r']. simpl in Hr'. subst r'.
    destruct (IH rest' cues' (i + Z.of_nat (List.length (yielded out)))
                (file ++ Py.join "" texts1) eq_refl) as [texts2 [Hw2 Hb2]].
    { intros k c Hk.
      destruct (Hok (List.length (yielded out) + k)%nat c) as [s Hs].
      - rewrite nth_error_app2 by lia.
        replace (List.length (yielded out) + k - List.length (yielded out))%nat
          with k by lia.
        exact Hk.
      - exists s. rewrite <- Hs. f_equal. lia. }
    rewrite Hw2. exists (texts1 ++ texts2)%list. split.
    + rewrite join_empty_app, append_assoc. reflexivity.
    + apply written_by_app; assumption.
Qed.

(** A renderer on a transcript up to the first cue that cannot be
    written. *)
Lemma render_transcript_stops (block : Z -> Cue -> result string)
    (maxLineWidth : option Z) (highlight_words : bool) (bad : Cue) (e : exn)
    (transcript : list Segment) :
  forall (transcript' : list Segment) (good rest : list Cue) (r : option exn)
         (i : Z) (file : string),
    __subtitle_preprocessor_iterator transcript maxLineWidth highlight_words
    = (transcript', {| yielded := (good ++ bad :: rest)%list; raised := r |}) ->
    (forall k c, nth_error good k = Some c ->
                 exists s, block (i + Z.of_nat k) c = Ok s) ->
    block (i + Z.of_nat (List.length good)) bad = Raise e ->
    exists texts transcript'',
      render_transcript block transcript maxLineWidth highlight_words i file
      = (transcript'', file ++ Py.join "" texts, Some e)
      /\ written_by block i good texts.
Proof.
  induction transcript as [| segment tail IH];
    intros transcript' good rest r i file Hit Hok Hbad.
  - simpl in Hit. injection Hit as _ Hnil _. destruct good; discriminate Hnil.
  - rewrite iterator_cons in Hit. rewrite render_transcript_cons.
    destruct (preprocess_segment maxLineWidth highlight_words segment)
      as [segment' out].
    assert (Hsplit :
      exists ys, (yielded out ++ ys)%list = (good ++ bad :: rest)%list
                 /\ (ys <> [] -> raised out = None
                     /\ exists t2 r2,
                         __subtitle_preprocessor_iterator tail maxLineWidth
                           highlight_words
                         = (t2, {| yielded := ys; raised := r2 |}))).
    { destruct (raised out) as [e0 |] eqn:Hr.
      - injection Hit as _ Hout. exists []. rewrite app_nil_r.
        split; [now rewrite Hout | congruence].
      - destruct (__subtitle_preprocessor_iterator tail maxLineWidth highlight_words)
          as [t2 [ys r2]].
        injection Hit as _ Hy _. exists ys.
        split; [exact Hy |]. intros _. split; [reflexivity |].
        now exists t2, r2. }
    clear Hit. destruct Hsplit as [ys [Hy Hys]].
    apply app_eq_app in Hy. destruct Hy as [l [[Hout Hrest] | [Hgood Hrest]]].
    + (* the bad cue is one of this segment, or the first of the next ones *)
      destruct l as [| b l'].
      * rewrite app_nil_r in Hout. simpl in Hrest.
        destruct (write_cues_written block (yielded out) i file)
          as [texts1 [Hw1 Hb1]].
        { intros k c Hk. apply Hok. rewrite <- Hout. exact Hk. }
        rewrite Hw1.
        destruct (Hys ltac:(rewrite <- Hrest; discriminate)) as [Hr [t2 [r2 Htail]]].
        rewrite Hr.
        destruct (IH t2 [] rest r2 (i + Z.of_nat (List.length (yielded out)))
                    (file ++ Py.join "" texts1)) as [texts2 [t3 [Hw2 Hb2]]].
        { rewrite Htail, <- Hrest. reflexivity. }
        { intros k c Hk. destruct k; discriminate. }
        { rewrite <- Hbad. f_equal. rewrite Hout. simpl. lia. }
        rewrite Hw2. exists (texts1 ++ texts2)%list, (segment' :: t3). split.
        -- rewrite join_empty_app, append_assoc. reflexivity.
        -- rewrite <- (app_nil_r good), <- Hout at 1.
           apply written_by_app; assumption.
      * simpl in Hrest. injection Hrest as <- Hrest'.
        destruct (write_cues_stops block good bad l' e i file Hok Hbad)
          as [texts [Hw Hb]].
        rewrite Hout, Hw. exists texts, (segment' :: tail).
        split; [reflexivity | exact Hb].
    + (* the cues of this segment are all good *)
      destruct (write_cues_written block (yielded out) i file) as [texts1 [Hw1 Hb1]].
      { intros k c Hk. apply Hok. rewrite Hgood, nth_error_app1; [exact Hk |].
        apply nth_error_Some. congruence. }
      rewrite Hw1.
      destruct (Hys ltac:(rewrite Hrest; destruct l; discriminate))
        as [Hr [t2 [r2 Htail]]].
      rewrite Hr.
      destruct (IH t2 l rest r2 (i + Z.of_nat (List.length (yielded out)))
                  (file ++ Py.join "" texts1)) as [texts2 [t3 [Hw2 Hb2]]].
      { rewrite Htail, Hrest. reflexivity. }
      { intros k c Hk.
        destruct (Hok (List.length (yielded out) + k)%nat c) as [s Hs].
        - rewrite Hgood, nth_error_app2 by lia.
          replace (List.length (yielded out) + k - List.length (yielded out))%nat
            with k by lia.
          exact Hk.
        - exists s. rewrite <- Hs. f_equal. lia. }
      { rewrite <- Hbad. f_equal. rewrite Hgood, length_app. lia. }
      rewrite Hw2. exists (texts1 ++ texts2)%list, (segment' :: t3). split.
      * rewrite join_empty_app, append_assoc. reflexivity.
      * rewrite Hgood. apply written_by_app; assumption.
Qed.

Lemma vtt_block_ok (i : Z) (c : Cue) (start end_ : string) :
  format_timestamp (cue_start c) false "." = Ok start ->
  format_timestamp (cue_end c) false "." = Ok end_ ->
  vtt_block i c
  = Ok (start ++ " --> " ++ end_ ++ Py.nl
        ++ Py.replace "-->" "->" (cue_text c) ++ Py.nl).
Proof. intros Hs He. unfold vtt_block. rewrite Hs, He. reflexivity. Qed.

Lemma cue_formattable_nth (cues : list Cue) (k : nat) (c : Cue) :
  forallb cue_formattable cues = true ->
  nth_error cues k = Some c ->
  formattable (cue_start c) = true /\ formattable (cue_end c) = true.
Proof.
  intros Hall Hk. rewrite forallb_forall in Hall.
  specialize (Hall c (nth_error_In _ _ Hk)).
  unfold cue_formattable in Hall. now apply andb_prop in Hall.
Qed.

(** X6.  When the synthesizer yields the cues [cues] for a transcript
    without raising and the times of the cues can be written,
    [write_vtt] writes the header WEBVTT and a blank line, then exactly
    one block for each cue, in order: the start and the end of the cue
    as times of day of their rounded milliseconds, with a full stop and
    with hours only from one hour on, joined by an arrow, then the text
    with its arrows replaced from left to right, then a blank line; the
    blocks carry no index.  So are the two blocks of the two cues given
    last. *)
Theorem write_vtt_header_and_blocks (transcript transcript' : list Segment)
    (maxLineWidth : option Z) (highlight_words : bool)
    (cues : list Cue) (file : string) :
  __subtitle_preprocessor_iterator transcript maxLineWidth highlight_words
  = (transcript', {| yielded := cues; raised := None |}) ->
  forallb cue_presentable cues = true ->
  exists blocks,
    write_vtt transcript file maxLineWidth highlight_words
    = (transcript',
       file ++ "WEBVTT" ++ Py.nl ++ Py.nl ++ Py.join "" blocks, None)
    /\ List.length blocks = List.length cues
    /\ (forall k c,
          nth_error cues k = Some c ->
          exists block, nth_error blocks k = Some block /\ vtt_block_of c block)
    /\ write_vtt
         [sample_segment 0 1.5 " a --> b" [] None;
          sample_segment 1.5 3661.2005 " c --->d" [] None] "" (Some 80) false
       = ([sample_segment 0 1.5 " a --> b" [] None;
           sample_segment 1.5 3661.2005 " c --->d" [] None],
          "WEBVTT" ++ Py.nl ++ Py.nl
          ++ "00:00.000 --> 00:01.500" ++ Py.nl ++ "a -> b" ++ Py.nl ++ Py.nl
          ++ "00:01.500 --> 01:01:01.200" ++ Py.nl ++ "c -->d" ++ Py.nl ++ Py.nl,
          None).
Proof.
  intros Hit Hok. rewrite cue_presentable_formattable in Hok.
  assert (Hsample : write_vtt
                      [sample_segment 0 1.5 " a --> b" [] None;
                       sample_segment 1.5 3661.2005 " c --->d" [] None]
                      "" (Some 80) false
                    = ([sample_segment 0 1.5 " a --> b" [] None;
                        sample_segment 1.5 3661.2005 " c --->d" [] None],
                       "WEBVTT" ++ Py.nl ++ Py.nl
                       ++ "00:00.000 --> 00:01.500" ++ Py.nl ++ "a -> b"
                       ++ Py.nl ++ Py.nl
                       ++ "00:01.500 --> 01:01:01.200" ++ Py.nl ++ "c -->d"
                       ++ Py.nl ++ Py.nl,
                       None))
    by (vm_compute; reflexivity).
  unfold write_vtt at 1.
  assert (Hblock : forall c, formattable (cue_start c) = true ->
                             formattable (cue_end c) = true ->
                             exists start end_,
                               format_timestamp (cue_start c) false "." = Ok start
                               /\ format_timestamp (cue_end c) false "." = Ok end_).
  { intros c Hs He.
    apply (format_timestamp_returns _ false ".") in Hs, He.
    destruct Hs as [start Hs], He as [end_ He]. now exists start, end_. }
  destruct (render_transcript_written vtt_block maxLineWidth highlight_words
              transcript transcript' cues 1
              (print ("WEBVTT" ++ Py.nl) file) Hit) as [texts [Hw [Hlen Hnth]]].
  { intros k c Hk.
    destruct (cue_formattable_nth cues k c Hok Hk) as [Hs He].
    destruct (Hblock c Hs He) as [start [end_ [Hs' He']]].
    eexists. exact (vtt_block_ok _ c start end_ Hs' He'). }
  exists texts. split; [| split; [| split; [| exact Hsample]]].
  - rewrite Hw. unfold print. rewrite !append_assoc. reflexivity.
  - exact Hlen.
  - intros k c Hk.
    destruct (cue_formattable_nth cues k c Hok Hk) as [Hs He].
    destruct (Hblock c Hs He) as [start [end_ [Hs' He']]].
    destruct (Hnth k c Hk) as [s0 [Hb Hn]].
    rewrite (vtt_block_ok _ c start end_ Hs' He') in Hb.
    assert (Hs'' : s0 = start ++ " --> " ++ end_ ++ Py.nl
                        ++ Py.replace "-->" "->" (cue_text c) ++ Py.nl)
      by congruence.
    eexists. split; [exact Hn |]. rewrite Hs''.
    destruct (format_timestamp_clock _ _ _ _ Hs') as (a & Ha & _ & _ & Hca).
    destruct (format_timestamp_clock _ _ _ _ He') as (b & Hb' & _ & _ & Hcb).
    exists start, end_, (Py.replace "-->" "->" (cue_text c)), a, b.
    split; [exact Ha |]. split; [exact Hca |].
    split; [exact Hb' |]. split; [exact Hcb |].
    split; [apply replace_arrows |].
    now rewrite !append_assoc.
Qed.

Lemma write_vtt_header_and_blocks_witness :
  exists blocks,
    write_vtt
      [sample_segment 0 1.5 " a --> b" [] None;
       sample_segment 1.5 3661.2005 " c --->d" [] None] "" (Some 80) false
    = ([sample_segment 0 1.5 " a --> b" [] None;
        sample_segment 1.5 3661.2005 " c --->d" [] None],
       "" ++ "WEBVTT" ++ Py.nl ++ Py.nl ++ Py.join "" blocks, None)
    /\ List.length blocks
       = List.length [mk_cue 0 1.5 "a --> b"; mk_cue 1.5 3661.2005 "c --->d"]
    /\ (forall k c,
          nth_error [mk_cue 0 1.5 "a --> b"; mk_cue 1.5 3661.2005 "c --->d"] k
          = Some c ->
          exists block, nth_error blocks k = Some block /\ vtt_block_of c block)
    /\ write_vtt
         [sample_segment 0 1.5 " a --> b" [] None;
          sample_segment 1.5 3661.2005 " c --->d" [] None] "" (Some 80) false
       = ([sample_segment 0 1.5 " a --> b" [] None;
           sample_segment 1.5 3661.2005 " c --->d" [] None],
          "WEBVTT" ++ Py.nl ++ Py.nl
          ++ "00:00.000 --> 00:01.500" ++ Py.nl ++ "a -> b" ++ Py.nl ++ Py.nl
          ++ "00:01.500 --> 01:01:01.200" ++ Py.nl ++ "c -->d" ++ Py.nl ++ Py.nl,
          None).
Proof.
  apply (write_vtt_header_and_blocks
           [sample_segment 0 1.5 " a --> b" [] None;
            sample_segment 1.5 3661.2005 " c --->d" [] None]
           [sample_segment 0 1.5 " a --> b" [] None;
            sample_segment 1.5 3661.2005 " c --->d" [] None]
           (Some 80) false
           [mk_cue 0 1.5 "a --> b"; mk_cue 1.5 3661.2005 "c --->d"] "");
    vm_compute; reflexivity.
Defined.

Lemma srt_block_fails (i : Z) (c : Cue) :
  cue_formattable c = false -> exists e, srt_block i c = Raise e.
Proof.
  unfold cue_formattable, formattable, srt_block, bind.
  destruct (format_timestamp (cue_start c) true ",") as [start | e];
    [| intros _; now exists e].
  destruct (format_timestamp (cue_end c) true ",") as [end_ | e];
    [discriminate | intros _; now exists e].
Qed.

(** X7.  [write_srt] stops at the first cue whose timestamps cannot be
    formatted: it raises, having written the numbered blocks of the cues
    before that one and nothing else. *)
Theorem write_srt_stops_at_unformattable_cue (transcript transcript' : list Segment)
    (maxLineWidth : option Z) (highlight_words : bool)
    (good : list Cue) (bad : Cue) (rest : list Cue) (r : option exn)
    (file : string) :
  __subtitle_preprocessor_iterator transcript maxLineWidth highlight_words
  = (transcript', {| yielded := (good ++ bad :: rest)%list; raised := r |}) ->
  forallb cue_formattable good = true ->
  cue_formattable bad = false ->
  exists e blocks transcript'',
    write_srt transcript file maxLineWidth highlight_words
    = (transcript'', file ++ Py.join "" blocks, Some e)
    /\ blocks_of 1 good blocks.
Proof.
  intros Hit Hgood Hbad. unfold write_srt.
  destruct (srt_block_fails (1 + Z.of_nat (List.length good)) bad Hbad) as [e He].
  assert (Hformat : forall k c, nth_error good k = Some c ->
                                exists start end_,
                                  format_timestamp (cue_start c) true "," = Ok start
                                  /\ format_timestamp (cue_end c) true "," = Ok end_).
  { intros k c Hk.
    destruct (cue_formattable_nth good k c Hgood Hk) as [Hs He'].
    apply (format_timestamp_returns _ true ",") in Hs, He'.
    destruct Hs as [start Hs], He' as [end_ He']. now exists start, end_. }
  destruct (render_transcript_stops srt_block maxLineWidth highlight_words bad e
              transcript transcript' good rest r 1 file Hit)
    as [texts [transcript'' [Hw [Hlen Hnth]]]].
  { intros k c Hk. destruct (Hformat k c Hk) as [start [end_ [Hs He']]].
    eexists. exact (srt_block_ok _ c start end_ Hs He'). }
  { exact He. }
  exists e, texts, transcript''. split; [exact Hw |]. split; [exact Hlen |].
  intros k c Hk. destruct (Hformat k c Hk) as [start [end_ [Hs He']]].
  exists start, end_. split; [exact Hs |]. split; [exact He' |].
  destruct (Hnth k c Hk) as [s [Hb Hn]].
  rewrite (srt_block_ok _ c start end_ Hs He') in Hb.
  assert (Hs'' : s = Py.str_of_int (1 + Z.of_nat k) ++ Py.nl ++ start ++ " --> "
                     ++ end_ ++ Py.nl ++ Py.replace "-->" "->" (cue_text c) ++ Py.nl)
    by congruence.
  rewrite Hn, Hs''. unfold srt_block_text. rewrite !append_assoc. reflexivity.
Qed.

Lemma write_srt_stops_at_unformattable_cue_witness :
  exists e blocks transcript'',
    write_srt
      [sample_segment 0 1 " first" [] None; sample_segment (-1) 2 " second" [] None;
       sample_segment 2 3 " third" [] None]
      "" (Some 80) false
    = (transcript'', "" ++ Py.join "" blocks, Some e)
    /\ blocks_of 1 [mk_cue 0 1 "first"] blocks.
Proof.
  apply (write_srt_stops_at_unformattable_cue
           [sample_segment 0 1 " first" [] None; sample_segment (-1) 2 " second" [] None;
            sample_segment 2 3 " third" [] None]
           [sample_segment 0 1 " first" [] None; sample_segment (-1) 2 " second" [] None;
            sample_segment 2 3 " third" [] None]
           (Some 80) false [mk_cue 0 1 "first"] (mk_cue (-1) 2 "second")
           [mk_cue 2 3 "third"] None "");
    vm_compute; reflexivity.
Defined.

(* ================================================================== *)
(** * The HTML renderer, segment by segment *)

Lemma html_block_returns (segment : Segment) :
  (exists s, html_block segment = Ok s) <-> html_writable segment = true.
Proof.
  unfold html_writable, unlabelled, html_block, speakerid, bind.
  destruct (seg_longest_speaker segment) as [label |].
  - simpl negb. rewrite andb_true_l.
    rewrite <- (format_timestamp_returns (seg_start segment) false ".").
    destruct (search_speaker label) as [digits |];
      (destruct (format_timestamp (seg_start segment) false ".") as [start | e];
       [split; intros _; eexists; reflexivity
       | split; intros [s H]; discriminate H]).
  - split; [intros [s H]; discriminate H | discriminate].
Qed.

Lemma write_html_segments_written (transcript : list Segment) :
  forall file,
    forallb html_writable transcript = true ->
    exists blocks,
      write_html_segments transcript file = (file ++ Py.join "" blocks, None)
      /\ List.length blocks = List.length transcript
      /\ forall k segment,
          nth_error transcript k = Some segment ->
          exists s, html_block segment = Ok s
                    /\ nth_error blocks k = Some (s ++ Py.nl).
Proof.
  induction transcript as [| segment rest IH]; intros file Hall.
  - exists []. simpl. rewrite append_nil_r. split; [reflexivity |].
    split; [reflexivity |]. intros k segment Hk. destruct k; discriminate.
  - simpl in Hall. apply andb_prop in Hall as [Hseg Hrest].
    apply html_block_returns in Hseg. destruct Hseg as [s Hs].
    destruct (IH (print s file) Hrest) as [blocks [Hw [Hlen Hnth]]].
    exists ((s ++ Py.nl) :: blocks). split; [| split].
    + cbn [write_html_segments]. rewrite Hs, Hw, join_empty_cons. unfold print.
      rewrite !append_assoc. reflexivity.
    + simpl. now rewrite Hlen.
    + intros k segment' Hk. destruct k as [| k].
      * simpl in Hk. injection Hk as <-. exists s. split; [exact Hs | reflexivity].
      * exact (Hnth k segment' Hk).
Qed.

Lemma write_html_segments_fails (transcript : list Segment) :
  forall file,
    forallb html_writable transcript = false ->
    exists e, snd (write_html_segments transcript file) = Some e.
Proof.
  induction transcript as [| segment rest IH]; intros file Hall; [discriminate |].
  simpl in Hall. simpl.
  destruct (html_block segment) as [s | e] eqn:Hs; [| now exists e].
  assert (Hseg : html_writable segment = true)
    by (apply html_block_returns; now exists s).
  rewrite Hseg in Hall. exact (IH (print s file) Hall).
Qed.

(** X8.  [write_html] succeeds exactly when every segment has a speaker
    label and a start that can be formatted.  It then writes the head of
    the document, one block for each segment in order (one for each
    segment, not for each cue, whatever the width and the highlighting),
    and the closing lines. *)
Theorem write_html_one_block_per_segment (transcript : list Segment) (file : string)
    (maxLineWidth : option Z) (highlight_words : bool) :
  (snd (write_html transcript file maxLineWidth highlight_words) = None
   <-> forallb html_writable transcript = true)
  /\ (forallb html_writable transcript = true ->
      exists blocks,
        write_html transcript file maxLineWidth highlight_words
        = (html_head file ++ Py.join "" blocks ++ html_tail, None)
        /\ List.length blocks = List.length transcript
        /\ forall k segment,
            nth_error transcript k = Some segment ->
            exists s, html_block segment = Ok s
                      /\ nth_error blocks k = Some (s ++ Py.nl)).
Proof.
  assert (Hok : forallb html_writable transcript = true ->
                exists blocks,
                  write_html transcript file maxLineWidth highlight_words
                  = (html_head file ++ Py.join "" blocks ++ html_tail, None)
                  /\ List.length blocks = List.length transcript
                  /\ forall k segment,
                      nth_error transcript k = Some segment ->
                      exists s, html_block segment = Ok s
                                /\ nth_error blocks k = Some (s ++ Py.nl)).
  { intros Hall.
    destruct (write_html_segments_written transcript (html_head file) Hall)
      as [blocks [Hw Hrest]].
    exists blocks. split; [| exact Hrest].
    unfold write_html. rewrite Hw. unfold print, html_tail.
    rewrite !append_assoc. reflexivity. }
  split; [| exact Hok]. split.
  - intros Hnone.
    destruct (forallb html_writable transcript) eqn:Hall; [reflexivity |].
    destruct (write_html_segments_fails transcript (html_head file) Hall) as [e He].
    unfold write_html in Hnone.
    destruct (write_html_segments transcript (html_head file)) as [f [e' |]];
      simpl in *; discriminate.
  - intros Hall. destruct (Hok Hall) as [blocks [Hw _]]. now rewrite Hw.
Qed.

Lemma write_html_one_block_per_segment_witness :
  exists blocks,
    write_html
      [sample_segment 0 1 " Hello" [] (Some "SPEAKER_00");
       sample_segment 1 2 " world" [] (Some "SPEAKER_01")] "" (Some 80) true
    = (html_head "" ++ Py.join "" blocks ++ html_tail, None)
    /\ List.length blocks
       = List.length
           [sample_segment 0 1 " Hello" [] (Some "SPEAKER_00");
            sample_segment 1 2 " world" [] (Some "SPEAKER_01")]
    /\ forall k segment,
        nth_error
          [sample_segment 0 1 " Hello" [] (Some "SPEAKER_00");
           sample_segment 1 2 " world" [] (Some "SPEAKER_01")] k = Some segment ->
        exists s, html_block segment = Ok s
                  /\ nth_error blocks k = Some (s ++ Py.nl).
Proof.
  apply (proj2 (write_html_one_block_per_segment
                  [sample_segment 0 1 " Hello" [] (Some "SPEAKER_00");
                   sample_segment 1 2 " world" [] (Some "SPEAKER_01")]
                  "" (Some 80) true)).
  vm_compute. reflexivity.
Defined.

Lemma digit_run_digits (s : string) : all_chars TextWrap.digit (digit_run s) = true.
Proof.
  induction s as [| c r IH]; [reflexivity |].
  simpl. destruct (TextWrap.digit c) eqn:Hc; [| reflexivity].
  simpl. now rewrite Hc, IH.
Qed.

Lemma digit_run_append (digits rest : string) :
  all_chars TextWrap.digit digits = true ->
  not_digit_first rest = true ->
  digit_run (digits ++ rest) = digits.
Proof.
  intros Hd Hrest. induction digits as [| c r IH].
  - simpl. destruct rest as [| x t]; [reflexivity |].
    simpl in *. apply negb_true_iff in Hrest. now rewrite Hrest.
  - simpl in Hd. apply andb_prop in Hd as [Hc Hr].
    simpl. rewrite Hc, (IH Hr). reflexivity.
Qed.

Lemma search_speaker_digits (label digits : string) :
  search_speaker label = Some digits ->
  all_chars TextWrap.digit digits = true /\ digits <> "".
Proof.
  induction label as [| c r IH]; [discriminate |].
  cbn [search_speaker].
  match goal with
  | |- context [if ?b then _ else _] => destruct b eqn:Hm
  end.
  - intros H.
    assert (Hd : digits = digit_run (TextWrap.drop 8 (String c r))) by congruence.
    rewrite Hd. split; [apply digit_run_digits |].
    apply andb_prop in Hm as [_ Hne]. apply negb_true_iff in Hne.
    now apply String.eqb_neq in Hne.
  - exact IH.
Qed.

(** X9.  The speaker id [write_html] derives from a label is made of
    digits only.  For a label that is SPEAKER_ followed by digits (and by
    anything that does not start with a digit), it is these digits, as
    they are written: SPEAKER_07 gives 07. *)
Theorem speakerid_is_the_digits_of_the_label (digits rest : string) :
  digits <> "" ->
  all_chars TextWrap.digit digits = true ->
  not_digit_first rest = true ->
  speakerid (Some ("SPEAKER_" ++ digits ++ rest)) = Ok digits
  /\ forall label id,
      speakerid (Some label) = Ok id -> all_chars TextWrap.digit id = true.
Proof.
  intros Hne Hd Hrest. split.
  - unfold speakerid.
    change ("SPEAKER_" ++ digits ++ rest)
      with (String "S" ("PEAKER_" ++ digits ++ rest)).
    cbn [search_speaker].
    replace (String.prefix "SPEAKER_" (String "S" ("PEAKER_" ++ digits ++ rest)))
      with true by (destruct (digits ++ rest); reflexivity).
    change (TextWrap.drop 8 (String "S" ("PEAKER_" ++ digits ++ rest)))
      with (digits ++ rest).
    rewrite (digit_run_append digits rest Hd Hrest).
    apply String.eqb_neq in Hne. rewrite Hne. reflexivity.
  - intros label id. unfold speakerid.
    destruct (search_speaker label) as [d |] eqn:Hs.
    + intros H. assert (id = d) by congruence. subst id.
      exact (proj1 (search_speaker_digits label d Hs)).
    + intros H. assert (id = "") by congruence. subst id. reflexivity.
Qed.

Lemma speakerid_is_the_digits_of_the_label_witness :
  speakerid (Some ("SPEAKER_" ++ "07" ++ "")) = Ok "07"
  /\ forall label id,
      speakerid (Some label) = Ok id -> all_chars TextWrap.digit id = true.
Proof.
  apply (speakerid_is_the_digits_of_the_label "07" "");
    [discriminate | reflexivity | reflexivity].
Defined.

(* ================================================================== *)
(** * Writing results: labels, and several sources *)

Lemma unlabelled_touched (segment : Segment) :
  unlabelled (touched segment) = unlabelled segment.
Proof.
  unfold unlabelled.
  now rewrite (proj2 (proj2 (proj2 (touched_same_but_words segment)))).
Qed.

Lemma html_writable_touched (segment : Segment) :
  html_writable (touched segment) = html_writable segment.
Proof.
  unfold html_writable. rewrite unlabelled_touched.
  now rewrite (proj1 (touched_same_but_words segment)).
Qed.

(** A renderer gives the segments back with their labels and their
    starts, whether it fails or not. *)
Lemma render_transcript_writable (block : Z -> Cue -> result string)
    (maxLineWidth : option Z) (highlight_words : bool) (transcript : list Segment) :
  forall i file,
    List.map html_writable
      (fst (fst (render_transcript block transcript maxLineWidth highlight_words
                   i file)))
    = List.map html_writable transcript.
Proof.
  induction transcript as [| segment rest IH]; intros i file; [reflexivity |].
  rewrite render_transcript_cons.
  pose proof (preprocess_segment_touched maxLineWidth highlight_words segment) as Ht.
  destruct (preprocess_segment maxLineWidth highlight_words segment)
    as [segment' out].
  simpl in Ht. subst segment'.
  destruct (write_cues block i (yielded out) file) as [[file' i'] [e |]].
  - simpl. now rewrite html_writable_touched.
  - destruct (raised out) as [e |].
    + simpl. now rewrite html_writable_touched.
    + specialize (IH i' file').
      destruct (render_transcript block rest maxLineWidth highlight_words i' file')
        as [[rest' file''] r].
      simpl in *. now rewrite html_writable_touched, IH.
Qed.

Lemma forallb_map_eq {A : Type} (f : A -> bool) (l l' : list A) :
  List.map f l' = List.map f l -> forallb f l' = forallb f l.
Proof.
  revert l'. induction l as [| x l IH]; intros [| y l'] H; try discriminate;
    [reflexivity |].
  simpl in H. injection H as Hxy Hl. simpl. now rewrite Hxy, (IH l' Hl).
Qed.

(** Whether [write_result] succeeds, and what it returns, apart from the
    names of the files. *)
Lemma write_result_by_name (result : TranscriptionResult) (source_name : string)
    (highlight_words : bool) :
  match write_result result "" highlight_words with
  | inl w0 =>
      exists w,
        write_result result source_name highlight_words = inl w
        /\ out_text w = res_text result
        /\ out_vtt w = out_vtt w0
        /\ List.length (output_files w) = 5%nat
  | inr e => write_result result source_name highlight_words = inr e
  end.
Proof.
  unfold write_result.
  destruct (__get_subs (res_segments result) "vtt" _ highlight_words)
    as [s1 [vtt | e]]; [| reflexivity].
  destruct (__get_subs s1 "srt" _ highlight_words) as [s2 [srt | e]];
    [| reflexivity].
  destruct (__get_subs s2 "html" _ highlight_words) as [s3 [html | e]];
    [| reflexivity].
  eexists. split; [reflexivity |]. repeat split.
Qed.

(** X10.  [write_result] cannot succeed on a result that has a segment
    without a speaker label: whatever the subtitles are, the HTML
    rendering that follows them raises. *)
Theorem write_result_needs_speaker_labels (result : TranscriptionResult)
    (source_name : string) (highlight_words : bool) :
  existsb unlabelled (res_segments result) = true ->
  exists e, write_result result source_name highlight_words = inr e.
Proof.
  intros Hun.
  assert (Hall : forallb html_writable (res_segments result) = false).
  { apply existsb_exists in Hun. destruct Hun as [segment [Hin Hs]].
    destruct (forallb html_writable (res_segments result)) eqn:Hall; [| reflexivity].
    rewrite forallb_forall in Hall. specialize (Hall segment Hin).
    unfold html_writable in Hall. rewrite Hs in Hall. discriminate Hall. }
  unfold write_result, __get_subs.
  cbn [String.eqb Ascii.eqb Bool.eqb].
  pose proof (render_transcript_writable vtt_block
                (Some (__get_max_line_width (res_language result))) highlight_words
                (res_segments result) 1 (print ("WEBVTT" ++ Py.nl) "")) as H1.
  unfold write_vtt.
  destruct (render_transcript vtt_block (res_segments result) _ highlight_words 1 _)
    as [[s1 f1] [e1 |]]; [eexists; reflexivity |].
  simpl in H1.
  pose proof (render_transcript_writable srt_block
                (Some (__get_max_line_width (res_language result))) highlight_words
                s1 1 "") as H2.
  unfold write_srt.
  destruct (render_transcript srt_block s1 _ highlight_words 1 "")
    as [[s2 f2] [e2 |]]; [eexists; reflexivity |].
  simpl in H2.
  assert (Hall2 : forallb html_writable s2 = false).
  { rewrite (forallb_map_eq html_writable s1 s2 H2).
    rewrite (forallb_map_eq html_writable (res_segments result) s1 H1).
    exact Hall. }
  destruct (write_html_segments_fails s2 (html_head "") Hall2) as [e He].
  unfold write_html.
  destruct (write_html_segments s2 (html_head "")) as [f [e' |]];
    [eexists; reflexivity | simpl in He; discriminate He].
Qed.

Lemma write_result_needs_speaker_labels_witness :
  exists e,
    write_result (sample_result " Hello" [sample_segment 0 1 " Hello" [] None])
      "x" false
    = inr e.
Proof.
  apply (write_result_needs_speaker_labels
           (sample_result " Hello" [sample_segment 0 1 " Hello" [] None]) "x" false).
  reflexivity.
Defined.

Lemma last_char_drop (c : ascii) (r : string) :
  exists d,
    last_char (String c r) = Some d
    /\ TextWrap.drop (String.length (String c r) - 1) (String c r) = String d "".
Proof.
  revert c. induction r as [| e r IH]; intros c.
  - exists c. split; reflexivity.
  - destruct (IH e) as [d [Hl Hd]]. exists d. split; [exact Hl |].
    cbn [String.length] in *. rewrite Nat.sub_succ, Nat.sub_0_r in *.
    exact Hd.
Qed.

(** [os.path.join] for a name that does not start with a slash. *)
Lemma os_path_join_relative (directory name : string) :
  String.prefix "/" name = false ->
  os_path_join directory name = in_directory directory name.
Proof.
  intros Hrel. unfold os_path_join, in_directory. rewrite Hrel.
  destruct directory as [| c r]; [reflexivity |].
  destruct (last_char_drop c r) as [d [-> ->]].
  cbn [String.eqb]. destruct (Ascii.eqb d "/"); reflexivity.
Qed.

(** The loop over the sources when every result can be written. *)
Lemma transcribe_sources_all (normalize : string -> string -> string)
    (linesep outputDirectory : string) (multiple highlight_words : bool)
    (sources : list AudioSource) :
  forall (source_index : Z) (download : list string) (text vtt : string),
    forallb (renders highlight_words) sources = true ->
    exists download' vtt',
      transcribe_sources normalize linesep outputDirectory multiple
        highlight_words sources source_index download text vtt
      = inl ((download ++ download')%list,
             text ++ Py.join ""
                       (List.map
                          (fun s => if multiple then source_block linesep s
                                    else res_text (transcribed s))
                          sources),
             vtt')
      /\ List.length download' = (5 * List.length sources)%nat.
Proof.
  induction sources as [| source rest IH];
    intros source_index download text vtt Hall.
  - exists [], vtt. simpl. rewrite app_nil_r, append_nil_r. split; reflexivity.
  - simpl in Hall. apply andb_prop in Hall as [Hsrc Hrest].
    unfold renders in Hsrc.
    cbn [transcribe_sources].
    match goal with
    | |- context [write_result (transcribed source) ?name highlight_words] =>
        pose proof (write_result_by_name (transcribed source) name highlight_words)
          as Hname
    end.
    destruct (write_result (transcribed source) "" highlight_words) as [w0 | e];
      [| discriminate].
    destruct Hname as [w [Hw [Htext [_ Hfiles]]]].
    rewrite Hw, Htext.
    match goal with
    | |- context [transcribe_sources normalize linesep outputDirectory multiple
                    highlight_words rest ?i ?d ?t ?v] =>
        destruct (IH i d t v Hrest) as [download' [vtt' [Hloop Hlen]]]
    end.
    rewrite Hloop.
    exists (List.map (__create_file outputDirectory) (output_files w)
            ++ download')%list, vtt'.
    split.
    + cbn [map]. rewrite <- app_assoc, join_empty_cons, append_assoc.
      unfold source_block. destruct multiple; reflexivity.
    + rewrite length_app, length_map, Hfiles, Hlen. simpl List.length. lia.
Qed.

(** The loop over the sources when some result cannot be written. *)
Lemma transcribe_sources_fails (normalize : string -> string -> string)
    (linesep outputDirectory : string) (multiple highlight_words : bool)
    (sources : list AudioSource) :
  forall (source_index : Z) (download : list string) (text vtt : string),
    forallb (renders highlight_words) sources = false ->
    exists e,
      transcribe_sources normalize linesep outputDirectory multiple
        highlight_words sources source_index download text vtt
      = inr e.
Proof.
  induction sources as [| source rest IH];
    intros source_index download text vtt Hall; [discriminate |].
  simpl in Hall. unfold renders in Hall at 1.
  cbn [transcribe_sources].
  match goal with
  | |- context [write_result (transcribed source) ?name highlight_words] =>
      pose proof (write_result_by_name (transcribed source) name highlight_words)
        as Hname
  end.
  destruct (write_result (transcribed source) "" highlight_words) as [w0 | e].
  - destruct Hname as [w [Hw _]]. rewrite Hw. simpl in Hall. apply IH, Hall.
  - rewrite Hname. now exists e.
Qed.

(** X11.  [transcribe_webui] raises [ValueError] for more sources than
    [override_max_sources] allows.  Otherwise it returns exactly when
    the result of every source can be written; one result that cannot
    be written makes the whole call fail.  It then returns, after the
    path of the archive in the download directory when there are two
    sources or more (a slash joining directory and name unless the
    directory is empty or ends with one), five files for each source, and as combined text,
    with two sources or more, the blocks of the sources in their order
    (full name, colon, line separator, text, and a blank line after a
    text that is not empty), and with a single source the text of that
    source as it is, with no name.  When the sources could not be
    fetched for their duration, it returns no file and the error text. *)
Theorem transcribe_webui_combines_sources
    (normalize : string -> string -> string) (linesep : string)
    (output_dir : option string) (downloadDirectory stamp : string)
    (override_max_sources : option Z)
    (highlight_words : bool) (sources : list AudioSource) :
  (too_many override_max_sources sources = true ->
   transcribe_webui normalize linesep output_dir downloadDirectory stamp
     override_max_sources highlight_words (Sources sources)
   = inr (Raised ValueError))
  /\ (too_many override_max_sources sources = false ->
      ((exists r,
           transcribe_webui normalize linesep output_dir downloadDirectory stamp
             override_max_sources highlight_words (Sources sources) = inl r)
       <-> forallb (renders highlight_words) sources = true)
      /\ (forallb (renders highlight_words) sources = true ->
          exists archive files vtt,
            transcribe_webui normalize linesep output_dir downloadDirectory stamp
              override_max_sources highlight_words (Sources sources)
            = inl ((archive ++ files)%list,
                   Py.join ""
                     (List.map
                        (fun s => if 1 <? Z.of_nat (List.length sources)
                                  then source_block linesep s
                                  else res_text (transcribed s))
                        sources),
                   vtt)
            /\ List.length files = (5 * List.length sources)%nat
            /\ if 1 <? Z.of_nat (List.length sources)
               then archive = [in_directory downloadDirectory (archive_name stamp)]
               else archive = []))
  /\ (forall maxDuration videoDuration,
         transcribe_webui normalize linesep output_dir downloadDirectory stamp
           override_max_sources highlight_words
           (ExceededMaximumDuration maxDuration videoDuration)
         = inl ([],
                "[ERROR]: Maximum remote video length is " ++ maxDuration
                ++ "s, file was " ++ videoDuration ++ "s",
                "[ERROR]")).
Proof.
  split; [| split].
  - intros Hmany. unfold transcribe_webui. unfold too_many in Hmany.
    now rewrite Hmany.
  - intros Hfew. unfold too_many in Hfew.
    set (outputDirectory := match output_dir with
                            | Some directory => directory
                            | None => downloadDirectory
                            end).
    assert (Hok : forallb (renders highlight_words) sources = true ->
                  exists archive files vtt,
                    transcribe_webui normalize linesep output_dir downloadDirectory
                      stamp override_max_sources highlight_words (Sources sources)
                    = inl ((archive ++ files)%list,
                           Py.join ""
                             (List.map
                                (fun s => if 1 <? Z.of_nat (List.length sources)
                                          then source_block linesep s
                                          else res_text (transcribed s))
                                sources),
                           vtt)
                    /\ List.length files = (5 * List.length sources)%nat
                    /\ if 1 <? Z.of_nat (List.length sources)
                       then archive
                            = [in_directory downloadDirectory (archive_name stamp)]
                       else archive = []).
    { intros Hall. unfold transcribe_webui. rewrite Hfew. fold outputDirectory.
      destruct (transcribe_sources_all normalize linesep outputDirectory
                  (1 <? Z.of_nat (List.length sources)) highlight_words sources
                  0 [] "" "" Hall) as [download [vtt [Hloop Hlen]]].
      rewrite Hloop. cbn [app String.append].
      destruct (1 <? Z.of_nat (List.length sources)).
      - exists [os_path_join downloadDirectory ("All_Output-" ++ stamp ++ ".zip")],
          download, vtt.
        split; [reflexivity |]. split; [exact Hlen |].
        f_equal. apply os_path_join_relative. reflexivity.
      - exists [], download, vtt. now repeat split. }
    split; [| exact Hok]. split.
    + intros [r Hr].
      destruct (forallb (renders highlight_words) sources) eqn:Hall; [reflexivity |].
      destruct (transcribe_sources_fails normalize linesep outputDirectory
                  (1 <? Z.of_nat (List.length sources)) highlight_words sources
                  0 [] "" "" Hall) as [e He].
      unfold transcribe_webui in Hr. rewrite Hfew in Hr. fold outputDirectory in Hr.
      rewrite He in Hr. discriminate Hr.
    + intros Hall. destruct (Hok Hall) as (archive & files & vtt & H & _).
      eexists. exact H.
  - reflexivity.
Qed.

Lemma transcribe_webui_combines_sources_witness :
  exists archive files vtt,
    transcribe_webui Slug.normalize_ascii Py.nl None "/tmp/out" "20240101-120000"
      None false
      (Sources [sample_source "a.mp3" "a" "x" []; sample_source "b.mp3" "b" "" [];
                sample_source "c.mp3" "c" "z" []])
    = inl ((archive ++ files)%list,
           Py.join ""
             (List.map (source_block Py.nl)
                [sample_source "a.mp3" "a" "x" []; sample_source "b.mp3" "b" "" [];
                 sample_source "c.mp3" "c" "z" []]),
           vtt)
    /\ List.length files = 15%nat
    /\ archive = ["/tmp/out/All_Output-20240101-120000.zip"].
Proof.
  apply (proj2 (proj1 (proj2 (transcribe_webui_combines_sources
                                Slug.normalize_ascii Py.nl None "/tmp/out"
                                "20240101-120000" None false
                                [sample_source "a.mp3" "a" "x" [];
                                 sample_source "b.mp3" "b" "" [];
                                 sample_source "c.mp3" "c" "z" []]))
                  eq_refl)).
  vm_compute. reflexivity.
Defined.

(* ================================================================== *)
(** * Slugs: the ASCII alphabet, and slugs of slugs *)

Lemma ascii_ignore_chars (s : string) :
  all_chars ascii_range (Slug.ascii_ignore s) = true.
Proof.
  induction s as [| c r IH]; [reflexivity |].
  cbn [Slug.ascii_ignore].
  destruct (nat_of_ascii c <? 128)%nat eqn:Hc; [| exact IH].
  cbn [all_chars]. unfold ascii_range at 1. now rewrite Hc, IH.
Qed.

Lemma ascii_ignore_fixed (s : string) :
  all_chars ascii_range s = true -> Slug.ascii_ignore s = s.
Proof.
  induction s as [| c r IH]; [reflexivity |].
  cbn [all_chars Slug.ascii_ignore]. intros H.
  apply andb_prop in H as [Hc Hr]. unfold ascii_range in Hc.
  now rewrite Hc, (IH Hr).
Qed.

Lemma lower_char_ascii (c : ascii) :
  ascii_range c = true ->
  Ascii.eqb (Slug.lower_char (Slug.lower_char c)) (Slug.lower_char c)
  && ascii_range (Slug.lower_char c) = true.
Proof.
  destruct c as [b0 b1 b2 b3 b4 b5 b6 b7].
  destruct b0, b1, b2, b3, b4, b5, b6, b7; vm_compute; intros H;
    first [reflexivity | discriminate H].
Qed.

Lemma lower_chars_ascii (s : string) :
  all_chars ascii_range s = true ->
  all_chars (fun c => Ascii.eqb (Slug.lower_char c) c && ascii_range c)
    (Slug.lower s) = true.
Proof.
  induction s as [| c r IH]; [reflexivity |].
  cbn [all_chars Slug.lower]. intros H. apply andb_prop in H as [Hc Hr].
  now rewrite (lower_char_ascii c Hc), (IH Hr).
Qed.

Lemma collapsed_ascii_char (c : ascii) :
  Ascii.eqb c "-"
  || (((Ascii.eqb (Slug.lower_char c) c && ascii_range c) && Slug.kept c)
      && negb (Slug.separator c))
  = true ->
  slug_ascii_char c = true.
Proof.
  destruct c as [b0 b1 b2 b3 b4 b5 b6 b7].
  destruct b0, b1, b2, b3, b4, b5, b6, b7; vm_compute; intros H;
    first [reflexivity | discriminate H].
Qed.

Lemma slug_ascii_char_is_slug_char (c : ascii) :
  slug_ascii_char c = true -> slug_char c && ascii_range c = true.
Proof.
  destruct c as [b0 b1 b2 b3 b4 b5 b6 b7].
  destruct b0, b1, b2, b3, b4, b5, b6, b7; vm_compute; intros H;
    first [reflexivity | discriminate H].
Qed.

Lemma slug_char_kept (c : ascii) :
  slug_char c = true ->
  Slug.kept c && negb (Py.isspace c) && Ascii.eqb (Slug.lower_char c) c = true.
Proof.
  destruct c as [b0 b1 b2 b3 b4 b5 b6 b7].
  destruct b0, b1, b2, b3, b4, b5, b6, b7; vm_compute; intros H;
    first [reflexivity | discriminate H].
Qed.

(** The steps of [slugify] after the encoding, on ASCII text. *)
Lemma ascii_slug_chars (s : string) :
  all_chars ascii_range s = true ->
  all_chars slug_ascii_char
    (Slug.strip_chars (Slug.collapse (Slug.drop_others (Slug.lower s)))) = true.
Proof.
  intros H. unfold Slug.strip_chars, Slug.collapse.
  apply all_chars_rstrip_by, all_chars_lstrip_by.
  eapply all_chars_impl; [exact collapsed_ascii_char |].
  apply (collapse_from_chars
           (fun c => (Ascii.eqb (Slug.lower_char c) c && ascii_range c)
                     && Slug.kept c)).
  apply (drop_others_chars
           (fun c => Ascii.eqb (Slug.lower_char c) c && ascii_range c)).
  exact (lower_chars_ascii s H).
Qed.

(** The shape of what the last two steps of [slugify] return. *)
Lemma strip_collapse_shape (s : string) :
  let out := Slug.strip_chars (Slug.collapse s) in
  no_double_dash out = true
  /\ not_dash_or_underscore (first_char out) = true
  /\ not_dash_or_underscore (last_char out) = true.
Proof.
  cbv zeta. unfold Slug.strip_chars, Slug.collapse. split.
  { apply no_double_dash_rstrip_by, no_double_dash_lstrip_by.
    apply collapse_from_dashes. }
  split.
  { match goal with |- context [Py.rstrip_by ?q (Py.lstrip_by ?q' ?t)] =>
      destruct (rstrip_by_first q (Py.lstrip_by q' t)) as [E | E];
      rewrite E; [reflexivity |];
      pose proof (lstrip_by_first q' t) as Hf;
      destruct (first_char (Py.lstrip_by q' t)) as [c |]; [| reflexivity];
      simpl; now rewrite (Hf c eq_refl)
    end. }
  match goal with |- context [Py.rstrip_by ?q ?t] =>
    pose proof (rstrip_by_last q t) as Hl;
    destruct (last_char (Py.rstrip_by q t)) as [c |]; [| reflexivity];
    simpl; now rewrite (Hl c eq_refl)
  end.
Qed.

Lemma slug_chars_of_any (s : string) :
  all_chars slug_char
    (Slug.strip_chars (Slug.collapse (Slug.drop_others (Slug.lower s)))) = true.
Proof.
  unfold Slug.strip_chars, Slug.collapse.
  apply all_chars_rstrip_by, all_chars_lstrip_by.
  eapply all_chars_impl; [exact collapsed_char_is_slug_char |].
  apply (collapse_from_chars
           (fun c => Ascii.eqb (Slug.lower_char c) c && Slug.kept c)).
  apply drop_others_chars, lower_fixed.
Qed.

Lemma drop_others_fixed (s : string) :
  all_chars Slug.kept s = true -> Slug.drop_others s = s.
Proof.
  induction s as [| c r IH]; [reflexivity |].
  cbn [all_chars Slug.drop_others]. intros H.
  apply andb_prop in H as [Hc Hr]. now rewrite Hc, (IH Hr).
Qed.

Lemma collapse_from_fixed (s : string) (in_run : bool) :
  all_chars (fun c => negb (Py.isspace c)) s = true ->
  no_double_dash s = true ->
  (in_run = true ->
   match first_char s with
   | Some c => Ascii.eqb c "-" = false
   | None => True
   end) ->
  Slug.collapse_from in_run s = s.
Proof.
  revert in_run. induction s as [| c r IH]; intros in_run; [reflexivity |].
  cbn [all_chars Slug.collapse_from first_char]. intros H Hnd Hfirst.
  apply andb_prop in H as [Hc Hr].
  pose proof (no_double_dash_tail c r Hnd) as Hnd'.
  apply negb_true_iff in Hc.
  unfold Slug.separator. rewrite Hc, orb_false_r.
  destruct (Ascii.eqb c "-") eqn:Hdash.
  - destruct in_run; [specialize (Hfirst eq_refl); discriminate |].
    apply Ascii.eqb_eq in Hdash. subst c. f_equal.
    apply (IH true Hr Hnd'). intros _.
    destruct r as [| d t]; [exact I |].
    change (negb (Ascii.eqb "-" "-" && Ascii.eqb d "-")
            && no_double_dash (String d t) = true) in Hnd.
    apply andb_prop in Hnd as [Hd _]. cbn [first_char].
    now destruct (Ascii.eqb d "-").
  - f_equal. apply (IH false Hr Hnd'). discriminate.
Qed.

Lemma lstrip_by_fixed (q : ascii -> bool) (s : string) :
  match first_char s with Some c => q c = false | None => True end ->
  Py.lstrip_by q s = s.
Proof.
  destruct s as [| c r]; [reflexivity |].
  cbn [first_char Py.lstrip_by]. now intros ->.
Qed.

Lemma rstrip_by_fixed (q : ascii -> bool) (s : string) :
  match last_char s with Some c => q c = false | None => True end ->
  Py.rstrip_by q s = s.
Proof.
  induction s as [| c r IH]; [reflexivity |].
  cbn [Py.rstrip_by]. destruct r as [| d t].
  - cbn [last_char Py.rstrip_by]. now intros ->.
  - intros H. change (last_char (String c (String d t)))
      with (last_char (String d t)) in H.
    rewrite (IH H). reflexivity.
Qed.

(** X12.  Without [allow_unicode], whatever the text and its normal form
    are, the slug is made of lowercase letters of the English alphabet,
    decimal digits, underscores and hyphens only. *)
Theorem slugify_ascii_alphabet
    (normalize : string -> string -> string) (value : string) :
  all_chars slug_ascii_char (Slug.slugify normalize value false) = true.
Proof.
  unfold Slug.slugify. apply ascii_slug_chars, ascii_ignore_chars.
Qed.

(** X13.  A slug is its own slug: when the normal form leaves the slug
    of a text as it is (as it does for ASCII text), [slugify] applied to
    the slug returns it unchanged. *)
Theorem slugify_of_a_slug
    (normalize : string -> string -> string) (value : string)
    (allow_unicode : bool) :
  let out := Slug.slugify normalize value allow_unicode in
  normalize (if allow_unicode then "NFKC" else "NFKD") out = out ->
  Slug.slugify normalize out allow_unicode = out.
Proof.
  cbv zeta. intros Hnorm.
  set (out := Slug.slugify normalize value allow_unicode) in *.
  assert (Hchars : all_chars slug_char out = true).
  { unfold out, Slug.slugify. apply slug_chars_of_any. }
  assert (Hshape : no_double_dash out = true
                   /\ not_dash_or_underscore (first_char out) = true
                   /\ not_dash_or_underscore (last_char out) = true).
  { unfold out, Slug.slugify. apply strip_collapse_shape. }
  destruct Hshape as (Hnd & Hfirst & Hlast).
  assert (Hin : (if allow_unicode then normalize "NFKC" out
                 else Slug.ascii_ignore (normalize "NFKD" out)) = out).
  { destruct allow_unicode; [exact Hnorm |].
    rewrite Hnorm. apply ascii_ignore_fixed.
    eapply all_chars_impl;
      [| exact (ascii_slug_chars _ (ascii_ignore_chars (normalize "NFKD" value)))].
    intros c Hc. apply slug_ascii_char_is_slug_char in Hc.
    now apply andb_prop in Hc as [_ Hc]. }
  unfold Slug.slugify at 1. rewrite Hin.
  rewrite (lower_of_fixed out).
  2:{ eapply all_chars_impl; [| exact Hchars].
      intros c Hc. apply slug_char_kept in Hc.
      now apply andb_prop in Hc as [_ Hc]. }
  rewrite (drop_others_fixed out).
  2:{ eapply all_chars_impl; [| exact Hchars].
      intros c Hc. apply slug_char_kept in Hc.
      apply andb_prop in Hc as [Hc _]. now apply andb_prop in Hc as [Hc _]. }
  unfold Slug.collapse. rewrite (collapse_from_fixed out false).
  2:{ eapply all_chars_impl; [| exact Hchars].
      intros c Hc. apply slug_char_kept in Hc.
      apply andb_prop in Hc as [Hc _]. now apply andb_prop in Hc as [_ Hc]. }
  2: exact Hnd.
  2: discriminate.
  unfold Slug.strip_chars. rewrite (lstrip_by_fixed Slug.dash_or_underscore out).
  2:{ destruct (first_char out) as [c |]; [| exact I].
      cbn [not_dash_or_underscore] in Hfirst. now apply negb_true_iff. }
  apply rstrip_by_fixed.
  destruct (last_char out) as [c |]; [| exact I].
  cbn [not_dash_or_underscore] in Hlast. now apply negb_true_iff.
Qed.

Lemma slugify_of_a_slug_witness :
  Slug.slugify Slug.normalize_ascii
    (Slug.slugify Slug.normalize_ascii "01_My  Talk -- (final).MP3" false) false
  = "01_my-talk-finalmp3".
Proof.
  exact (slugify_of_a_slug Slug.normalize_ascii "01_My  Talk -- (final).MP3"
           false eq_refl).
Defined.

(* ================================================================== *)
(** * Flat-text wrapping: the width, and the characters *)

Lemma all_chars_append (p : ascii -> bool) (a b : string) :
  all_chars p (a ++ b) = all_chars p a && all_chars p b.
Proof.
  induction a as [| c a IH]; [reflexivity |].
  cbn [String.append all_chars]. now rewrite IH, andb_assoc.
Qed.

Lemma without_space_append (a b : string) :
  without_space (a ++ b) = without_space a ++ without_space b.
Proof.
  induction a as [| c a IH]; [reflexivity |].
  cbn [String.append without_space]. rewrite IH. now destruct (Py.isspace c).
Qed.

Lemma without_space_of_spaces (s : string) :
  all_chars Py.isspace s = true -> without_space s = "".
Proof.
  induction s as [| c r IH]; [reflexivity |].
  cbn [all_chars without_space]. intros H. apply andb_prop in H as [Hc Hr].
  now rewrite Hc, (IH Hr).
Qed.

Lemma rstrip_by_empty (p : ascii -> bool) (s : string) :
  Py.rstrip_by p s = "" -> all_chars p s = true.
Proof.
  induction s as [| c r IH]; [reflexivity |].
  cbn [Py.rstrip_by all_chars].
  destruct (Py.rstrip_by p r) as [| d t]; [| discriminate].
  destruct (p c); [| discriminate]. intros _. now rewrite IH.
Qed.

Lemma lstrip_by_all (p : ascii -> bool) (s : string) :
  all_chars p (Py.lstrip_by p s) = true -> all_chars p s = true.
Proof.
  induction s as [| c r IH]; [reflexivity |].
  cbn [Py.lstrip_by]. destruct (p c) eqn:Hc.
  - intros H. cbn [all_chars]. now rewrite Hc, (IH H).
  - cbn [all_chars]. now rewrite Hc.
Qed.

Lemma blank_without_space (chunk : string) :
  TextWrap.blank chunk = true -> without_space chunk = "".
Proof.
  unfold TextWrap.blank, Py.strip. intros H. apply String.eqb_eq in H.
  apply without_space_of_spaces, lstrip_by_all, rstrip_by_empty. exact H.
Qed.

Lemma blanks_without_space (chunks : list string) :
  Forall (fun chunk => TextWrap.blank chunk = true) chunks ->
  without_space (Py.join "" chunks) = "".
Proof.
  induction 1 as [| chunk chunks Hc _ IH]; [reflexivity |].
  rewrite join_empty_cons, without_space_append, IH.
  now rewrite (blank_without_space chunk Hc).
Qed.

Lemma without_space_spaces (k : nat) : without_space (TextWrap.spaces k) = "".
Proof. induction k as [| k IH]; [reflexivity | exact IH]. Qed.

Lemma without_space_expandtabs (tabsize : nat) (s : string) :
  forall column,
    without_space (TextWrap.expandtabs_from tabsize column s) = without_space s.
Proof.
  induction s as [| c r IH]; intros column; [reflexivity |].
  cbn [TextWrap.expandtabs_from].
  destruct (Ascii.eqb c "009") eqn:Htab.
  - apply Ascii.eqb_eq in Htab. subst c.
    change (without_space (String "009" r)) with (without_space r).
    destruct tabsize as [| t]; [apply IH |].
    now rewrite without_space_append, without_space_spaces, IH.
  - cbn [without_space]. now rewrite IH.
Qed.

Lemma whitespace_is_space (c : ascii) :
  TextWrap.whitespace c = true -> Py.isspace c = true.
Proof.
  destruct c as [b0 b1 b2 b3 b4 b5 b6 b7].
  destruct b0, b1, b2, b3, b4, b5, b6, b7; vm_compute; intros H;
    first [reflexivity | discriminate H].
Qed.

Lemma without_space_translate (s : string) :
  without_space (TextWrap.translate_whitespace s) = without_space s.
Proof.
  induction s as [| c r IH]; [reflexivity |].
  cbn [TextWrap.translate_whitespace without_space].
  destruct (TextWrap.whitespace c) eqn:Hc.
  - rewrite (whitespace_is_space c Hc). exact IH.
  - now rewrite IH.
Qed.

Lemma translate_whitespace_chars (s : string) :
  all_chars space_or_ink (TextWrap.translate_whitespace s) = true.
Proof.
  induction s as [| c r IH]; [reflexivity |].
  cbn [TextWrap.translate_whitespace all_chars]. rewrite IH, andb_true_r.
  unfold space_or_ink. destruct (TextWrap.whitespace c) eqn:Hc; [reflexivity |].
  now rewrite Hc.
Qed.

Lemma without_space_join_lines (lines : list string) :
  without_space (Py.join Py.nl lines) = without_space (Py.join "" lines).
Proof.
  induction lines as [| l [| l' ls] IH]; [reflexivity | reflexivity |].
  change (Py.join Py.nl (l :: l' :: ls)) with (l ++ Py.nl ++ Py.join Py.nl (l' :: ls)).
  rewrite join_empty_cons, !without_space_append, IH. reflexivity.
Qed.

Lemma len_take (n : nat) (s : string) : Py.len (TextWrap.take n s) <= Z.of_nat n.
Proof.
  unfold Py.len. revert s. induction n as [| n IH]; intros s; [simpl; lia |].
  destruct s as [| c r]; [simpl; lia |].
  cbn [TextWrap.take String.length]. specialize (IH r). lia.
Qed.

(** The cut of a chunk that is longer than the line fits the room left
    on the line. *)
Lemma handle_long_word_cut (chunk : string) (rest cur_line : list string)
    (cur_len width : Z) :
  0 < width ->
  0 <= cur_len <= width ->
  width < Py.len chunk ->
  exists e,
    TextWrap._handle_long_word (chunk :: rest) cur_line cur_len width
    = (TextWrap.drop e chunk :: rest, (cur_line ++ [TextWrap.take e chunk])%list)
    /\ Z.of_nat e <= width - cur_len.
Proof.
  intros Hw Hcur Hlong. unfold TextWrap._handle_long_word.
  destruct (Z.ltb_spec width 1) as [Hbad | _]; [lia |].
  unfold Py.len in *.
  destruct (Z.ltb_spec (width - cur_len) (Z.of_nat (String.length chunk)))
    as [_ | Hbad]; [| lia].
  destruct (TextWrap.rfind_hyphen_from 0 (Z.to_nat (width - cur_len)) chunk)
    as [h |] eqn:Eh.
  - pose proof (rfind_hyphen_from_bound _ _ _ _ Eh) as Hh.
    destruct ((0 <? h)%nat && TextWrap.any_not_hyphen (TextWrap.take h chunk)).
    + exists (Z.to_nat (Z.of_nat h + 1)). split; [reflexivity | lia].
    + exists (Z.to_nat (width - cur_len)). split; [reflexivity | lia].
  - exists (Z.to_nat (width - cur_len)). split; [reflexivity | lia].
Qed.

Lemma exists_last_or_nil (xs : list string) :
  xs = [] \/ exists front last, xs = (front ++ [last])%list.
Proof.
  destruct xs as [| x xs]; [now left | right].
  destruct (@exists_last _ (x :: xs) ltac:(discriminate)) as [front [last H]].
  now exists front, last.
Qed.

Lemma drop_trailing_blank_snoc (front : list string) (last : string) :
  TextWrap.drop_trailing_blank (front ++ [last])
  = if TextWrap.blank last then front else (front ++ [last])%list.
Proof.
  unfold TextWrap.drop_trailing_blank. rewrite rev_app_distr. cbn [rev app].
  now rewrite rev_involutive.
Qed.

(** What is dropped at the end of a line is blank, and what is kept
    ends with a chunk that is not. *)
Lemma drop_trailing_blank_spec (cur_line : list string) :
  exists tail,
    cur_line = (TextWrap.drop_trailing_blank cur_line ++ tail)%list
    /\ Forall (fun chunk => TextWrap.blank chunk = true) tail
    /\ (Forall (fun chunk => chunk <> "") (removelast cur_line) ->
        Forall (fun chunk => chunk <> "") (TextWrap.drop_trailing_blank cur_line)).
Proof.
  destruct (exists_last_or_nil cur_line) as [-> | [front [last ->]]].
  - exists []. repeat split; auto.
  - rewrite drop_trailing_blank_snoc, removelast_last.
    destruct (TextWrap.blank last) eqn:Hb.
    + exists [last]. repeat split; auto.
    + exists []. rewrite app_nil_r. repeat split; auto.
      intros Hfront. apply Forall_app. split; [exact Hfront |].
      constructor; [| constructor]. intros ->. discriminate Hb.
Qed.

(** One round of the wrapping loop: of the characters of the chunks, in
    their order, some blank chunks are skipped, a line that fits is
    kept, some blank chunks after it are dropped, and the rest is left
    for the rounds to come. *)
Lemma wrap_round_spec (width : Z) (first : string) (rest lines : list string) :
  0 < width ->
  Forall (fun chunk => chunk <> "") (first :: rest) ->
  exists skipped kept tail chunks',
    TextWrap.wrap_round width (first :: rest) lines
    = (chunks', match kept with
                | [] => lines
                | _ => (lines ++ [Py.join "" kept])%list
                end)
    /\ Py.join "" (first :: rest)
       = Py.join "" skipped ++ Py.join "" kept ++ Py.join "" tail
         ++ Py.join "" chunks'
    /\ Forall (fun chunk => TextWrap.blank chunk = true) skipped
    /\ Forall (fun chunk => TextWrap.blank chunk = true) tail
    /\ Forall (fun chunk => chunk <> "") kept
    /\ Py.len (Py.join "" kept) <= width.
Proof.
  intros Hw Hne. unfold TextWrap.wrap_round.
  set (chunks0 :=
         if TextWrap.blank first && negb (Nat.eqb (List.length lines) 0)
         then rest else first :: rest).
  assert (H0 : exists skipped,
             first :: rest = (skipped ++ chunks0)%list
             /\ Forall (fun chunk => TextWrap.blank chunk = true) skipped).
  { subst chunks0. destruct (TextWrap.blank first) eqn:Hb.
    - destruct (negb (Nat.eqb (List.length lines) 0)); cbn [andb].
      + exists [first]. split; [reflexivity | now constructor].
      + exists []. split; [reflexivity | constructor].
    - exists []. split; [reflexivity | constructor]. }
  destruct H0 as [skipped [Hskip Hblank]].
  assert (Hne0 : Forall (fun chunk => chunk <> "") chunks0).
  { rewrite Hskip in Hne. now apply Forall_app in Hne as [_ H]. }
  destruct (fill_line_spec width chunks0 [] 0 ltac:(lia))
    as [taken [left [Hfill [Hsplit [Hfit Hnext]]]]].
  rewrite Hfill. cbn [app].
  assert (Htaken : Forall (fun chunk => chunk <> "") taken).
  { rewrite Hsplit in Hne0. now apply Forall_app in Hne0 as [H _]. }
  assert (Hgoal :
    forall chunks2 cur_line2,
      Py.join "" chunks0 = Py.join "" cur_line2 ++ Py.join "" chunks2 ->
      Forall (fun chunk => chunk <> "") (removelast cur_line2) ->
      Py.len (Py.join "" cur_line2) <= width ->
      exists skipped kept tail chunks',
        match TextWrap.drop_trailing_blank cur_line2 with
        | [] => (chunks2, lines)
        | _ :: _ =>
            (chunks2,
             (lines ++ [Py.join "" (TextWrap.drop_trailing_blank cur_line2)])%list)
        end
        = (chunks', match kept with
                    | [] => lines
                    | _ => (lines ++ [Py.join "" kept])%list
                    end)
        /\ Py.join "" (first :: rest)
           = Py.join "" skipped ++ Py.join "" kept ++ Py.join "" tail
             ++ Py.join "" chunks'
        /\ Forall (fun chunk => TextWrap.blank chunk = true) skipped
        /\ Forall (fun chunk => TextWrap.blank chunk = true) tail
        /\ Forall (fun chunk => chunk <> "") kept
        /\ Py.len (Py.join "" kept) <= width).
  { intros chunks2 cur_line2 Hjoin Hfront Hlen.
    destruct (drop_trailing_blank_spec cur_line2) as [tail [Hcut [Htail Hkept]]].
    exists skipped, (TextWrap.drop_trailing_blank cur_line2), tail, chunks2.
    split; [now destruct (TextWrap.drop_trailing_blank cur_line2) |].
    split.
    { rewrite Hskip, join_empty_app, Hjoin. rewrite Hcut at 1.
      now rewrite join_empty_app, !append_assoc. }
    split; [exact Hblank |]. split; [exact Htail |].
    split; [exact (Hkept Hfront) |].
    rewrite Hcut, join_empty_app, len_append in Hlen.
    pose proof (len_nonneg (Py.join "" tail)). lia. }
  assert (Hfront : Forall (fun chunk => chunk <> "") (removelast taken)).
  { destruct (exists_last_or_nil taken) as [-> | [front [last ->]]];
      [constructor |].
    rewrite removelast_last. now apply Forall_app in Htaken as [H _]. }
  rewrite Z.add_0_l in *.
  destruct left as [| chunk left'].
  - apply Hgoal; [| exact Hfront | exact Hfit].
    now rewrite Hsplit, join_empty_app.
  - destruct (Z.ltb_spec width (Py.len chunk)) as [Hlong | Hshort].
    + pose proof (len_nonneg (Py.join "" taken)) as Hlen0.
      destruct (handle_long_word_cut chunk left' taken
                  (Py.len (Py.join "" taken)) width Hw ltac:(lia) Hlong)
        as [e [Hh He]].
      rewrite Hh. apply Hgoal.
      * rewrite Hsplit, !join_empty_app, !join_empty_cons.
        change (Py.join "" []) with "". rewrite append_nil_r, !append_assoc.
        rewrite <- (append_assoc (TextWrap.take e chunk)), take_drop.
        reflexivity.
      * rewrite removelast_last. exact Htaken.
      * rewrite join_empty_snoc, len_append.
        pose proof (len_take e chunk). lia.
    + apply Hgoal; [| exact Hfront | exact Hfit].
      now rewrite Hsplit, join_empty_app.
Qed.

(** The lines of the loop, from the chunks and the lines it starts
    with: the lines it adds fit the width, and the characters that are
    not white space are those of the lines and the chunks, in order. *)
Lemma wrap_lines_spec (width : Z) :
  0 < width ->
  forall (fuel : nat) (chunks lines : list string),
    Forall (fun chunk => chunk <> "") chunks ->
    (pending chunks < fuel)%nat ->
    all_chars space_or_ink (Py.join "" chunks) = true ->
    exists added,
      TextWrap.wrap_lines fuel width chunks lines = (lines ++ added)%list
      /\ Forall (wrapped_line width) added
      /\ without_space (Py.join "" added) = without_space (Py.join "" chunks).
Proof.
  intros Hw. induction fuel as [| fuel IH]; intros chunks lines Hne Hfuel Hchars;
    [lia |].
  destruct chunks as [| first rest].
  - exists []. rewrite app_nil_r. repeat split; constructor.
  - cbn [TextWrap.wrap_lines].
    destruct (wrap_round_progress width first rest lines Hw Hne) as [Hlt Hne'].
    destruct (wrap_round_spec width first rest lines Hw Hne)
      as (skipped & kept & tail & chunks' & Hround & Hjoin & Hskip & Htail
          & Hkept & Hlen).
    rewrite Hround in *. cbn [fst] in Hlt, Hne'.
    rewrite Hjoin, !all_chars_append in Hchars.
    apply andb_prop in Hchars as [_ Hchars].
    apply andb_prop in Hchars as [Hck Hchars].
    apply andb_prop in Hchars as [_ Hcc].
    match goal with |- context [TextWrap.wrap_lines fuel width chunks' ?ls] =>
      destruct (IH chunks' ls Hne' ltac:(lia) Hcc) as [added [Hrun [Hgood Hsame]]]
    end.
    rewrite Hrun, Hjoin, !without_space_append.
    rewrite (blanks_without_space skipped Hskip), (blanks_without_space tail Htail).
    cbn [String.append].
    destruct kept as [| k ks].
    + exists added. split; [reflexivity |]. split; [exact Hgood |].
      exact Hsame.
    + exists (Py.join "" (k :: ks) :: added).
      split; [now rewrite <- app_assoc |]. split.
      * constructor; [| exact Hgood]. split; [| split; assumption].
        apply join_empty_nonempty; [exact Hkept | discriminate].
      * now rewrite join_empty_cons, without_space_append, Hsame.
Qed.

(** What [textwrap.wrap] returns for a width above zero. *)
Lemma wrap_spec (text : string) (width : Z) (tabsize : nat) :
  0 < width ->
  exists lines,
    TextWrap.wrap text width tabsize = Ok lines
    /\ Forall (wrapped_line width) lines
    /\ without_space (Py.join "" lines) = without_space text.
Proof.
  intros Hw. rewrite (wrap_rounds_suffice text width tabsize 0 Hw).
  pose proof (split_from_join
                (String.length (TextWrap._munge_whitespace tabsize text)) []
                (TextWrap._munge_whitespace tabsize text) (Nat.le_refl _))
    as [Hjoin Hne].
  fold (TextWrap._split (TextWrap._munge_whitespace tabsize text)) in Hjoin, Hne.
  destruct (wrap_lines_spec width Hw
              (S (pending (TextWrap._split (TextWrap._munge_whitespace tabsize text)))
               + 0)
              (TextWrap._split (TextWrap._munge_whitespace tabsize text)) [] Hne
              ltac:(lia))
    as [added [Hrun [Hgood Hsame]]].
  { rewrite Hjoin. apply translate_whitespace_chars. }
  exists added. split; [now rewrite Hrun |]. split; [exact Hgood |].
  rewrite Hsame, Hjoin. unfold TextWrap._munge_whitespace, TextWrap.expandtabs.
  now rewrite without_space_translate, without_space_expandtabs.
Qed.

(** X14.  For a width above zero, [process_text] returns lines joined
    by line feeds, each of which is not empty, is no longer than the
    width and holds none of the white space of [textwrap] (tab, line
    feed, vertical tab, form feed, carriage return) but spaces, so no
    line feed: no line of the caption exceeds the width, however long
    its words are.  Other white space of [str.isspace], the no-break
    space for one, is no white space to [textwrap] and stays. *)
Theorem process_text_lines_within_width (text : string) (w : Z) :
  0 < w ->
  exists lines,
    process_text text (Some w) = Ok (Py.join Py.nl lines)
    /\ Forall (wrapped_line w) lines.
Proof.
  intros Hw. destruct (wrap_spec text w 4 Hw) as [lines [Hwrap [Hgood _]]].
  exists lines. unfold process_text.
  destruct (Z.ltb_spec w 0) as [Hbad | _]; [lia |].
  rewrite Hwrap. split; [reflexivity | exact Hgood].
Qed.

Lemma process_text_lines_within_width_witness :
  exists lines,
    process_text "A self-contained, extraordinarily long caption" (Some 12)
    = Ok (Py.join Py.nl lines)
    /\ Forall (wrapped_line 12) lines.
Proof.
  apply (process_text_lines_within_width
           "A self-contained, extraordinarily long caption" 12).
  lia.
Defined.

(** X15.  [process_text] raises [ValueError] for the width zero and
    returns for every other width; what it returns has the characters
    of the text that are not white space, all of them, in their order,
    and no other: wrapping only changes white space. *)
Theorem process_text_changes_white_space_only (text : string)
    (maxLineWidth : option Z) :
  (maxLineWidth = Some 0 -> process_text text maxLineWidth = Raise ValueError)
  /\ (maxLineWidth <> Some 0 ->
      exists out,
        process_text text maxLineWidth = Ok out
        /\ without_space out = without_space text).
Proof.
  split.
  - intros ->. reflexivity.
  - intros Hw. destruct maxLineWidth as [w |]; [| now exists text].
    unfold process_text. destruct (Z.ltb_spec w 0) as [Hneg | Hpos];
      [now exists text |].
    assert (Hw' : 0 < w) by (assert (w <> 0) by congruence; lia).
    destruct (wrap_spec text w 4 Hw') as [lines [Hwrap [_ Hsame]]].
    rewrite Hwrap. exists (Py.join Py.nl lines). split; [reflexivity |].
    now rewrite without_space_join_lines.
Qed.

Lemma process_text_changes_white_space_only_witness :
  exists out,
    process_text ("one" ++ Py.tab ++ "two" ++ Py.nl ++ "three-four") (Some 5)
    = Ok out
    /\ without_space out = "onetwothree-four".
Proof.
  apply (proj2 (process_text_changes_white_space_only
                  ("one" ++ Py.tab ++ "two" ++ Py.nl ++ "three-four") (Some 5))).
  discriminate.
Defined.

(* ================================================================== *)
(** * Helpers of the command line and of the transcriber *)

(** X16.  [exact_div] returns [q] exactly when the divisor is not zero
    and the dividend is [q] times the divisor, so the quotient it
    returns is exact; it raises [ZeroDivisionError] exactly for the
    divisor zero, and [AssertionError] otherwise. *)
Theorem exact_div_is_exact (x y : Z) :
  (forall q, exact_div x y = inl q <-> y <> 0 /\ x = q * y)
  /\ (exact_div x y = inr ZeroDivisionError <-> y = 0)
  /\ (exact_div x y = inr (Other AssertionError)
      <-> y <> 0 /\ ~ (exists q, x = q * y)).
Proof.
  unfold exact_div.
  destruct (Z.eqb_spec y 0) as [Hy | Hy].
  - split; [| split].
    + intros q. split; [discriminate | tauto].
    + tauto.
    + split; [discriminate | tauto].
  - destruct (Z.eqb_spec (x mod y) 0) as [Hm | Hm].
    + assert (Hx : x = x / y * y).
      { rewrite Z.mul_comm. now apply Z.div_exact. }
      split; [| split].
      * intros q. split.
        -- intros H. assert (q = x / y) by congruence. subst q. now split.
        -- intros [_ Hq]. f_equal. rewrite Hq. now rewrite Z.div_mul.
      * split; [discriminate | tauto].
      * split; [discriminate |].
        intros [_ Hq]. exfalso. apply Hq. now exists (x / y).
    + assert (Hno : ~ (exists q, x = q * y)).
      { intros [q Hq]. apply Hm. rewrite Hq. now apply Z.mod_mul. }
      split; [| split].
      * intros q. split; [discriminate |].
        intros [_ Hq]. exfalso. apply Hno. now exists q.
      * split; [discriminate | tauto].
      * split; [now split | reflexivity].
Qed.

Lemma str_of_int_sign_digits (n : Z) :
  Py.str_of_int n = (if n <? 0 then "-" else "") ++ Py.digits n.
Proof.
  unfold Py.str_of_int, Py.format_d. now rewrite !Nat.sub_0_l.
Qed.

Lemma value_of_digits (n : Z) : PyInt.value (Py.digits n) = Some (Z.abs n).
Proof.
  unfold PyInt.value. rewrite digits_of_uint, NilEmpty.usu. cbn [option_map].
  rewrite DecimalN.Unsigned.of_to. f_equal. apply N2Z.inj_abs_N.
Qed.

Lemma plain_digits_of_digits (s : string) :
  all_chars TextWrap.digit s = true ->
  forall after_digit,
    s <> "" \/ after_digit = true -> PyInt.plain_digits after_digit s = Some s.
Proof.
  induction s as [| c r IH]; intros _a after_digit Hne.
  - destruct Hne as [Hne | ->]; [congruence | reflexivity].
  - cbn [all_chars] in _a. apply andb_prop in _a as [Hc Hr].
    cbn [PyInt.plain_digits]. rewrite Hc, (IH Hr true); [reflexivity | now right].
Qed.

Lemma digit_is_plain (c : ascii) :
  TextWrap.digit c = true ->
  PyInt.space c = false /\ Ascii.eqb c "-" = false /\ Ascii.eqb c "+" = false.
Proof.
  destruct c as [b0 b1 b2 b3 b4 b5 b6 b7].
  destruct b0, b1, b2, b3, b4, b5, b6, b7; vm_compute; intros H;
    first [discriminate H | repeat split].
Qed.

Lemma all_chars_last (p : ascii -> bool) (s : string) (c : ascii) :
  all_chars p s = true -> last_char s = Some c -> p c = true.
Proof.
  induction s as [| a r IH]; [discriminate |].
  cbn [all_chars]. intros H. apply andb_prop in H as [Ha Hr].
  destruct r as [| b t].
  - cbn [last_char]. intros E. now assert (a = c) by congruence; subst.
  - change (last_char (String a (String b t))) with (last_char (String b t)).
    exact (IH Hr).
Qed.

Lemma magnitude_of_digits (n : Z) :
  (String.length (Py.digits n) <= PyInt.max_str_digits)%nat ->
  PyInt.magnitude (Py.digits n) = Ok (Z.abs n).
Proof.
  intros Hlen. unfold PyInt.magnitude.
  rewrite (plain_digits_of_digits _ (digits_chars n) false
             (or_introl (digits_nonempty n))).
  destruct (Nat.ltb_spec PyInt.max_str_digits (String.length (Py.digits n)));
    [lia |].
  now rewrite value_of_digits.
Qed.

(** [int] reads what [str] prints. *)
Lemma int_of_str (n : Z) :
  (String.length (Py.digits n) <= PyInt.max_str_digits)%nat ->
  PyInt.int (Py.str_of_int n) = Ok n.
Proof.
  intros Hlen. unfold PyInt.int.
  pose proof (digits_chars n) as Hd. pose proof (digits_nonempty n) as Hne.
  assert (Hstrip : Py.rstrip_by PyInt.space
                     (Py.lstrip_by PyInt.space (Py.str_of_int n))
                   = Py.str_of_int n).
  { rewrite (lstrip_by_fixed PyInt.space (Py.str_of_int n)).
    - apply rstrip_by_fixed. rewrite str_of_int_sign_digits.
      rewrite (last_char_append _ _ Hne).
      destruct (last_char (Py.digits n)) as [c |] eqn:El; [| exact I].
      exact (proj1 (digit_is_plain c (all_chars_last _ _ _ Hd El))).
    - rewrite str_of_int_sign_digits. destruct (n <? 0); [reflexivity |].
      cbn [String.append]. destruct (Py.digits n) as [| c r]; [exact I |].
      cbn [all_chars] in Hd. apply andb_prop in Hd as [Hc _].
      exact (proj1 (digit_is_plain c Hc)). }
  rewrite Hstrip, str_of_int_sign_digits.
  destruct (Z.ltb_spec n 0) as [Hneg | Hpos].
  - change ("-" ++ Py.digits n) with (String "-" (Py.digits n)).
    cbv beta iota. rewrite (magnitude_of_digits n Hlen). cbn [bind].
    change (Ok (- Z.abs n) = Ok n). f_equal. lia.
  - cbn [String.append].
    pose proof (magnitude_of_digits n Hlen) as Hm.
    destruct (Py.digits n) as [| c r]; [congruence |].
    cbn [all_chars] in Hd. apply andb_prop in Hd as [Hc _].
    destruct (digit_is_plain c Hc) as (_ & Hminus & Hplus).
    rewrite Hminus, Hplus, Hm. f_equal. lia.
Qed.

Lemma int_never_none (s : string) (r : option Z) :
  (n <- PyInt.int s ;; Ok (Some n)) = Ok r -> r <> None.
Proof.
  destruct (PyInt.int s) as [n | e]; cbn [bind]; [| discriminate].
  intros H. assert (r = Some n) by congruence. subst r. discriminate.
Qed.

(** X17.  The parsers of the command line read what [str] prints:
    [optional_int] gives back the integer whose [str] it is given (of no
    more digits than [int] accepts) and [None] for the text None and for
    no other text, and [str2bool] gives back the boolean whose [str] it
    is given and returns for no other text. *)
Theorem command_line_parsers_read_str (n : Z) (b : bool) :
  (String.length (Py.digits n) <= PyInt.max_str_digits)%nat ->
  optional_int (Py.str_of_int n) = Ok (Some n)
  /\ (forall s, optional_int s = Ok None <-> s = "None")
  /\ str2bool (str_of_bool b) = Ok b
  /\ (forall s b', str2bool s = Ok b' -> s = str_of_bool b').
Proof.
  intros Hlen. split; [| split; [| split]].
  - unfold optional_int.
    replace (String.eqb (Py.str_of_int n) "None") with false.
    + now rewrite (int_of_str n Hlen).
    + symmetry. apply String.eqb_neq. rewrite str_of_int_sign_digits.
      pose proof (digits_chars n) as Hd.
      destruct (n <? 0); [discriminate |]. cbn [String.append].
      intros E. rewrite E in Hd. discriminate Hd.
  - intros s. unfold optional_int. split.
    + destruct (String.eqb_spec s "None") as [-> | _]; [reflexivity |].
      intros H. now apply int_never_none in H.
    + intros ->. reflexivity.
  - now destruct b.
  - intros s b'. unfold str2bool.
    destruct (String.eqb_spec s "True") as [-> | _].
    + intros H. assert (b' = true) by congruence. now subst.
    + destruct (String.eqb_spec s "False") as [-> | _]; [| discriminate].
      intros H. assert (b' = false) by congruence. now subst.
Qed.

Lemma command_line_parsers_read_str_witness :
  optional_int (Py.str_of_int (-4300)) = Ok (Some (-4300))
  /\ (forall s, optional_int s = Ok None <-> s = "None")
  /\ str2bool (str_of_bool false) = Ok false
  /\ (forall s b', str2bool s = Ok b' -> s = str_of_bool b').
Proof.
  apply (command_line_parsers_read_str (-4300) false). vm_compute. lia.
Defined.

Lemma strip_trimmed (text : string) : trimmed text (Py.strip text).
Proof.
  unfold trimmed, Py.strip. split; [| split].
  - destruct (lstrip_by_split Py.isspace text) as [before [Hl Hb]].
    destruct (rstrip_by_split Py.isspace (Py.lstrip_by Py.isspace text))
      as [after [Hr Ha]].
    exists before, after. split; [| now split].
    now rewrite <- Hr.
  - destruct (rstrip_by_first Py.isspace (Py.lstrip_by Py.isspace text)) as [E | E];
      rewrite E; [reflexivity |].
    pose proof (lstrip_by_first Py.isspace text) as Hf.
    destruct (first_char (Py.lstrip_by Py.isspace text)) as [c |]; [| reflexivity].
    cbn [not_space]. now rewrite (Hf c eq_refl).
  - pose proof (rstrip_by_last Py.isspace (Py.lstrip_by Py.isspace text)) as Hl.
    destruct (last_char (Py.rstrip_by Py.isspace (Py.lstrip_by Py.isspace text)))
      as [c |]; [| reflexivity].
    cbn [not_space]. now rewrite (Hl c eq_refl).
Qed.

(** X18.  [write_txt] appends to the file one line for each segment, in
    order, ended by a line feed: the text of the segment without the
    white space at its two ends, and with all the rest of it, so an
    empty line for a text of white space only. *)
Theorem write_txt_one_trimmed_line_per_segment (transcript : list Segment)
    (file : string) :
  exists lines,
    write_txt transcript file
    = file ++ Py.join "" (List.map (fun line => line ++ Py.nl) lines)
    /\ Forall2 (fun segment line => trimmed (seg_text segment) line)
         transcript lines.
Proof.
  revert file. induction transcript as [| segment rest IH]; intros file.
  - exists []. split; [now rewrite append_nil_r | constructor].
  - cbn [write_txt]. destruct (IH (print (Py.strip (seg_text segment)) file))
      as [lines [Hw Hall]].
    exists (Py.strip (seg_text segment) :: lines). split.
    + rewrite Hw. unfold print. cbn [map].
      now rewrite join_empty_cons, !append_assoc.
    + constructor; [apply strip_trimmed | exact Hall].
Qed.

Lemma split_on_cons (sep c : ascii) (r : string) :
  exists part parts,
    split_on sep (String c r) = part :: parts.
Proof.
  cbn [split_on]. destruct (Ascii.eqb c sep); [now eexists _, _ |].
  destruct (split_on sep r); now eexists _, _.
Qed.

Lemma split_on_nonempty (sep : ascii) (s : string) : split_on sep s <> [].
Proof.
  destruct s as [| c r]; [discriminate |].
  destruct (split_on_cons sep c r) as [part [parts ->]]. discriminate.
Qed.

(** Joining the parts with the separator gives the text back, and there
    is one part more than there are separators. *)
Lemma split_on_join (sep : ascii) (s : string) :
  Py.join (String sep "") (split_on sep s) = s
  /\ List.length (split_on sep s) = S (count_char sep s).
Proof.
  induction s as [| c r [IHj IHl]]; [now split |].
  cbn [split_on count_char].
  pose proof (split_on_nonempty sep r) as Hne.
  destruct (Ascii.eqb_spec c sep) as [-> | Hc].
  - destruct (split_on sep r) as [| part parts]; [congruence |]. split.
    + change (Py.join (String sep "") ("" :: part :: parts))
        with ("" ++ String sep "" ++ Py.join (String sep "") (part :: parts)).
      now rewrite IHj.
    + cbn [List.length] in *. lia.
  - destruct (split_on sep r) as [| part parts]; [congruence |]. split.
    + destruct parts as [| part' parts'].
      * cbn [Py.join] in *. now rewrite IHj.
      * change (Py.join (String sep "") (String c part :: part' :: parts'))
          with (String c (part ++ String sep ""
                          ++ Py.join (String sep "") (part' :: parts'))).
        f_equal. exact IHj.
    + cbn [List.length] in *. lia.
Qed.

(** X19.  Every device text that is not empty turns the parallel mode
    on, whatever the number of cores is: [set_parallel_devices] stores
    one device for each part between the commas of the text (one more
    than there are commas), each without the white space at its ends,
    even when a part is empty.  With the empty text or [None] no list
    is stored, and the mode is on for more than one core only. *)
Theorem set_parallel_devices_turns_parallel_on (self : WhisperTranscriber)
    (devices : string) :
  devices <> "" ->
  (exists parts,
      parallel_device_list (set_parallel_devices self (Some devices))
      = Some (List.map Py.strip parts)
      /\ Py.join "," parts = devices
      /\ List.length parts = S (count_char "," devices))
  /\ _has_parallel_devices (set_parallel_devices self (Some devices)) = true
  /\ _has_parallel_devices (set_parallel_devices self (Some ""))
     = (1 <? vad_cpu_cores self)
  /\ _has_parallel_devices (set_parallel_devices self None)
     = (1 <? vad_cpu_cores self).
Proof.
  intros Hne.
  assert (Hlist : parallel_device_list (set_parallel_devices self (Some devices))
                  = Some (List.map Py.strip (split_on "," devices))).
  { unfold set_parallel_devices. cbn [parallel_device_list].
    now destruct (String.eqb_spec devices ""). }
  destruct (split_on_join "," devices) as [Hjoin Hlen].
  split; [| split; [| split]].
  - exists (split_on "," devices). now repeat split.
  - unfold _has_parallel_devices. rewrite Hlist, length_map, Hlen.
    reflexivity.
  - reflexivity.
  - reflexivity.
Qed.

Lemma set_parallel_devices_turns_parallel_on_witness :
  (exists parts,
      parallel_device_list
        (set_parallel_devices {| parallel_device_list := None; vad_cpu_cores := 1 |}
           (Some " cuda:0, ,cuda:1"))
      = Some (List.map Py.strip parts)
      /\ Py.join "," parts = " cuda:0, ,cuda:1"
      /\ List.length parts = 3%nat)
  /\ _has_parallel_devices
       (set_parallel_devices {| parallel_device_list := None; vad_cpu_cores := 1 |}
          (Some " cuda:0, ,cuda:1")) = true
  /\ _has_parallel_devices
       (set_parallel_devices {| parallel_device_list := None; vad_cpu_cores := 1 |}
          (Some "")) = false
  /\ _has_parallel_devices
       (set_parallel_devices {| parallel_device_list := None; vad_cpu_cores := 1 |}
          None) = false.
Proof.
  apply (set_parallel_devices_turns_parallel_on
           {| parallel_device_list := None; vad_cpu_cores := 1 |}
           " cuda:0, ,cuda:1").
  discriminate.
Defined.

(** X20.  [_concat_prompt] is associative and has [None] as its unit on
    both sides, so the prompts of several stages combine to the same
    prompt however they are grouped; the result is [None] only when
    both prompts are. *)
Theorem concat_prompt_is_associative (prompt1 prompt2 prompt3 : option string) :
  _concat_prompt (_concat_prompt prompt1 prompt2) prompt3
  = _concat_prompt prompt1 (_concat_prompt prompt2 prompt3)
  /\ _concat_prompt None prompt1 = prompt1
  /\ _concat_prompt prompt1 None = prompt1
  /\ (_concat_prompt prompt1 prompt2 = None <-> prompt1 = None /\ prompt2 = None).
Proof.
  split; [| split; [| split]].
  - destruct prompt1 as [p1 |], prompt2 as [p2 |], prompt3 as [p3 |];
      cbn [_concat_prompt]; try reflexivity.
    f_equal. now rewrite !append_assoc.
  - reflexivity.
  - now destruct prompt1.
  - destruct prompt1, prompt2; cbn [_concat_prompt]; split;
      try discriminate; try tauto; intros [? ?]; discriminate.
Qed.

(* ================================================================== *)
(** * The files of several sources have different names *)

Lemma value_zero (s : string) :
  PyInt.value (String "0" s) = PyInt.value s.
Proof.
  unfold PyInt.value. cbn [NilEmpty.uint_of_string].
  now destruct (NilEmpty.uint_of_string s).
Qed.

Lemma value_zeros (k : nat) (s : string) :
  PyInt.value (Py.zeros k ++ s) = PyInt.value s.
Proof.
  induction k as [| k IH]; [reflexivity |].
  cbn [Py.zeros String.append]. now rewrite value_zero.
Qed.

(** The padded decimal of a number that is not negative tells the
    number. *)
Lemma format_d_injective (width : nat) (i j : Z) :
  0 <= i -> 0 <= j -> Py.format_d width i = Py.format_d width j -> i = j.
Proof.
  intros Hi Hj E.
  assert (H : PyInt.value (Py.format_d width i)
              = PyInt.value (Py.format_d width j)) by now rewrite E.
  rewrite (format_d_nonneg width i Hi), (format_d_nonneg width j Hj) in H.
  rewrite !value_zeros, !value_of_digits in H.
  assert (Z.abs i = Z.abs j) by congruence. lia.
Qed.

Lemma zeros_chars (k : nat) : all_chars TextWrap.digit (Py.zeros k) = true.
Proof. induction k as [| k IH]; [reflexivity | exact IH]. Qed.

Lemma format_d_chars (width : nat) (n : Z) :
  0 <= n ->
  all_chars TextWrap.digit (Py.format_d width n) = true
  /\ Py.format_d width n <> "".
Proof.
  intros Hn. rewrite (format_d_nonneg width n Hn). split.
  - now rewrite all_chars_append, zeros_chars, digits_chars.
  - pose proof (digits_nonempty n) as Hd.
    destruct (Py.zeros _); [exact Hd | discriminate].
Qed.

Lemma lower_append (a b : string) :
  Slug.lower (a ++ b) = Slug.lower a ++ Slug.lower b.
Proof.
  induction a as [| c a IH]; [reflexivity |].
  cbn [String.append Slug.lower]. now rewrite IH.
Qed.

Lemma drop_others_append (a b : string) :
  Slug.drop_others (a ++ b) = Slug.drop_others a ++ Slug.drop_others b.
Proof.
  induction a as [| c a IH]; [reflexivity |].
  cbn [String.append Slug.drop_others]. rewrite IH. now destruct (Slug.kept c).
Qed.

Lemma digit_in_slug (c : ascii) :
  TextWrap.digit c = true ->
  Ascii.eqb (Slug.lower_char c) c = true
  /\ Slug.kept c = true
  /\ Slug.separator c = false
  /\ Slug.dash_or_underscore c = false.
Proof.
  destruct c as [b0 b1 b2 b3 b4 b5 b6 b7].
  destruct b0, b1, b2, b3, b4, b5, b6, b7; vm_compute; intros H;
    first [discriminate H | repeat split].
Qed.

Lemma collapse_from_digits (digits : string) :
  all_chars TextWrap.digit digits = true ->
  forall (in_run : bool) (rest : string),
    digits <> "" \/ in_run = false ->
    Slug.collapse_from in_run (digits ++ rest)
    = digits ++ Slug.collapse_from false rest.
Proof.
  induction digits as [| c r IH]; intros Hd in_run rest Hne.
  - destruct Hne as [Hne | ->]; [congruence | reflexivity].
  - cbn [all_chars] in Hd. apply andb_prop in Hd as [Hc Hr].
    destruct (digit_in_slug c Hc) as (_ & _ & Hsep & _).
    cbn [String.append Slug.collapse_from]. rewrite Hsep.
    rewrite (IH Hr false rest); [reflexivity | now right].
Qed.

Lemma rstrip_by_append_kept (q : ascii -> bool) (kept rest : string) :
  all_chars (fun c => negb (q c)) kept = true ->
  Py.rstrip_by q (kept ++ rest) = kept ++ Py.rstrip_by q rest.
Proof.
  induction kept as [| c r IH]; [reflexivity |].
  cbn [all_chars]. intros H. apply andb_prop in H as [Hc Hr].
  apply negb_true_iff in Hc.
  cbn [String.append Py.rstrip_by]. rewrite (IH Hr), Hc.
  destruct (r ++ Py.rstrip_by q rest) as [| d t] eqn:E; [| reflexivity].
  reflexivity.
Qed.

(** The slug of a text that starts with digits and an underscore starts
    with these digits, and goes on with an underscore if it goes on. *)
Lemma slug_of_numbered (digits rest : string) :
  all_chars TextWrap.digit digits = true ->
  digits <> "" ->
  exists tail,
    Slug.strip_chars
      (Slug.collapse (Slug.drop_others (Slug.lower ((digits ++ "_") ++ rest))))
    = digits ++ tail
    /\ (tail = "" \/ exists t, tail = String "_" t).
Proof.
  intros Hd Hne.
  assert (Hfixed : all_chars (fun c => Ascii.eqb (Slug.lower_char c) c) digits = true).
  { eapply all_chars_impl; [| exact Hd]. intros c Hc.
    exact (proj1 (digit_in_slug c Hc)). }
  assert (Hkept : all_chars Slug.kept digits = true).
  { eapply all_chars_impl; [| exact Hd]. intros c Hc.
    exact (proj1 (proj2 (digit_in_slug c Hc))). }
  assert (Hnot : all_chars (fun c => negb (Slug.dash_or_underscore c)) digits = true).
  { eapply all_chars_impl; [| exact Hd]. intros c Hc.
    destruct (digit_in_slug c Hc) as (_ & _ & _ & H). now rewrite H. }
  rewrite append_assoc, lower_append, (lower_of_fixed digits Hfixed).
  rewrite drop_others_append, (drop_others_fixed digits Hkept).
  unfold Slug.collapse.
  rewrite (collapse_from_digits digits Hd false _ (or_introl Hne)).
  change (Slug.collapse_from false (Slug.drop_others (Slug.lower ("_" ++ rest))))
    with (String "_" (Slug.collapse_from false (Slug.drop_others (Slug.lower rest)))).
  set (z := Slug.collapse_from false (Slug.drop_others (Slug.lower rest))).
  unfold Slug.strip_chars.
  rewrite (lstrip_by_fixed Slug.dash_or_underscore (digits ++ String "_" z)).
  2:{ destruct digits as [| c r]; [congruence |].
      cbn [String.append first_char]. cbn [all_chars] in Hd.
      apply andb_prop in Hd as [Hc _].
      now destruct (digit_in_slug c Hc) as (_ & _ & _ & H). }
  rewrite (rstrip_by_append_kept _ digits (String "_" z) Hnot).
  exists (Py.rstrip_by Slug.dash_or_underscore (String "_" z)).
  split; [reflexivity |].
  destruct (Py.rstrip_by Slug.dash_or_underscore (String "_" z)) as [| d t] eqn:E;
    [now left | right].
  destruct (rstrip_by_head _ _ _ _ E) as [t' Ht].
  assert (d = "_"%char) by congruence. subst d. now exists t.
Qed.

(** The digits at the head of the name of a file written for the source
    of index [i], among several, are those of the index. *)
Lemma numbered_file_digits (normalize : string -> string -> string)
    (i : Z) (source : AudioSource) (suffix : string) :
  keeps_numbered_prefix normalize ->
  0 <= i ->
  digit_run (file_prefix normalize (Py.format_d 2 i ++ "_") source
             ++ String "-" suffix)
  = Py.format_d 2 i.
Proof.
  intros Hnorm Hi. unfold file_prefix, Slug.slugify.
  destruct (Hnorm i (get_short_name source)) as [t ->].
  destruct (format_d_chars 2 i Hi) as [Hd Hne].
  destruct (slug_of_numbered (Py.format_d 2 i) t Hd Hne) as [tail [-> Htail]].
  rewrite append_assoc. apply digit_run_append; [exact Hd |].
  destruct Htail as [-> | [t' ->]]; reflexivity.
Qed.

Lemma append_same_head (a b c : string) : a ++ b = a ++ c -> b = c.
Proof.
  induction a as [| x a IH]; [now intros H |].
  cbn [String.append]. intros H. apply IH. congruence.
Qed.

(** The five files of a source. *)
Lemma write_result_files (result : TranscriptionResult) (source_name : string)
    (highlight_words : bool) (w : written) :
  write_result result source_name highlight_words = inl w ->
  output_files w
  = [source_name ++ "-subs.srt"; source_name ++ "-subs.vtt";
     source_name ++ "-transcript.txt"; source_name ++ "-transcript.html";
     source_name ++ "-result.json"]
  /\ NoDup (output_files w).
Proof.
  unfold write_result.
  destruct (__get_subs (res_segments result) "vtt" _ highlight_words)
    as [s1 [vtt | e]]; [| discriminate].
  destruct (__get_subs s1 "srt" _ highlight_words) as [s2 [srt | e]];
    [| discriminate].
  destruct (__get_subs s2 "html" _ highlight_words) as [s3 [html | e]];
    [| discriminate].
  intros H. injection H as Hw. subst w.
  cbn [output_files]. split; [reflexivity |].
  repeat constructor; cbn [In]; intros H';
    repeat (destruct H' as [H' | H'];
            [apply append_same_head in H'; discriminate H' |]);
    exact H'.
Qed.

Lemma no_slash_append (a b : string) :
  no_slash (a ++ b) = no_slash a && no_slash b.
Proof. apply all_chars_append. Qed.

Lemma after_slash_no_slash (s : string) : no_slash s = true -> after_slash s = s.
Proof.
  destruct s as [| c r]; [reflexivity |].
  unfold no_slash. cbn [all_chars after_slash]. intros H.
  apply andb_prop in H as [Hc Hr]. apply negb_true_iff in Hc.
  rewrite Hc. unfold no_slash. now rewrite Hr.
Qed.

Lemma after_slash_append (a b : string) :
  no_slash b = true -> after_slash (a ++ "/" ++ b) = b.
Proof.
  intros Hb. induction a as [| c r IH].
  - cbn [String.append after_slash Ascii.eqb Bool.eqb].
    now apply after_slash_no_slash.
  - cbn [String.append after_slash]. destruct (Ascii.eqb c "/"); [exact IH |].
    replace (no_slash (r ++ String "/" b)) with false; [exact IH |].
    symmetry. rewrite no_slash_append. unfold no_slash at 2.
    cbn [all_chars Ascii.eqb Bool.eqb negb andb]. apply andb_false_r.
Qed.

Lemma last_char_slash (directory : string) :
  last_char directory = Some "/"%char -> exists d, directory = d ++ "/".
Proof.
  induction directory as [| c r IH]; [discriminate |].
  destruct r as [| e t].
  - cbn [last_char]. intros H. assert (c = "/"%char) by congruence. subst.
    now exists "".
  - change (last_char (String c (String e t))) with (last_char (String e t)).
    intros H. destruct (IH H) as [d Hd]. exists (String c d).
    cbn [String.append]. now rewrite <- Hd.
Qed.

(** The name of a file is what follows the last slash of its path. *)
Lemma after_slash_in_directory (directory name : string) :
  no_slash name = true -> after_slash (in_directory directory name) = name.
Proof.
  intros Hname. unfold in_directory.
  destruct (last_char directory) as [c |] eqn:Hlast.
  - destruct (Ascii.eqb_spec c "/") as [-> | _].
    + destruct (last_char_slash directory Hlast) as [d ->].
      cbn [String.append]. rewrite append_assoc.
      now apply after_slash_append.
    + now apply after_slash_append.
  - destruct directory as [| c r].
    + cbn [String.append]. now apply after_slash_no_slash.
    + exfalso. destruct (last_char_drop c r) as [d [H _]]. congruence.
Qed.

Lemma no_slash_relative (name : string) :
  no_slash name = true -> String.prefix "/" name = false.
Proof.
  destruct name as [| c r]; [reflexivity |].
  unfold no_slash. cbn [all_chars]. intros H. apply andb_prop in H as [Hc _].
  apply negb_true_iff in Hc. cbn [String.prefix].
  destruct (Ascii.ascii_dec "/" c) as [E | _]; [| reflexivity].
  subst c. discriminate Hc.
Qed.

Lemma after_slash_create_file (directory name : string) :
  no_slash name = true -> after_slash (__create_file directory name) = name.
Proof.
  intros Hname. unfold __create_file.
  rewrite (os_path_join_relative _ _ (no_slash_relative name Hname)).
  now apply after_slash_in_directory.
Qed.

Lemma slug_char_not_slash (c : ascii) :
  slug_char c = true -> negb (Ascii.eqb c "/") = true.
Proof.
  destruct c as [b0 b1 b2 b3 b4 b5 b6 b7].
  destruct b0, b1, b2, b3, b4, b5, b6, b7; vm_compute; intros H;
    first [reflexivity | discriminate H].
Qed.

Lemma file_prefix_no_slash (normalize : string -> string -> string)
    (source_prefix : string) (source : AudioSource) :
  no_slash (file_prefix normalize source_prefix source) = true.
Proof.
  unfold no_slash, file_prefix, Slug.slugify.
  eapply all_chars_impl; [exact slug_char_not_slash | apply slug_chars_of_any].
Qed.

(** The names of the files of a source, read off their paths. *)
Lemma written_names (normalize : string -> string -> string)
    (source_prefix outputDirectory : string) (source : AudioSource)
    (highlight_words : bool) (w : written) :
  write_result (transcribed source) (file_prefix normalize source_prefix source)
    highlight_words = inl w ->
  List.map after_slash (List.map (__create_file outputDirectory) (output_files w))
  = output_files w.
Proof.
  intros Hw. destruct (write_result_files _ _ _ _ Hw) as [-> _].
  pose proof (file_prefix_no_slash normalize source_prefix source) as Hp.
  cbn [map].
  rewrite !after_slash_create_file; [reflexivity | ..];
    rewrite no_slash_append, Hp; reflexivity.
Qed.

(** The loop over several sources adds files whose names differ from
    each other, and start with the digits of an index after the one it
    started from. *)
Lemma transcribe_sources_files (normalize : string -> string -> string)
    (linesep outputDirectory : string) (highlight_words : bool) :
  keeps_numbered_prefix normalize ->
  forall (sources : list AudioSource) (source_index : Z)
         (download : list string) (text vtt : string)
         (download' : list string) (text' vtt' : string),
    0 <= source_index ->
    transcribe_sources normalize linesep outputDirectory true highlight_words
      sources source_index download text vtt = inl (download', text', vtt') ->
    exists added,
      download' = (download ++ added)%list
      /\ NoDup (List.map after_slash added)
      /\ Forall (fun name => exists k, source_index < k
                                       /\ digit_run name = Py.format_d 2 k)
           (List.map after_slash added).
Proof.
  intros Hnorm. induction sources as [| source rest IH];
    intros source_index download text vtt download' text' vtt' Hi Hrun.
  - cbn [transcribe_sources] in Hrun. exists [].
    assert (download' = download) by congruence. subst.
    rewrite app_nil_r. repeat split; constructor.
  - cbn [transcribe_sources] in Hrun. cbv zeta in Hrun.
    destruct (write_result (transcribed source)
                (file_prefix normalize (Py.format_d 2 (source_index + 1) ++ "_")
                   source) highlight_words) as [w | e] eqn:Hw;
      [| discriminate].
    pose proof (written_names normalize _ outputDirectory source _ w Hw) as Hnames.
    destruct (write_result_files _ _ _ _ Hw) as [Hfiles Hnodup].
    assert (Hi' : 0 <= source_index + 1) by lia.
    destruct (IH _ _ _ _ _ _ _ Hi' Hrun) as [added [Hd [Hadded Hall]]].
    assert (Hnew : Forall (fun name => digit_run name
                                       = Py.format_d 2 (source_index + 1))
                     (output_files w)).
    { rewrite Hfiles.
      repeat constructor;
        apply (numbered_file_digits normalize (source_index + 1) source _ Hnorm);
        lia. }
    exists (List.map (__create_file outputDirectory) (output_files w)
            ++ added)%list.
    split; [now rewrite Hd, <- app_assoc |].
    rewrite map_app, Hnames. split.
    + apply NoDup_app; [exact Hnodup | exact Hadded |].
      intros name Hin1 Hin2.
      rewrite Forall_forall in Hnew, Hall.
      destruct (Hall name Hin2) as [k [Hk Hrunk]].
      rewrite (Hnew name Hin1) in Hrunk.
      apply format_d_injective in Hrunk; lia.
    + apply Forall_app. split.
      * eapply Forall_impl; [| exact Hnew]. cbv beta.
        intros name Hname. exists (source_index + 1). split; [lia | exact Hname].
      * eapply Forall_impl; [| exact Hall]. cbv beta.
        intros name [k [Hk Hname]]. exists k. split; [lia | exact Hname].
Qed.

(** X21.  No file overwrites another: when the normal form keeps the
    numbered prefix of the sources and the time stamp holds no slash,
    the paths that [transcribe_webui] returns all have different file
    names (the text after the last slash), whatever the names of the
    sources and the two directories are, so the paths differ too: the
    names of different sources start with the digits of different
    indices, and the name of the archive, which comes first, starts
    with no digit. *)
Theorem transcribe_webui_files_have_different_names
    (normalize : string -> string -> string) (linesep : string)
    (output_dir : option string) (downloadDirectory stamp : string)
    (override_max_sources : option Z)
    (highlight_words : bool) (source : SourceOutcome)
    (download : list string) (text vtt : string) :
  keeps_numbered_prefix normalize ->
  no_slash stamp = true ->
  transcribe_webui normalize linesep output_dir downloadDirectory stamp
    override_max_sources highlight_words source
  = inl (download, text, vtt) ->
  NoDup (List.map after_slash download) /\ NoDup download.
Proof.
  intros Hnorm Hstamp Hrun.
  assert (Hnames : NoDup (List.map after_slash download));
    [| split; [exact Hnames | exact (NoDup_map_inv _ _ Hnames)]].
  unfold transcribe_webui in Hrun.
  destruct source as [sources | maxDuration videoDuration].
  2:{ assert (download = []) by congruence. subst. constructor. }
  destruct (match override_max_sources with
            | Some limit => limit <? Z.of_nat (List.length sources)
            | None => false
            end); [discriminate |].
  cbv zeta in Hrun.
  set (outputDirectory := match output_dir with
                          | Some directory => directory
                          | None => downloadDirectory
                          end) in Hrun.
  destruct (1 <? Z.of_nat (List.length sources)) eqn:Hmany.
  - destruct (transcribe_sources normalize linesep outputDirectory true
                highlight_words sources 0 [] "" "")
      as [[[files text0] vtt0] | e] eqn:Hloop; [| discriminate].
    destruct (transcribe_sources_files normalize linesep outputDirectory
                highlight_words Hnorm sources 0 [] "" "" files text0 vtt0
                ltac:(lia) Hloop) as [added [Hfiles [Hnodup Hall]]].
    cbn [app] in Hfiles. subst files.
    assert (download = os_path_join downloadDirectory
                         ("All_Output-" ++ stamp ++ ".zip") :: added)
      by congruence.
    subst download. cbn [map].
    assert (Harchive : after_slash
                         (os_path_join downloadDirectory
                            ("All_Output-" ++ stamp ++ ".zip"))
                       = "All_Output-" ++ stamp ++ ".zip").
    { apply (after_slash_create_file downloadDirectory).
      rewrite !no_slash_append, Hstamp. reflexivity. }
    rewrite Harchive. constructor; [| exact Hnodup].
    intros Hin. rewrite Forall_forall in Hall.
    destruct (Hall _ Hin) as [k [Hk Hdigits]].
    change (digit_run ("All_Output-" ++ stamp ++ ".zip")) with "" in Hdigits.
    destruct (format_d_chars 2 k ltac:(lia)) as [_ Hne]. congruence.
  - destruct sources as [| source [| source' rest]].
    + cbn [transcribe_sources] in Hrun.
      assert (download = []) by congruence. subst. constructor.
    + cbn [transcribe_sources] in Hrun. cbv zeta in Hrun.
      destruct (write_result (transcribed source) (file_prefix normalize "" source)
                  highlight_words) as [w | e] eqn:Hw; [| discriminate].
      cbn [app transcribe_sources] in Hrun.
      assert (download = List.map (__create_file outputDirectory) (output_files w))
        by congruence.
      subst download.
      rewrite (written_names normalize "" outputDirectory source _ w Hw).
      exact (proj2 (write_result_files _ _ _ _ Hw)).
    + exfalso. apply Z.ltb_ge in Hmany. cbn [List.length] in Hmany. lia.
Qed.

Lemma transcribe_webui_files_have_different_names_witness :
  NoDup (List.map after_slash
           ["/tmp/dl/All_Output-20240101-120000.zip";
            "/srv/out/01_talk-subs.srt"; "/srv/out/01_talk-subs.vtt";
            "/srv/out/01_talk-transcript.txt"; "/srv/out/01_talk-transcript.html";
            "/srv/out/01_talk-result.json";
            "/srv/out/02_talk-subs.srt"; "/srv/out/02_talk-subs.vtt";
            "/srv/out/02_talk-transcript.txt"; "/srv/out/02_talk-transcript.html";
            "/srv/out/02_talk-result.json"])
  /\ NoDup ["/tmp/dl/All_Output-20240101-120000.zip";
            "/srv/out/01_talk-subs.srt"; "/srv/out/01_talk-subs.vtt";
            "/srv/out/01_talk-transcript.txt"; "/srv/out/01_talk-transcript.html";
            "/srv/out/01_talk-result.json";
            "/srv/out/02_talk-subs.srt"; "/srv/out/02_talk-subs.vtt";
            "/srv/out/02_talk-transcript.txt"; "/srv/out/02_talk-transcript.html";
            "/srv/out/02_talk-result.json"].
Proof.
  eapply (transcribe_webui_files_have_different_names Slug.normalize_ascii Py.nl
            (Some "/srv/out/") "/tmp/dl" "20240101-120000" None false
            (Sources [sample_source "a/Talk.mp3" "Talk" "x" [];
                      sample_source "b/Talk.mp3" "Talk" "y" []])).
  - intros i name. eexists. reflexivity.
  - reflexivity.
  - vm_compute. reflexivity.
Defined.

(* ================================================================== *)
(** * Writing a result without highlighting *)

Lemma max_line_width_not_zero (language : option string) :
  Some (__get_max_line_width language) <> Some 0.
Proof.
  unfold __get_max_line_width. destruct language as [l |]; [| discriminate].
  destruct (_ && _); discriminate.
Qed.

Lemma srt_block_returns (i : Z) (c : Cue) :
  (exists s, srt_block i c = Ok s) <-> cue_formattable c = true.
Proof.
  unfold cue_formattable, formattable, srt_block, bind.
  destruct (format_timestamp (cue_start c) true ",") as [start | e].
  - destruct (format_timestamp (cue_end c) true ",") as [end_ | e'].
    + split; [reflexivity | intros _; eexists; reflexivity].
    + split; [intros [s H]; discriminate H | discriminate].
  - split; [intros [s H]; discriminate H | discriminate].
Qed.

Lemma vtt_block_returns (i : Z) (c : Cue) :
  (exists s, vtt_block i c = Ok s) <-> cue_formattable c = true.
Proof.
  unfold cue_formattable. rewrite andb_true_iff.
  rewrite <- (format_timestamp_returns (cue_start c) false ".").
  rewrite <- (format_timestamp_returns (cue_end c) false ".").
  unfold vtt_block, bind.
  destruct (format_timestamp (cue_start c) false ".") as [start | e].
  - destruct (format_timestamp (cue_end c) false ".") as [end_ | e'].
    + split; [intros _; split; eexists; reflexivity | intros _; eexists; reflexivity].
    + split; [intros [s H]; discriminate H | intros [_ [s H]]; discriminate H].
  - split; [intros [s H]; discriminate H | intros [[s H] _]; discriminate H].
Qed.

Lemma preprocess_segment_plain_pair (maxLineWidth : option Z) (segment : Segment) :
  maxLineWidth <> Some 0 ->
  exists text,
    preprocess_segment maxLineWidth false segment
    = (touched segment,
       {| yielded := [mk_cue (seg_start segment) (seg_end segment) text];
          raised := None |}).
Proof.
  intros Hw. destruct (preprocess_segment_plain maxLineWidth segment Hw) as [text Hs].
  pose proof (preprocess_segment_touched maxLineWidth false segment) as Hf.
  exists text. destruct (preprocess_segment maxLineWidth false segment) as [s out].
  cbn [fst snd] in Hs, Hf. now subst.
Qed.

Lemma times_formattable_touched (segment : Segment) :
  times_formattable (touched segment) = times_formattable segment.
Proof.
  destruct (touched_same_but_words segment) as (Hs & He & _).
  unfold times_formattable. now rewrite Hs, He.
Qed.

(** Without highlighting, a renderer of cues whose block can be written
    exactly for the cues that can be formatted: it ends well exactly
    when the times of all the segments can be formatted, and it has
    then taken up every segment. *)
Lemma render_transcript_plain (block : Z -> Cue -> result string)
    (maxLineWidth : option Z) :
  (forall i c, (exists s, block i c = Ok s) <-> cue_formattable c = true) ->
  maxLineWidth <> Some 0 ->
  forall (transcript : list Segment) (i : Z) (file : string),
    if forallb times_formattable transcript
    then exists file',
        render_transcript block transcript maxLineWidth false i file
        = (List.map touched transcript, file', None)
    else exists segments file' e,
        render_transcript block transcript maxLineWidth false i file
        = (segments, file', Some e).
Proof.
  intros Hblock Hw. induction transcript as [| segment rest IH]; intros i file.
  - cbn [forallb]. now exists file.
  - rewrite render_transcript_cons.
    destruct (preprocess_segment_plain_pair maxLineWidth segment Hw) as [text ->].
    cbn [yielded raised write_cues forallb].
    pose proof (Hblock i (mk_cue (seg_start segment) (seg_end segment) text))
      as Hret.
    change (cue_formattable (mk_cue (seg_start segment) (seg_end segment) text))
      with (times_formattable segment) in Hret.
    destruct (block i (mk_cue (seg_start segment) (seg_end segment) text))
      as [s | e].
    + rewrite (proj1 Hret (ex_intro _ s eq_refl)). cbn [andb write_cues].
      specialize (IH (i + 1) (print s file)).
      destruct (forallb times_formattable rest).
      * destruct IH as [file' ->]. now exists file'.
      * destruct IH as (segments & file' & e & ->).
        now exists (touched segment :: segments), file', e.
    + destruct (times_formattable segment).
      * destruct (proj2 Hret eq_refl) as [s H]. discriminate H.
      * cbn [andb]. now exists (touched segment :: rest), file, e.
Qed.

Lemma forallb_map_touched (f : Segment -> bool) (transcript : list Segment) :
  (forall s, f (touched s) = f s) ->
  forallb f (List.map touched transcript) = forallb f transcript.
Proof.
  intros Hf. induction transcript as [| s rest IH]; [reflexivity |].
  cbn [map forallb]. now rewrite Hf, IH.
Qed.

Lemma writable_all (transcript : list Segment) :
  forallb writable transcript
  = forallb times_formattable transcript && forallb html_writable transcript.
Proof.
  induction transcript as [| s rest IH]; [reflexivity |].
  cbn [forallb]. rewrite IH.
  generalize (forallb times_formattable rest), (forallb html_writable rest).
  intros a b. unfold writable, html_writable, times_formattable.
  destruct (formattable (seg_start s)), (formattable (seg_end s)),
    (unlabelled s), a, b; reflexivity.
Qed.

(** X22.  Without highlighting, [write_result] returns exactly when
    every segment of the result has a speaker label, a start and an end
    that can be formatted, whatever the language and the texts are.  It
    then returns the text of the result as it is, and it has taken up
    every segment twice, once for each of the two subtitle files: a
    segment with words and a label ends with two pseudo-words of its
    speaker. *)
Theorem write_result_plain_returns (result : TranscriptionResult)
    (source_name : string) :
  ((exists w, write_result result source_name false = inl w)
   <-> forallb writable (res_segments result) = true)
  /\ forall w,
      write_result result source_name false = inl w ->
      out_text w = res_text result
      /\ segments_after w
         = List.map touched (List.map touched (res_segments result)).
Proof.
  pose proof (max_line_width_not_zero (res_language result)) as Hw.
  set (width := __get_max_line_width (res_language result)) in *.
  pose proof (render_transcript_plain vtt_block (Some width) vtt_block_returns Hw
                (res_segments result) 1 (print ("WEBVTT" ++ Py.nl) "")) as Hvtt.
  pose proof (render_transcript_plain srt_block (Some width) srt_block_returns Hw
                (List.map touched (res_segments result)) 1 "") as Hsrt.
  rewrite (forallb_map_touched times_formattable _ times_formattable_touched)
    in Hsrt.
  rewrite writable_all.
  unfold write_result. fold width.
  change (__get_subs (res_segments result) "vtt" width false)
    with (match write_vtt (res_segments result) "" (Some width) false with
          | (segments', file, None) => (segments', inl file)
          | (segments', _, Some e) => (segments', inr (A := string) (Raised e))
          end).
  unfold write_vtt.
  destruct (forallb times_formattable (res_segments result)).
  - destruct Hvtt as [vtt ->]. destruct Hsrt as [srt Hsrt].
    change (__get_subs (List.map touched (res_segments result)) "srt" width false)
      with (match write_srt (List.map touched (res_segments result)) ""
                    (Some width) false with
            | (segments', file, None) => (segments', inl file)
            | (segments', _, Some e) => (segments', inr (A := string) (Raised e))
            end).
    unfold write_srt. rewrite Hsrt.
    set (segments2 := List.map touched (List.map touched (res_segments result))).
    change (__get_subs segments2 "html" width false)
      with (match write_html segments2 "" (Some width) false with
            | (file, None) => (segments2, inl file)
            | (_, Some e) => (segments2, inr (A := string) (Raised e))
            end).
    unfold write_html.
    assert (Hhtml : forallb html_writable segments2
                    = forallb html_writable (res_segments result)).
    { unfold segments2.
      now rewrite !(forallb_map_touched html_writable _ html_writable_touched). }
    rewrite <- Hhtml. cbn [andb].
    destruct (forallb html_writable segments2) eqn:Hall.
    + destruct (write_html_segments_written segments2 (html_head "") Hall)
        as [blocks [-> _]].
      split.
      * split; [reflexivity | intros _; eexists; reflexivity].
      * intros w H. injection H as H. subst w. now split.
    + destruct (write_html_segments_fails segments2 (html_head "") Hall) as [e He].
      destruct (write_html_segments segments2 (html_head "")) as [file r].
      cbn [snd] in He. subst r. split.
      * split; [intros [w H]; discriminate H | discriminate].
      * intros w H. discriminate H.
  - destruct Hvtt as (segments & vtt & e & ->). cbn [andb]. split.
    + split; [intros [w H]; discriminate H | discriminate].
    + intros w H. discriminate H.
Qed.

Lemma write_result_plain_returns_witness :
  exists w,
    write_result
      (sample_result " Hello world"
         [sample_segment 0 1 " Hello" [(0, 1, " Hello")]%float (Some "SPEAKER_00");
          sample_segment 1 2.5 " world" [] (Some "SPEAKER_01")])
      "talk" false
    = inl w.
Proof.
  apply (proj1 (write_result_plain_returns
                  (sample_result " Hello world"
                     [sample_segment 0 1 " Hello" [(0, 1, " Hello")]%float
                        (Some "SPEAKER_00");
                      sample_segment 1 2.5 " world" [] (Some "SPEAKER_01")])
                  "talk")).
  vm_compute. reflexivity.
Defined.
